(** * ServerlessImagingAWS: aperture restriction, gradient embedding,
      model geometry and damping

    A shallow embedding of
      - [docker/single_node_batch/devito_isotropic/CloudExtras.py]
        (tag encoding of the model geometry, [restrict_model_to_receiver_grid],
        [extent_gradient]), and
      - [docker/multi_node_batch/devito_isotropic/PyModel.py]
        ([initialize_damp], [initialize_function], [Model]).

    Conventions.
      - Python exceptions are values of [pyerr]; a computation that may raise
        has type [py A].
      - A numpy array is its shape together with its element map
        ([ndarray]); only the elements at in-bounds indices mean anything.
        Where the element type matters (the bytes written to the store) an
        array carries it ([tarray]).
      - Numbers come in two readings.  In [CloudExtras] and [PyModel] the
        floating-point numbers are idealised as exact numbers (rationals,
        and reals where the code needs [sqrt], [log] and [sin]) and the
        [dtype] casts are the identity: this reading is used for what does
        not depend on rounding.  In [Fp], [CloudFloat] and [ModelFloat] the
        numbers are IEEE 754 doubles and singles with round-to-nearest-even
        arithmetic ([SpecFloat]), as the interpreter and numpy compute
        them: this reading is used wherever an index, a truncated digit or
        an exception depends on rounding. *)

From Stdlib Require Import ZArith QArith Qminmax Qround Qabs.
From Stdlib Require Import Reals Lra Lia Psatz.
From Stdlib Require Import List String Ascii Bool.
From Stdlib Require Import Decimal DecimalString DecimalZ.
From Stdlib Require Import SpecFloat.
Import ListNotations.

Set Implicit Arguments.

(* ################################################################## *)
(** * Python values: exceptions, tuples, slices *)

Module Py.

Inductive pyerr : Type :=
| ValueError
| IndexError
| NameError
| AttributeError
| ZeroDivisionError
| OverflowError
| AssertionError
| TypeError.

Definition py (A : Type) : Type := (pyerr + A)%type.

Definition ret {A : Type} (a : A) : py A := inr a.

Definition raise {A : Type} (e : pyerr) : py A := inl e.

Definition bind {A B : Type} (c : py A) (k : A -> py B) : py B :=
  match c with
  | inl e => inl e
  | inr a => k a
  end.

Definition len {A : Type} (l : list A) : Z := Z.of_nat (List.length l).

(** [t[i]] on a tuple or list, negative indices counting from the end. *)
Definition getitem {A : Type} (l : list A) (i : Z) : py A :=
  let k := if (i <? 0)%Z then (i + len l)%Z else i in
  if (k <? 0)%Z then raise IndexError
  else match nth_error l (Z.to_nat k) with
       | Some a => ret a
       | None => raise IndexError
       end.

(** [range(n)] *)
Definition range (n : Z) : list Z := map Z.of_nat (seq 0 (Z.to_nat n)).

(** One bound of [slice(start, stop)] on a sequence of length [n]:
    a negative bound counts from the end, and the result is clipped to
    [0..n]. *)
Definition slice_bound (n i : Z) : Z :=
  if (i <? 0)%Z then Z.max 0 (n + i) else Z.min i n.

(** First index and length selected by [start:stop] on length [n]. *)
Definition slice_range (n start stop : Z) : Z * Z :=
  let a := slice_bound n start in
  let b := slice_bound n stop in
  (a, Z.max 0 (b - a)).

End Py.

Import Py.

Declare Scope py_scope.
Delimit Scope py_scope with py.
Notation "x <- c ;; k" := (bind c (fun x => k))
  (at level 61, c at next level, right associativity) : py_scope.
Notation "' p <- c ;; k" := (bind c (fun x => let p := x in k))
  (at level 61, p pattern, c at next level, right associativity) : py_scope.
Open Scope py_scope.

(* ################################################################## *)
(** * numpy arrays *)

Module Np.

Record ndarray (A : Type) : Type := NDArray
  { shape : list Z;
    item : list Z -> A }.

Arguments NDArray {A} _ _.

Definition ndim {A : Type} (a : ndarray A) : Z := len (shape a).

(** Component [k] of a multi-index. *)
Definition ix (idx : list Z) (k : nat) : Z := nth k idx 0%Z.

(** Apply [f] to component [k] of a list. *)
Fixpoint upd {A : Type} (k : nat) (f : A -> A) (l : list A) : list A :=
  match l, k with
  | [], _ => []
  | x :: r, O => f x :: r
  | x :: r, S k' => x :: upd k' f r
  end.

Fixpoint in_boundsb (sh idx : list Z) : bool :=
  match sh, idx with
  | [], [] => true
  | n :: sh', i :: idx' => (0 <=? i)%Z && (i <? n)%Z && in_boundsb sh' idx'
  | _, _ => false
  end.

Definition in_bounds (sh idx : list Z) : Prop := in_boundsb sh idx = true.

Fixpoint list_eqb (l1 l2 : list Z) : bool :=
  match l1, l2 with
  | [], [] => true
  | x :: r1, y :: r2 => (x =? y)%Z && list_eqb r1 r2
  | _, _ => false
  end.

(** [np.full(shape, v)]; [np.zeros] and [np.ones] are instances.  A negative
    dimension is a [ValueError]. *)
Definition full {A : Type} (sh : list Z) (v : A) : py (ndarray A) :=
  if forallb (fun n => (0 <=? n)%Z) sh
  then ret (NDArray sh (fun _ => v))
  else raise ValueError.

(** Basic slicing [a[..., start:stop, ...]] along one axis. *)
Definition getslice {A : Type} (axis : nat) (start stop : Z) (a : ndarray A)
  : py (ndarray A) :=
  match nth_error (shape a) axis with
  | None => raise IndexError
  | Some n =>
      let '(lo, k) := slice_range n start stop in
      ret (NDArray (upd axis (fun _ => k) (shape a))
                   (fun idx => item a (upd axis (Z.add lo) idx)))
  end.

(** [np.concatenate((a, b), axis)]: same rank, same extent off the axis. *)
Definition concat2 {A : Type} (axis : nat) (a b : ndarray A) : py (ndarray A) :=
  match nth_error (shape a) axis, nth_error (shape b) axis with
  | Some na, Some nb =>
      if list_eqb (upd axis (fun _ => 0%Z) (shape a))
                  (upd axis (fun _ => 0%Z) (shape b))
      then ret (NDArray (upd axis (fun _ => (na + nb)%Z) (shape a))
                  (fun idx => if (ix idx axis <? na)%Z then item a idx
                              else item b (upd axis (fun i => (i - na)%Z) idx)))
      else raise ValueError
  | _, _ => raise ValueError
  end.

(** [np.concatenate(arrays, axis)] *)
Definition concatenate {A : Type} (arrays : list (ndarray A)) (axis : nat)
  : py (ndarray A) :=
  match arrays with
  | [] => raise ValueError
  | a :: rest => fold_left (fun acc b => r <- acc ;; concat2 axis r b) rest (ret a)
  end.

(** All multi-indices of a shape, in row-major order. *)
Fixpoint indices (sh : list Z) : list (list Z) :=
  match sh with
  | [] => [[]]
  | n :: sh' => flat_map (fun i => map (cons i) (indices sh')) (range n)
  end.

(** The elements in row-major order ([a.ravel()]). *)
Definition ravel {A : Type} (a : ndarray A) : list A :=
  map (item a) (indices (shape a)).

(** Row-major offset of a multi-index. *)
Fixpoint ravel_index (sh idx : list Z) : Z :=
  match sh, idx with
  | _ :: sh', i :: idx' => (i * fold_right Z.mul 1 sh' + ravel_index sh' idx')%Z
  | _, _ => 0%Z
  end.

(** [x.reshape(shape)] of a flat array [x]. *)
Definition reshape {A : Type} (dflt : A) (flat : list A) (sh : list Z)
  : py (ndarray A) :=
  if forallb (fun n => (0 <=? n)%Z) sh && (fold_right Z.mul 1 sh =? len flat)%Z
  then ret (NDArray sh (fun idx => nth (Z.to_nat (ravel_index sh idx)) flat dflt))
  else raise ValueError.

(** Elementwise map ([f(a)] for a ufunc or arithmetic expression [f]). *)
Definition map_nd {A B : Type} (f : A -> B) (a : ndarray A) : ndarray B :=
  NDArray (shape a) (fun idx => f (item a idx)).

End Np.

Import Np.

(* ################################################################## *)
(** * CloudExtras.py *)

Module CloudExtras.

Local Open Scope Q_scope.

(** ** Python builtins used by the tag encoding *)

(** [str(n)] for an integer [n]. *)
Definition str_int (n : Z) : string := NilZero.string_of_int (Z.to_int n).

(** [s.split(sep)] for a one-character separator. *)
Fixpoint split (sep : ascii) (s : string) : list string :=
  match s with
  | EmptyString => [EmptyString]
  | String c r =>
      if Ascii.eqb c sep then EmptyString :: split sep r
      else match split sep r with
           | [] => [String c EmptyString]
           | h :: t => String c h :: t
           end
  end.

(** The blanks that [int] skips at both ends of its argument (code points
    below 256): the ASCII white space, and the two other spaces of that
    range, which are turned into blanks first. *)
Definition is_space (c : ascii) : bool :=
  let n := nat_of_ascii c in
  ((9 <=? n) && (n <=? 13) || (n =? 32) || (n =? 133) || (n =? 160))%nat.

Definition is_digit (c : ascii) : bool :=
  let n := nat_of_ascii c in ((48 <=? n) && (n <=? 57))%nat.

Fixpoint lstrip (s : string) : string :=
  match s with
  | EmptyString => EmptyString
  | String c r => if is_space c then lstrip r else s
  end.

Fixpoint rstrip (s : string) : string :=
  match s with
  | EmptyString => EmptyString
  | String c r =>
      match rstrip r with
      | EmptyString => if is_space c then EmptyString else String c EmptyString
      | r' => String c r'
      end
  end.

Definition strip (s : string) : string := rstrip (lstrip s).

Definition starts_with_digit (s : string) : bool :=
  match s with
  | EmptyString => false
  | String c _ => is_digit c
  end.

(** Digit grouping: a single underscore is allowed between two digits. *)
Fixpoint drop_underscores (after_digit : bool) (s : string) : option string :=
  match s with
  | EmptyString => Some EmptyString
  | String c r =>
      if Ascii.eqb c "_"
      then if after_digit && starts_with_digit r
           then drop_underscores false r
           else None
      else option_map (String c) (drop_underscores (is_digit c) r)
  end.

(** [int(s)] for a string [s], base 10. *)
Definition int_of_str (s : string) : py Z :=
  let t := strip s in
  let '(sign, body) :=
    match t with
    | String c r =>
        if Ascii.eqb c "-" then ((-1)%Z, r)
        else if Ascii.eqb c "+" then (1%Z, r)
        else (1%Z, t)
    | EmptyString => (1%Z, t)
    end in
  match drop_underscores false body with
  | Some digits =>
      match NilZero.uint_of_string digits with
      | Some d => ret (sign * Z.of_uint d)%Z
      | None => raise ValueError
      end
  | None => raise ValueError
  end.

(** [int(x)] for a number [x]: truncation toward zero. *)
Definition py_int (x : Q) : Z := Z.quot (Qnum x) (Zpos (Qden x)).

(** [int(x / y)] for Python floats: the division by zero raises. *)
Definition int_quot (x y : Q) : py Z :=
  if Qeq_bool y 0 then raise ZeroDivisionError else ret (py_int (x / y)).

(** [int(x / y)] for a numpy scalar [x]: the quotient by zero is [nan] or
    an infinity, and it is [int] that raises. *)
Definition np_int_quot (x y : Q) : py Z :=
  if Qeq_bool y 0 then
    if Qeq_bool x 0 then raise ValueError else raise OverflowError
  else ret (py_int (x / y)).

(** [np.min(l)] and [np.max(l)] of a non-empty list of numbers. *)
Definition np_min (l : list Q) : py Q :=
  match l with
  | [] => raise ValueError
  | x :: r => ret (fold_left Qmin r x)
  end.

Definition np_max (l : list Q) : py Q :=
  match l with
  | [] => raise ValueError
  | x :: r => ret (fold_left Qmax r x)
  end.

(** ** model put and get *)

(** [convert_to_string(t)]; [str] is Python's [str] at the element type. *)
Definition convert_to_string {A : Type} (str : A -> string) (t : list A)
  : py string :=
  if (len t =? 2)%Z then
    t0 <- getitem t 0 ;;
    t1 <- getitem t 1 ;;
    ret (str t0 ++ "S" ++ str t1)%string
  else
    t0 <- getitem t 0 ;;
    t1 <- getitem t 1 ;;
    t2 <- getitem t 2 ;;
    ret (str t0 ++ "S" ++ str t1 ++ "S" ++ str t2)%string.

Definition convert_int_from_string (s : string) : py (list Z) :=
  let s_split := split "S" s in
  let ndim := len s_split in
  p1 <- getitem s_split 0 ;;
  n1 <- int_of_str p1 ;;
  p2 <- getitem s_split 1 ;;
  n2 <- int_of_str p2 ;;
  if (ndim =? 2)%Z then ret [n1; n2]
  else
    p3 <- getitem s_split 2 ;;
    n3 <- int_of_str p3 ;;
    ret [n1; n2; n3].

(** The element types of numpy arrays, with their size in bytes. *)
Inductive eltype : Type :=
| Bool8 | Int8 | Int16 | Int32 | Int64
| UInt8 | UInt16 | UInt32 | UInt64
| Float16 | Float32 | Float64 | Complex64 | Complex128.

Definition itemsize (d : eltype) : Z :=
  match d with
  | Bool8 | Int8 | UInt8 => 1
  | Int16 | UInt16 | Float16 => 2
  | Int32 | UInt32 | Float32 => 4
  | Int64 | UInt64 | Float64 | Complex64 => 8
  | Complex128 => 16
  end%Z.

Definition eltype_eqb (d1 d2 : eltype) : bool :=
  match d1, d2 with
  | Bool8, Bool8 | Int8, Int8 | Int16, Int16 | Int32, Int32 | Int64, Int64
  | UInt8, UInt8 | UInt16, UInt16 | UInt32, UInt32 | UInt64, UInt64
  | Float16, Float16 | Float32, Float32 | Float64, Float64
  | Complex64, Complex64 | Complex128, Complex128 => true
  | _, _ => false
  end.

(** An array with its element type ([a.dtype]). *)
Record tarray : Type := TArray
  { dtype : eltype;
    elems : ndarray Q }.

(** A byte string that holds the elements of an array: the elements in
    row-major order, written with the element type [b_dtype].  Its length in
    bytes is the number of elements times the size of one. *)
Record bytes : Type := Bytes
  { b_dtype : eltype;
    b_items : list Q }.

Definition nbytes (s : bytes) : Z := (len (b_items s) * itemsize (b_dtype s))%Z.

(** [a.tostring()] *)
Definition tostring (a : tarray) : bytes := Bytes (dtype a) (ravel (elems a)).

(** An S3 object: the body and its tag set; the store maps bucket and key
    to objects. *)
Record s3_object : Type := S3Object
  { body : bytes;
    tagset : list (string * string) }.

Definition s3 : Type := string -> string -> option s3_object.

Definition same_key (b k b' k' : string) : bool :=
  String.eqb b b' && String.eqb k k'.

Definition put_object (st : s3) (bdy : bytes) (bucket key : string) : s3 :=
  fun b k => if same_key bucket key b k then Some (S3Object bdy []) else st b k.

Definition put_object_tagging (st : s3) (bucket key : string)
  (tags : list (string * string)) : py s3 :=
  match st bucket key with
  | None => raise ValueError
  | Some o =>
      ret (fun b k => if same_key bucket key b k
                      then Some (S3Object (body o) tags) else st b k)
  end.

Definition get_object (st : s3) (bucket key : string) : py bytes :=
  match st bucket key with
  | None => raise ValueError
  | Some o => ret (body o)
  end.

Definition get_object_tagging (st : s3) (bucket key : string)
  : py (list (string * string)) :=
  match st bucket key with
  | None => raise ValueError
  | Some o => ret (tagset o)
  end.

Section Numpy.

(** [np.dtype(name)]: the element type that a name stands for, if any. *)
Variable np_dtype : string -> option eltype.

(** The elements that the bytes of elements of one type hold when they are
    read with another type. *)
Variable reinterpret : eltype -> eltype -> list Q -> list Q.

(** [np.fromstring(s, dtype=name)]: the element type and the elements.  A
    name that is no element type is a [TypeError]; a byte string whose
    length is no multiple of the element size is a [ValueError]. *)
Definition fromstring (s : bytes) (name : string) : py (eltype * list Q) :=
  match np_dtype name with
  | None => raise TypeError
  | Some d =>
      if eltype_eqb d (b_dtype s) then ret (d, b_items s)
      else if (nbytes s mod itemsize d =? 0)%Z
      then ret (d, reinterpret (b_dtype s) d (b_items s))
      else raise ValueError
  end.

End Numpy.

(** The local variables [model_get] binds while it scans the tags. *)
Record tag_vars : Type := TagVars
  { v_dtype : option string;
    v_spacing : option (list Q);
    v_origin : option (list Q);
    v_shape : option (list Z) }.

(** A use of a local variable that may be unbound. *)
Definition lookup_var {A : Type} (v : option A) : py A :=
  match v with
  | Some a => ret a
  | None => raise NameError
  end.

Section PythonFloat.

(** [str(x)] and [float(s)] for floats: the shortest-repr printer and the
    decimal parser of the interpreter. *)
Variable str_float : Q -> string.
Variable float_of_str : string -> py Q.

(** numpy's table of element types and its reading of foreign bytes. *)
Variable np_dtype : string -> option eltype.
Variable reinterpret : eltype -> eltype -> list Q -> list Q.

Definition convert_float_from_string (s : string) : py (list Q) :=
  let s_split := split "S" s in
  let ndim := len s_split in
  p1 <- getitem s_split 0 ;;
  d1 <- float_of_str p1 ;;
  p2 <- getitem s_split 1 ;;
  d2 <- float_of_str p2 ;;
  if (ndim =? 2)%Z then ret [d1; d2]
  else
    p3 <- getitem s_split 2 ;;
    d3 <- float_of_str p3 ;;
    ret [d1; d2; d3].

Definition model_put (st : s3) (model : tarray) (origin spacing : list Q)
  (bucket key : string) : py s3 :=
  let shape := Np.shape (elems model) in
  let st := put_object st (tostring model) bucket key in
  shape_str <- convert_to_string str_int shape ;;
  origin_str <- convert_to_string str_float origin ;;
  spacing_str <- convert_to_string str_float spacing ;;
  put_object_tagging st bucket key
    [ ("eltype", "float32"); ("creator", "S3-SLIM"); ("shape", shape_str);
      ("origin", origin_str); ("spacing", spacing_str) ]%string.

Definition model_get_tag (vars : py tag_vars) (tag : string * string)
  : py tag_vars :=
  vs <- vars ;;
  let '(k, value) := tag in
  if String.eqb k "eltype" then
    ret (TagVars (Some value) (v_spacing vs) (v_origin vs) (v_shape vs))
  else if String.eqb k "spacing" then
    sp <- convert_float_from_string value ;;
    ret (TagVars (v_dtype vs) (Some sp) (v_origin vs) (v_shape vs))
  else if String.eqb k "origin" then
    o <- convert_float_from_string value ;;
    ret (TagVars (v_dtype vs) (v_spacing vs) (Some o) (v_shape vs))
  else if String.eqb k "shape" then
    sh <- convert_int_from_string value ;;
    ret (TagVars (v_dtype vs) (v_spacing vs) (v_origin vs) (Some sh))
  else ret vs.

(** [model_get]: the body is read with the element type that the
    ['eltype'] tag names. *)
Definition model_get (st : s3) (bucket key : string)
  : py (tarray * list Q * list Q) :=
  binary <- get_object st bucket key ;;
  tags <- get_object_tagging st bucket key ;;
  vs <- fold_left model_get_tag tags (ret (TagVars None None None None)) ;;
  dtype <- lookup_var (v_dtype vs) ;;
  '(d, m) <- fromstring np_dtype reinterpret binary dtype ;;
  shape <- lookup_var (v_shape vs) ;;
  m <- reshape 0 m shape ;;
  origin <- lookup_var (v_origin vs) ;;
  spacing <- lookup_var (v_spacing vs) ;;
  ret (TArray d m, origin, spacing).

End PythonFloat.

(** ** Auxiliary modeling functions *)

(** The y bounds are bound only [if sy is not None and gy is not None]. *)
Definition scan_y (sy gy : option (list Q)) : py (option (Q * Q)) :=
  match sy, gy with
  | Some sy', Some gy' =>
      a <- np_min sy' ;; b <- np_min gy' ;;
      c <- np_max sy' ;; d <- np_max gy' ;;
      ret (Some (Qmin a b, Qmax c d))
  | _, _ => ret None
  end.

Definition restrict_model_to_receiver_grid
  (sx gx : list Q) (m : ndarray Q) (spacing origin : list Q)
  (sy gy : option (list Q)) (buffer_size : Q)
  : py (ndarray Q * list Z * list Q) :=
  (* Model parameters *)
  let shape := Np.shape m in
  let ndim := len shape in
  domain_size <-
    (if (ndim =? 2)%Z then
       n0 <- getitem shape 0 ;; d0 <- getitem spacing 0 ;;
       n1 <- getitem shape 1 ;; d1 <- getitem spacing 1 ;;
       ret [inject_Z (n0 - 1) * d0; inject_Z (n1 - 1) * d1]
     else
       n0 <- getitem shape 0 ;; d0 <- getitem spacing 0 ;;
       n1 <- getitem shape 1 ;; d1 <- getitem spacing 1 ;;
       n2 <- getitem shape 2 ;; d2 <- getitem spacing 2 ;;
       ret [inject_Z (n0 - 1) * d0; inject_Z (n1 - 1) * d1;
            inject_Z (n2 - 1) * d2]) ;;
  (* Scan for minimum/maximum source/receiver coordinates *)
  min_sx <- np_min sx ;; min_gx <- np_min gx ;;
  let min_x := Qmin min_sx min_gx in
  max_sx <- np_max sx ;; max_gx <- np_max gx ;;
  let max_x := Qmax max_sx max_gx in
  ybounds <- scan_y sy gy ;;
  (* Add buffer zone if possible *)
  o0 <- getitem origin 0 ;;
  let min_x := Qmax o0 (min_x - buffer_size) in
  ds0 <- getitem domain_size 0 ;;
  let max_x := Qmin (o0 + ds0) (max_x + buffer_size) in
  ybounds <-
    (if (ndim =? 3)%Z then
       o1 <- getitem origin 1 ;;
       '(min_y, max_y) <- lookup_var ybounds ;;
       let min_y := Qmax o1 (min_y - buffer_size) in
       ds1 <- getitem domain_size 1 ;;
       let max_y := Qmin (o1 + ds1) (max_y + buffer_size) in
       ret (Some (min_y, max_y))
     else ret ybounds) ;;
  (* Extract model part *)
  d0 <- getitem spacing 0 ;;
  nx_min <- np_int_quot min_x d0 ;;
  nx_max <- np_int_quot max_x d0 ;;
  let ox := inject_Z nx_min * d0 in
  oz <- getitem origin (-1) ;;
  yindex <-
    (if (ndim =? 3)%Z then
       '(min_y, max_y) <- lookup_var ybounds ;;
       d1 <- getitem spacing 1 ;;
       ny_min <- np_int_quot min_y d1 ;;
       ny_max <- np_int_quot max_y d1 ;;
       ret (Some (ny_min, ny_max, inject_Z ny_min * d1))
     else ret None) ;;
  (* Extract relevant part of model *)
  if (ndim =? 2)%Z then
    m' <- getslice 0 nx_min (nx_max + 1) m ;;
    ret (m', Np.shape m', [ox; oz])
  else
    '(ny_min, ny_max, oy) <- lookup_var yindex ;;
    m1 <- getslice 0 nx_min (nx_max + 1) m ;;
    m' <- getslice 1 ny_min (ny_max + 1) m1 ;;
    ret (m', Np.shape m', [ox; oy; oz]).

Definition extent_gradient
  (shape_full : list Z) (origin_full : list Q)
  (shape_sub : list Z) (origin_sub spacing : list Q) (g : ndarray Q)
  : py (ndarray Q) :=
  nz <- getitem shape_full (-1) ;;
  let ndim := len shape_full in
  os0 <- getitem origin_sub 0 ;;
  of0 <- getitem origin_full 0 ;;
  d0 <- getitem spacing 0 ;;
  nx_left <- int_quot (os0 - of0) d0 ;;
  nf0 <- getitem shape_full 0 ;;
  ns0 <- getitem shape_sub 0 ;;
  let nx_right := (nf0 - ns0 - nx_left)%Z in
  ny <-
    (if (ndim =? 3)%Z then
       os1 <- getitem origin_sub 1 ;;
       of1 <- getitem origin_full 1 ;;
       d1 <- getitem spacing 1 ;;
       ny_left <- int_quot (os1 - of1) d1 ;;
       nf1 <- getitem shape_full 1 ;;
       ns1 <- getitem shape_sub 1 ;;
       ret (Some (ny_left, (nf1 - ns1 - ny_left)%Z))
     else ret None) ;;
  if (ndim =? 2)%Z then
    block1 <- full [nx_left; nz] 0 ;;
    block2 <- full [nx_right; nz] 0 ;;
    concatenate [block1; g; block2] 0
  else
    ns1 <- getitem shape_sub 1 ;;
    block1 <- full [nx_left; ns1; nz] 0 ;;
    block2 <- full [nx_right; ns1; nz] 0 ;;
    g1 <- concatenate [block1; g; block2] 0 ;;
    nf0' <- getitem shape_full 0 ;;
    '(ny_left, ny_right) <- lookup_var ny ;;
    block3 <- full [nf0'; ny_left; nz] 0 ;;
    block4 <- full [nf0'; ny_right; nz] 0 ;;
    concatenate [block3; g1; block4] 1.

End CloudExtras.

(* ################################################################## *)
(** * PyModel.py *)

Module PyModel.

Local Open Scope R_scope.

(** ** numpy on real-valued arrays *)

(** [np.max] of a tuple of numbers. *)
Definition np_max (l : list R) : py R :=
  match l with
  | [] => raise ValueError
  | x :: r => ret (fold_left Rmax r x)
  end.

(** [np.max(a)] of an array. *)
Definition amax (a : ndarray R) : py R := np_max (ravel a).

Definition clamp (lo hi i : Z) : Z := Z.max lo (Z.min hi i).

(** [np.pad(a, pad_widths, 'edge')].  One pair of widths is needed per axis
    (a single pair is broadcast to every axis); a negative width, or a
    positive width on an axis of extent 0, is a [ValueError]. *)
Definition pad_edge {A : Type} (a : ndarray A) (pad_widths : list (Z * Z))
  : py (ndarray A) :=
  let pads :=
    match pad_widths with
    | [p] => repeat p (List.length (shape a))
    | _ => pad_widths
    end in
  if negb (len pads =? ndim a)%Z then raise ValueError
  else if existsb (fun p => (fst p <? 0)%Z || (snd p <? 0)%Z) pads
  then raise ValueError
  else if existsb (fun np => (fst np =? 0)%Z
                             && ((0 <? fst (snd np))%Z || (0 <? snd (snd np))%Z))
            (combine (shape a) pads)
  then raise ValueError
  else
    ret (NDArray
           (map (fun np => (fst np + fst (snd np) + snd (snd np))%Z)
                (combine (shape a) pads))
           (fun idx =>
              item a (map (fun inp =>
                             clamp 0 (fst (snd inp) - 1)
                                   (fst inp - fst (snd (snd inp))))
                          (combine idx (combine (shape a) pads))))).

(** [a[..., start:stop, ...] += c] along one axis, every other axis whole. *)
Definition iadd_slice (axis : nat) (start stop : Z) (c : R) (a : ndarray R)
  : py (ndarray R) :=
  match nth_error (shape a) axis with
  | None => raise IndexError
  | Some n =>
      let '(lo, k) := slice_range n start stop in
      ret (NDArray (shape a)
             (fun idx =>
                if (lo <=? ix idx axis)%Z && (ix idx axis <? lo + k)%Z
                then item a idx + c else item a idx))
  end.

(** Broadcasting of a source shape against a target shape, as the assignment
    [target[:] = source] needs it. *)
Definition broadcast_ok (target source : list Z) : bool :=
  (len source <=? len target)%Z
  && forallb (fun ts => (snd ts =? fst ts)%Z || (snd ts =? 1)%Z)
       (combine (List.rev target) (List.rev source)).

Definition broadcast_index (source idx : list Z) : list Z :=
  List.rev (map (fun si => if (fst si =? 1)%Z then 0%Z else snd si)
           (combine (List.rev source) (List.rev idx))).

(** [target[:] = source] *)
Definition assign_all {A : Type} (target source : ndarray A) : py (ndarray A) :=
  if broadcast_ok (shape target) (shape source)
  then ret (NDArray (shape target)
              (fun idx => item source (broadcast_index (shape source) idx)))
  else raise ValueError.

(** ** devito objects, as far as the model uses them *)

(** [Grid]: extent, shape and origin, with the ['phydomain'] subdomain that
    leaves out [phy_nbpml] points on each side of every dimension. *)
Record Grid : Type := MkGrid
  { extent : list R;
    grid_shape : list Z;
    grid_origin : list R;
    phy_nbpml : Z }.

(** [Grid(extent, shape, origin, subdomains=PhysicalDomain(nbpml))] with the
    default dimensions, which exist for at most three axes. *)
Definition new_Grid (ext : list R) (sh : list Z) (orig : list R) (nb : Z)
  : py Grid :=
  if (3 <? len sh)%Z then raise AssertionError
  else ret (MkGrid ext sh orig nb).

(** [grid.spacing]: the extent divided by the number of cells. *)
Definition grid_spacing (g : Grid) : list R :=
  map (fun en => fst en / IZR (snd en - 1)) (combine (extent g) (grid_shape g)).

(** [grid.subdomains['phydomain'].shape] *)
Definition phydomain_shape (g : Grid) : list Z :=
  map (fun n => (n - 2 * phy_nbpml g)%Z) (grid_shape g).

(** [Function]: a grid function with a halo of [space_order] points on each
    side of every dimension. *)
Record Function : Type := MkFunction
  { fgrid : Grid;
    space_order : Z;
    data_with_halo : ndarray R }.

(** [Function(name=..., grid=grid, space_order=so)], zero-initialised. *)
Definition new_Function (g : Grid) (so : Z) : py Function :=
  d <- full (map (fun n => (n + 2 * so)%Z) (grid_shape g)) 0 ;;
  ret (MkFunction g so d).

Definition fndim (f : Function) : Z := len (grid_shape (fgrid f)).

(** [function._size_halo] and [function._offset_domain]: (left, right) per
    dimension. *)
Definition size_halo (f : Function) : list (Z * Z) :=
  repeat (space_order f, space_order f) (List.length (grid_shape (fgrid f))).

Definition offset_domain (f : Function) : list (Z * Z) := size_halo f.

(** [function.data]: the values on the grid, without the halo. *)
Definition fdata (f : Function) : ndarray R :=
  NDArray (grid_shape (fgrid f))
    (fun idx => item (data_with_halo f) (map (Z.add (space_order f)) idx)).

(** ** initialize_damp and initialize_function *)

Definition initialize_function (function : Function) (data : ndarray R)
  (nbpml : Z) : py Function :=
  let pad_widths :=
    map (fun i => (nbpml + fst i, nbpml + snd i)%Z) (size_halo function) in
  data <- pad_edge data pad_widths ;;
  d <- assign_all (data_with_halo function) data ;;
  ret (MkFunction (fgrid function) (space_order function) d).

Definition dampcoeff : R := 1.5 * ln (1.0 / 0.001) / 40.

Definition damp_pos (nbpml j : Z) : R :=
  Rabs (IZR (nbpml - j + 1) / IZR nbpml).

(** The value added for layer [j]: negated for a mask. *)
Definition damp_val (nbpml j : Z) (mask : bool) : R :=
  let pos := damp_pos nbpml j in
  let val := dampcoeff * (pos - sin (2 * PI * pos) / (2 * PI)) in
  if mask then - val else val.

(** The body of the two loops, for dimension [i] and layer [j]. *)
Definition damp_step (nbpml : Z) (spacing : list R) (mask : bool)
  (i j : Z) (data : ndarray R) : py (ndarray R) :=
  let val := damp_val nbpml j mask in
  (* Left slice for dampening for dimension i *)
  s <- getitem spacing i ;;
  data <- iadd_slice (Z.to_nat i) j (j + 1) (val / s) data ;;
  (* right slice for dampening for dimension i *)
  n <- getitem (shape data) i ;;
  s <- getitem spacing i ;;
  iadd_slice (Z.to_nat i) (n - j) (n - j + 1) (val / s) data.

Definition damp_loops (ndim nbpml : Z) (spacing : list R) (mask : bool)
  (data : ndarray R) : py (ndarray R) :=
  fold_left
    (fun acc i =>
       fold_left
         (fun acc j => d <- acc ;; damp_step nbpml spacing mask i j d)
         (range nbpml) acc)
    (range ndim) (ret data).

(** The array [data] that [initialize_damp] hands to
    [initialize_function]. *)
Definition damp_data (damp : Function) (nbpml : Z) (spacing : list R)
  (mask : bool) : py (ndarray R) :=
  let phy_shape := phydomain_shape (fgrid damp) in
  data <- full phy_shape (if mask then 1 else 0) ;;
  let pad_widths := map (fun _ => (nbpml, nbpml)) (range (fndim damp)) in
  data <- pad_edge data pad_widths ;;
  if negb (forallb (fun i => match offset_domain damp with
                             | [] => true
                             | o :: _ => (fst o =? fst i)%Z && (snd o =? snd i)%Z
                             end) (offset_domain damp))
  then raise AssertionError
  else damp_loops (fndim damp) nbpml spacing mask data.

Definition initialize_damp (damp : Function) (nbpml : Z) (spacing : list R)
  (mask : bool) : py Function :=
  data <- damp_data damp nbpml spacing mask ;;
  initialize_function damp data 0.

(** ** Model *)

(** A constructor argument: a Python number or a numpy array. *)
Inductive param : Type :=
| Scalar (x : R)
| Array (a : ndarray R).

(** A model attribute: a Python float or a devito [Function]. *)
Inductive attr : Type :=
| Float (x : R)
| Fun (f : Function).

Record ModelArgs : Type := MkArgs
  { a_origin : list R;
    a_spacing : list R;
    a_shape : list Z;
    a_vp : param;
    a_rho : param;
    a_nbpml : Z;
    a_dm : option (ndarray R);
    a_epsilon : option param;
    a_delta : option param;
    a_theta : option param;
    a_phi : option param;
    a_space_order : Z }.

Record Model : Type := MkModel
  { shape : list Z;
    nbpml : Z;
    origin : list R;
    _is_tti : bool;
    grid : Grid;
    m : attr;
    rho : attr;
    _vp : param;
    damp : Function;
    scale : R;
    dm : attr;
    epsilon : attr;
    delta : attr;
    theta : attr;
    phi : attr }.

(** Elementwise product of two one-dimensional arrays, with broadcasting of
    a length-one operand. *)
Definition mul_1d (a : list R) (b : list R) : py (list R) :=
  match a, b with
  | [x], _ => ret (map (Rmult x) b)
  | _, [y] => ret (map (fun x => x * y) a)
  | _, _ => if (len a =? len b)%Z
            then ret (map (fun xy => fst xy * snd xy) (combine a b))
            else raise ValueError
  end.

(** [1 / vp**2] for a Python number. *)
Definition inv_square (vp : R) : py R :=
  if Req_dec_T vp 0 then raise ZeroDivisionError else ret (1 / vp ^ 2).

Section Devito.

(** [f.data = x] for a [Function] [f] and a number [x] is devito's business:
    it is taken as given. *)
Variable Function_set_data : Function -> R -> py Function.

(** The [vp] setter, on the attributes it reads and writes: it returns the
    new [m]. *)
Definition vp_setter (self_m : attr) (self_nbpml : Z) (vp : param) : py attr :=
  (* Update the square slowness according to new value *)
  match vp with
  | Array a =>
      match self_m with
      | Fun f =>
          f' <- initialize_function f (map_nd (fun v => 1 / (v * v)) a)
                  self_nbpml ;;
          ret (Fun f')
      | Float _ => raise AttributeError
      end
  | Scalar v =>
      x <- inv_square v ;;
      match self_m with
      | Fun f => f' <- Function_set_data f x ;; ret (Fun f')
      | Float _ => raise AttributeError
      end
  end.

(** The branches of [__init__] for [rho], [theta] and [phi]-like
    parameters: a [Function] initialised from the array, or the number. *)
Definition init_param (g : Grid) (so nb : Z) (f : R -> R) (p : param)
  : py attr :=
  match p with
  | Array a =>
      fn <- new_Function g so ;;
      fn <- initialize_function fn (map_nd f a) nb ;;
      ret (Fun fn)
  | Scalar x => ret (Float (f x))
  end.

Definition Model_init (a : ModelArgs) : py Model :=
  let self_shape := a_shape a in
  let self_nbpml := a_nbpml a in
  let self_origin := a_origin a in
  (* Origin of the computational domain with PML to inject/interpolate
     at the correct index *)
  let origin_pml :=
    map (fun os => fst os - snd os * IZR (a_nbpml a))
        (combine (a_origin a) (a_spacing a)) in
  let shape_pml := map (fun n => (n + 2 * self_nbpml)%Z) (a_shape a) in
  (* Physical extent is calculated per cell, so shape - 1 *)
  ext <- mul_1d (a_spacing a) (map (fun n => IZR (n - 1)) shape_pml) ;;
  self_grid <- new_Grid ext shape_pml origin_pml self_nbpml ;;
  (* Create square slowness of the wave as symbol `m` *)
  self_m <-
    match a_vp a with
    | Array _ => f <- new_Function self_grid (a_space_order a) ;; ret (Fun f)
    | Scalar v => x <- inv_square v ;; ret (Float x)
    end ;;
  self_rho <-
    init_param self_grid (a_space_order a) self_nbpml (fun x => x) (a_rho a) ;;
  (* Set model velocity, which will also set `m` *)
  self_m <- vp_setter self_m self_nbpml (a_vp a) ;;
  (* Create dampening field as symbol `damp` *)
  self_damp <- new_Function self_grid 1 ;;
  self_damp <-
    initialize_damp self_damp self_nbpml (grid_spacing self_grid) true ;;
  (* Additional parameter fields for TTI operators *)
  self_dm <-
    match a_dm a with
    | Some d =>
        f <- new_Function self_grid (a_space_order a) ;;
        f <- initialize_function f d self_nbpml ;;
        ret (Fun f)
    | None => ret (Float 1)
    end ;;
  '(self_epsilon, self_scale) <-
    match a_epsilon a with
    | Some (Array e) =>
        f <- new_Function self_grid (a_space_order a) ;;
        f <- initialize_function f (map_nd (fun x => 1 + 2 * x) e) self_nbpml ;;
        (* Maximum velocity is scale*max(vp) if epsilon > 0 *)
        mx <- amax (fdata f) ;;
        ret (Fun f, if Rlt_dec 0 mx then sqrt mx else 1)
    | Some (Scalar e) => ret (Float (1 + 2 * e), sqrt (1 + 2 * e))
    | None => ret (Float 1, 1)
    end ;;
  self_delta <-
    match a_delta a with
    | Some p =>
        init_param self_grid (a_space_order a) self_nbpml
          (fun x => sqrt (1 + 2 * x)) p
    | None => ret (Float 1)
    end ;;
  self_theta <-
    match a_theta a with
    | Some p =>
        init_param self_grid (a_space_order a) self_nbpml (fun x => x) p
    | None => ret (Float 0)
    end ;;
  self_phi <-
    match a_phi a with
    | Some p =>
        init_param self_grid (a_space_order a) self_nbpml (fun x => x) p
    | None => ret (Float 0)
    end ;;
  let tti :=
    match a_epsilon a, a_delta a, a_theta a, a_phi a with
    | None, None, None, None => false
    | _, _, _, _ => true
    end in
  ret (MkModel self_shape self_nbpml self_origin tti self_grid self_m
         self_rho (a_vp a) self_damp self_scale self_dm self_epsilon
         self_delta self_theta self_phi).

(** Assignment [model.vp = vp] after construction. *)
Definition set_vp (self : Model) (vp : param) : py Model :=
  m' <- vp_setter (m self) (nbpml self) vp ;;
  ret (MkModel (shape self) (nbpml self) (origin self) (_is_tti self)
         (grid self) m' (rho self) vp (damp self) (scale self) (dm self)
         (epsilon self) (delta self) (theta self) (phi self)).

End Devito.

(** Properties of [Model]. *)
Definition is_tti (self : Model) : bool := _is_tti self.

Definition dim (self : Model) : Z := len (grid_shape (grid self)).

Definition spacing (self : Model) : list R := grid_spacing (grid self).

Definition shape_domain (self : Model) : list Z := grid_shape (grid self).

Definition domain_size (self : Model) : list R :=
  map (fun ds => IZR (fst ds - 1) * snd ds) (combine (shape self) (spacing self)).

Definition vp (self : Model) : param := _vp self.

(** [np.max(self.vp)] *)
Definition max_vp (self : Model) : py R :=
  match vp self with
  | Scalar v => ret v
  | Array a => amax a
  end.

End PyModel.

(* ################################################################## *)
(** * Floating-point numbers as the interpreter and numpy compute them *)

Module Fp.

Local Open Scope Z_scope.

(** A Python float or a numpy [float64]: an IEEE 754 double, 53 bits of
    precision, every operation rounded to the nearest double, ties to
    even.  A numpy [float32] is held as the double of the same value. *)
Definition float : Type := spec_float.

Definition prec : Z := 53.
Definition emax : Z := 1024.

Definition fadd : float -> float -> float := SFadd prec emax.
Definition fsub : float -> float -> float := SFsub prec emax.
Definition fmul : float -> float -> float := SFmul prec emax.
Definition fdiv : float -> float -> float := SFdiv prec emax.

(** [float(n)] for an integer [n]: the nearest double. *)
Definition of_Z (n : Z) : float := binary_normalize prec emax n 0 false.

(** The double that the decimal literal [n / d] denotes, for integers [n]
    and [d] below [2^53]: both are doubles, and their quotient is rounded
    once. *)
Definition dec (n d : Z) : float := fdiv (of_Z n) (of_Z d).

(** [n * x] for an integer [n] that is the extent of an array or the
    [int] of a double, and a float [x]: the integer is converted first, and
    such an integer is never too large for that. *)
Definition imul (n : Z) (x : float) : float := fmul (of_Z n) x.

(** [x / y] for Python floats: a zero divisor raises.  (For numpy scalars
    use [fdiv]: the quotient is [inf] or [nan].) *)
Definition py_div (x y : float) : py float :=
  match y with
  | S754_zero _ => raise ZeroDivisionError
  | _ => ret (fdiv x y)
  end.

(** [numpy.float32(x)]: rounded to 24 bits of precision (to [inf] beyond
    the range of singles), and held as a double again. *)
Definition to_f32 (x : float) : float :=
  match x with
  | S754_finite s m e =>
      match binary_round 24 128 s m e with
      | S754_finite s' m' e' => binary_round prec emax s' m' e'
      | y => y
      end
  | _ => x
  end.

(** [int(x)]: truncation toward zero; [nan] and the infinities are
    refused. *)
Definition py_int (x : float) : py Z :=
  match x with
  | S754_nan => raise ValueError
  | S754_infinity _ => raise OverflowError
  | S754_zero _ => ret 0
  | S754_finite s m e =>
      let v := match e with
               | Zneg p => Z.shiftr (Zpos m) (Zpos p)
               | _ => Z.shiftl (Zpos m) e
               end in
      ret (if s then - v else v)
  end.

(** The two-argument minimum and maximum of numpy: a [nan] wins. *)
Definition fmin (x y : float) : float :=
  match x, y with
  | S754_nan, _ | _, S754_nan => S754_nan
  | _, _ => if SFleb x y then x else y
  end.

Definition fmax (x y : float) : float :=
  match x, y with
  | S754_nan, _ | _, S754_nan => S754_nan
  | _, _ => if SFleb y x then x else y
  end.

(** [np.min(l)] and [np.max(l)] of a sequence of numbers. *)
Definition np_min (l : list float) : py float :=
  match l with
  | [] => raise ValueError
  | x :: r => ret (fold_left fmin r x)
  end.

Definition np_max (l : list float) : py float :=
  match l with
  | [] => raise ValueError
  | x :: r => ret (fold_left fmax r x)
  end.

(** The number that a finite float is (0 for the others). *)
Definition to_Q (x : float) : Q :=
  match x with
  | S754_finite s m e =>
      let v := match e with
               | Zneg p => Qmake (Zpos m) (Pos.shiftl 1 (Npos p))
               | _ => inject_Z (Z.shiftl (Zpos m) e)
               end in
      if s then Qopp v else v
  | _ => 0%Q
  end.

End Fp.

(* ################################################################## *)
(** * CloudExtras.py in floating point *)

Module CloudFloat.

Import Fp.

Local Open Scope Z_scope.

(** The y bounds are bound only [if sy is not None and gy is not None]. *)
Definition scan_y (sy gy : option (list float))
  : py (option (float * float)) :=
  match sy, gy with
  | Some sy', Some gy' =>
      a <- np_min sy' ;; b <- np_min gy' ;;
      c <- np_max sy' ;; d <- np_max gy' ;;
      ret (Some (fmin a b, fmax c d))
  | _, _ => ret None
  end.

(** [restrict_model_to_receiver_grid]: [spacing] and [origin] are tuples of
    Python floats, the coordinates and the bounds numpy doubles, so that a
    division by a zero spacing gives [inf] or [nan], which [int]
    refuses. *)
Definition restrict_model_to_receiver_grid {A : Type}
  (sx gx : list float) (m : ndarray A) (spacing origin : list float)
  (sy gy : option (list float)) (buffer_size : float)
  : py (ndarray A * list Z * list float) :=
  (* Model parameters *)
  let shape := Np.shape m in
  let ndim := len shape in
  domain_size <-
    (if ndim =? 2 then
       n0 <- getitem shape 0 ;; d0 <- getitem spacing 0 ;;
       n1 <- getitem shape 1 ;; d1 <- getitem spacing 1 ;;
       ret [imul (n0 - 1) d0; imul (n1 - 1) d1]
     else
       n0 <- getitem shape 0 ;; d0 <- getitem spacing 0 ;;
       n1 <- getitem shape 1 ;; d1 <- getitem spacing 1 ;;
       n2 <- getitem shape 2 ;; d2 <- getitem spacing 2 ;;
       ret [imul (n0 - 1) d0; imul (n1 - 1) d1; imul (n2 - 1) d2]) ;;
  (* Scan for minimum/maximum source/receiver coordinates *)
  min_sx <- np_min sx ;; min_gx <- np_min gx ;;
  let min_x := fmin min_sx min_gx in
  max_sx <- np_max sx ;; max_gx <- np_max gx ;;
  let max_x := fmax max_sx max_gx in
  ybounds <- scan_y sy gy ;;
  (* Add buffer zone if possible *)
  o0 <- getitem origin 0 ;;
  let min_x := fmax o0 (fsub min_x buffer_size) in
  ds0 <- getitem domain_size 0 ;;
  let max_x := fmin (fadd o0 ds0) (fadd max_x buffer_size) in
  ybounds <-
    (if ndim =? 3 then
       o1 <- getitem origin 1 ;;
       '(min_y, max_y) <- CloudExtras.lookup_var ybounds ;;
       let min_y := fmax o1 (fsub min_y buffer_size) in
       ds1 <- getitem domain_size 1 ;;
       let max_y := fmin (fadd o1 ds1) (fadd max_y buffer_size) in
       ret (Some (min_y, max_y))
     else ret ybounds) ;;
  (* Extract model part *)
  d0 <- getitem spacing 0 ;;
  nx_min <- py_int (fdiv min_x d0) ;;
  nx_max <- py_int (fdiv max_x d0) ;;
  let ox := imul nx_min d0 in
  oz <- getitem origin (-1) ;;
  yindex <-
    (if ndim =? 3 then
       '(min_y, max_y) <- CloudExtras.lookup_var ybounds ;;
       d1 <- getitem spacing 1 ;;
       ny_min <- py_int (fdiv min_y d1) ;;
       ny_max <- py_int (fdiv max_y d1) ;;
       ret (Some (ny_min, ny_max, imul ny_min d1))
     else ret None) ;;
  (* Extract relevant part of model *)
  if ndim =? 2 then
    m' <- getslice 0 nx_min (nx_max + 1) m ;;
    ret (m', Np.shape m', [ox; oz])
  else
    '(ny_min, ny_max, oy) <- CloudExtras.lookup_var yindex ;;
    m1 <- getslice 0 nx_min (nx_max + 1) m ;;
    m' <- getslice 1 ny_min (ny_max + 1) m1 ;;
    ret (m', Np.shape m', [ox; oy; oz]).

(** [int((o_sub - o_full) / d)] for Python floats. *)
Definition index_offset (o_sub o_full d : float) : py Z :=
  q <- py_div (fsub o_sub o_full) d ;;
  py_int q.

(** [extent_gradient]: the origins and the spacing are tuples of Python
    floats. *)
Definition extent_gradient
  (shape_full : list Z) (origin_full : list float)
  (shape_sub : list Z) (origin_sub spacing : list float) (g : ndarray Q)
  : py (ndarray Q) :=
  nz <- getitem shape_full (-1) ;;
  let ndim := len shape_full in
  os0 <- getitem origin_sub 0 ;;
  of0 <- getitem origin_full 0 ;;
  d0 <- getitem spacing 0 ;;
  nx_left <- index_offset os0 of0 d0 ;;
  nf0 <- getitem shape_full 0 ;;
  ns0 <- getitem shape_sub 0 ;;
  let nx_right := nf0 - ns0 - nx_left in
  ny <-
    (if ndim =? 3 then
       os1 <- getitem origin_sub 1 ;;
       of1 <- getitem origin_full 1 ;;
       d1 <- getitem spacing 1 ;;
       ny_left <- index_offset os1 of1 d1 ;;
       nf1 <- getitem shape_full 1 ;;
       ns1 <- getitem shape_sub 1 ;;
       ret (Some (ny_left, nf1 - ns1 - ny_left))
     else ret None) ;;
  if ndim =? 2 then
    block1 <- full [nx_left; nz] 0%Q ;;
    block2 <- full [nx_right; nz] 0%Q ;;
    concatenate [block1; g; block2] 0
  else
    ns1 <- getitem shape_sub 1 ;;
    block1 <- full [nx_left; ns1; nz] 0%Q ;;
    block2 <- full [nx_right; ns1; nz] 0%Q ;;
    g1 <- concatenate [block1; g; block2] 0 ;;
    nf0' <- getitem shape_full 0 ;;
    '(ny_left, ny_right) <- CloudExtras.lookup_var ny ;;
    block3 <- full [nf0'; ny_left; nz] 0%Q ;;
    block4 <- full [nf0'; ny_right; nz] 0%Q ;;
    concatenate [block3; g1; block4] 1.

End CloudFloat.

(* ################################################################## *)
(** * The time step of PyModel.py in floating point *)

Module ModelFloat.

Import Fp.

Local Open Scope Z_scope.

(** The [dtype] of a model: [np.float32], the default, or [np.float64]. *)
Inductive precision : Type := Single | Double.

(** [self.dtype(x)] *)
Definition cast (p : precision) (x : float) : float :=
  match p with
  | Single => to_f32 x
  | Double => x
  end.

(** [np.max(a)] of an array. *)
Definition amax (a : ndarray float) : py float := np_max (ravel a).

(** [critical_dt], on the attributes it reads: [self.dtype], [self.shape],
    [self.spacing] (the spacing of the grid, numbers of the model's
    [dtype]), [self.scale] (a Python float) and [self.vp] (an array).  The
    arithmetic between these numbers and the Python literals is carried out
    in doubles, as numpy before version 2 does for a scalar and a Python
    number; only the two casts round to the model's [dtype]. *)
Definition critical_dt (dtype : precision) (shape : list Z)
  (spacing : list float) (scale : float) (vp : ndarray float) : py float :=
  let coeff := if len shape =? 3 then dec 38 100 else dec 42 100 in
  h <- np_min spacing ;;
  v <- amax vp ;;
  let dt := cast dtype (fdiv (fmul coeff h) (fmul scale v)) in
  k <- py_int (fmul (of_Z 1000) dt) ;;
  ret (cast dtype (fmul (dec 1 1000) (of_Z k))).

End ModelFloat.

(* ################################################################## *)
(** * Vocabulary of the properties *)

Module Props.

Import CloudExtras.

(** Every character of [s] satisfies [p]. *)
Fixpoint forall_chars (p : ascii -> bool) (s : string) : bool :=
  match s with
  | EmptyString => true
  | String c r => p c && forall_chars p r
  end.

(** [c] does not occur in [s]. *)
Definition free_of (c : ascii) (s : string) : bool :=
  forall_chars (fun x => negb (Ascii.eqb x c)) s.

(** A float whose decimal representation round-trips: [float(str(x))] is
    [x] again, and the representation is a numeral, free of the separator
    of the tag encoding. *)
Definition repr_roundtrips (str_float : Q -> string)
  (float_of_str : string -> py Q) (x : Q) : Prop :=
  float_of_str (str_float x) = inr x /\ free_of "S" (str_float x) = true.

(** A tuple of 2 or 3 entries. *)
Definition is_tuple23 {A : Type} (t : list A) : Prop :=
  List.length t = 2%nat \/ List.length t = 3%nat.

(** The common shape of [convert_int_from_string] and
    [convert_float_from_string], for an element parser [parse]. *)
Definition decode {A : Type} (parse : string -> py A) (s : string)
  : py (list A) :=
  let s_split := split "S" s in
  let ndim := len s_split in
  p1 <- getitem s_split 0 ;;
  d1 <- parse p1 ;;
  p2 <- getitem s_split 1 ;;
  d2 <- parse p2 ;;
  if (ndim =? 2)%Z then ret [d1; d2]
  else
    p3 <- getitem s_split 2 ;;
    d3 <- parse p3 ;;
    ret [d1; d2; d3].

(** Python's [str] and [float] on a float of integer value (of magnitude
    below 1e16): the integer followed by [.0]. *)
Definition str_float_integral (x : Q) : string :=
  (str_int (Qfloor x) ++ ".0")%string.

Definition float_of_str_integral (s : string) : py Q :=
  match split "." s with
  | [a; b] =>
      if String.eqb b "0" then n <- int_of_str a ;; ret (inject_Z n)
      else raise ValueError
  | _ => raise ValueError
  end.

(** ** Apertures *)

Local Open Scope Q_scope.

(** Python's [round]: the nearest integer, ties to the even one. *)
Definition round_half_even (x : Q) : Z :=
  let f := Qfloor x in
  match Qcompare (x - inject_Z f) (1 # 2) with
  | Lt => f
  | Gt => (f + 1)%Z
  | Eq => if Z.even f then f else (f + 1)%Z
  end.




(** [idx] lies in the block of extent [sub] placed at [left]. *)
Fixpoint insideb (left sub idx : list Z) : bool :=
  match left, sub, idx with
  | [], [], [] => true
  | l :: ls, n :: ns, i :: js =>
      (l <=? i)%Z && (i <? l + n)%Z && insideb ls ns js
  | _, _, _ => false
  end.

Fixpoint shift (left idx : list Z) : list Z :=
  match left, idx with
  | l :: ls, i :: js => (i - l)%Z :: shift ls js
  | _, _ => []
  end.

(** [r] has shape [shape_full], holds [g] at [left : left + shape_sub] and
    zero elsewhere. *)
Definition embeds (left shape_sub shape_full : list Z) (g r : ndarray Q)
  : Prop :=
  Np.shape r = shape_full
  /\ forall idx, in_bounds shape_full idx ->
       item r idx = if insideb left shape_sub idx
                    then item g (shift left idx) else 0.

(** The smallest and the largest coordinate of sources [s] and receivers
    [g] along one axis. *)
Definition lowest (s g : list Q) : Q :=
  Qmin (fold_left Qmin (tl s) (hd 0 s)) (fold_left Qmin (tl g) (hd 0 g)).

Definition highest (s g : list Q) : Q :=
  Qmax (fold_left Qmax (tl s) (hd 0 s)) (fold_left Qmax (tl g) (hd 0 g)).

(** The aperture along an axis with origin [o] and [n] points at spacing
    [d]: the coordinates widened by the buffer and clipped to the domain. *)
Definition aperture_lo (o : Q) (s g : list Q) (buf : Q) : Q :=
  Qmax o (lowest s g - buf).

Definition aperture_hi (o : Q) (n : Z) (d : Q) (s g : list Q) (buf : Q) : Q :=
  Qmin (o + inject_Z (n - 1) * d) (highest s g + buf).

(** The physical bounds along axis [k] of a returned sub-domain. *)
Definition sub_lo (origin_sub : list Q) (k : nat) : Q := nth k origin_sub 0.

Definition sub_hi (shape_sub : list Z) (origin_sub spacing : list Q) (k : nat)
  : Q :=
  nth k origin_sub 0 + inject_Z (nth k shape_sub 0%Z - 1) * nth k spacing 0.

(** The index range of the aperture along an axis, as
    [restrict_model_to_receiver_grid] computes it. *)
Definition index_lo (o : Q) (d : Q) (s g : list Q) (buf : Q) : Z :=
  py_int (aperture_lo o s g buf / d).

Definition index_hi (o : Q) (n : Z) (d : Q) (s g : list Q) (buf : Q) : Z :=
  py_int (aperture_hi o n d s g buf / d).

(** The coordinates along axis [k]: the x coordinates for axis 0, the y
    coordinates (when supplied) for axis 1. *)
Definition axis_coords (cx : list Q) (cy : option (list Q)) (k : nat)
  : list Q :=
  match k with
  | O => cx
  | _ => match cy with Some l => l | None => [] end
  end.

(** The coordinate sets a call needs: x coordinates of sources and
    receivers, and y coordinates of both unless the domain has two axes. *)
Definition coords_given (ndim : nat) (sx gx : list Q)
  (sy gy : option (list Q)) : Prop :=
  sx <> [] /\ gx <> []
  /\ match sy, gy with
     | Some a, Some b => a <> [] /\ b <> []
     | _, _ => ndim = 2%nat
     end.

Section AxisOfACall.

Variables (shape : list Z) (origin spacing : list Q).
Variables (sx gx : list Q) (sy gy : option (list Q)) (buf : Q).
Variables (shape_sub : list Z) (origin_sub : list Q).
Variable k : nat.

Definition axis_lo : Q :=
  aperture_lo (nth k origin 0) (axis_coords sx sy k) (axis_coords gx gy k) buf.

Definition axis_hi : Q :=
  aperture_hi (nth k origin 0) (nth k shape 0%Z) (nth k spacing 0)
    (axis_coords sx sy k) (axis_coords gx gy k) buf.

(** The returned sub-domain contains the aperture along axis [k]. *)
Definition covers : Prop :=
  sub_lo origin_sub k <= axis_lo
  /\ axis_hi <= sub_hi shape_sub origin_sub spacing k.

(** The returned sub-domain runs from the grid point at or just below the
    lower end of the aperture to the grid point at or just below its upper
    end. *)
Definition snaps_to_grid : Prop :=
  let d := nth k spacing 0 in
  (sub_lo origin_sub k <= axis_lo /\ axis_lo < sub_lo origin_sub k + d)
  /\ (sub_hi shape_sub origin_sub spacing k <= axis_hi
      /\ axis_hi < sub_hi shape_sub origin_sub spacing k + d).

(** Every coordinate, widened by the buffer and clipped to the domain, lies
    in the sub-domain extended by one cell at its upper end. *)
Definition holds_coordinates : Prop :=
  let o := nth k origin 0 in
  let d := nth k spacing 0 in
  forall c, In c (axis_coords sx sy k) \/ In c (axis_coords gx gy k) ->
    sub_lo origin_sub k <= Qmax o (c - buf)
    /\ Qmin (o + inject_Z (nth k shape 0%Z - 1) * d) (c + buf)
       < sub_hi shape_sub origin_sub spacing k + d.

End AxisOfACall.

(** ** Arrays for the examples *)

(** The array of shape [(n0, n1)] whose entries are their row index. *)
Definition ramp2 (n0 n1 : Z) : ndarray Q :=
  NDArray [n0; n1] (fun idx => inject_Z (ix idx 0)).

(** The array of shape [(n0, n1)] filled with ones. *)
Definition ones2 (n0 n1 : Z) : ndarray Q :=
  NDArray [n0; n1] (fun _ => 1).

(** ** The store *)

(** What every reading of foreign bytes keeps: the number of bytes. *)
Definition keeps_byte_count
  (reinterpret : eltype -> eltype -> list Q -> list Q) : Prop :=
  forall d1 d2 l,
    ((len l * itemsize d1) mod itemsize d2 = 0)%Z ->
    (len (reinterpret d1 d2 l) * itemsize d2 = len l * itemsize d1)%Z.

(** A table of element types and a reading of foreign bytes to run the
    examples with: the two names of floats, and zeros in the number that
    the byte count gives. *)
Definition dtype_of_name (name : string) : option eltype :=
  if String.eqb name "float32" then Some Float32
  else if String.eqb name "float64" then Some Float64
  else None.

Definition zero_fill (d1 d2 : eltype) (l : list Q) : list Q :=
  repeat 0 (Z.to_nat (len l * itemsize d1 / itemsize d2)).

End Props.

Module ModelProps.

Import PyModel.

Local Open Scope R_scope.

(** The array of shape [sh] filled with [v]. *)
Definition const_array (sh : list Z) (v : R) : ndarray R :=
  NDArray sh (fun _ => v).

(** A devito in which [f.data = x] is refused. *)
Definition read_only_data : Function -> R -> py Function :=
  fun _ _ => raise AttributeError.

(** [Model(origin, spacing, shape, vp, nbpml=nbpml)], the other arguments
    at their defaults. *)
Definition args (origin spacing : list R) (shape : list Z) (vp : param)
  (nbpml : Z) : ModelArgs :=
  MkArgs origin spacing shape vp (Scalar 1) nbpml None None None None None 8.

(** A 101 x 101 model of spacing 10 with velocity 2 everywhere and 10
    boundary points. *)
Definition example_args : ModelArgs :=
  args [0; 0] [10; 10] [101; 101]%Z (Array (const_array [101; 101]%Z 2)) 10.

(** The same with the velocity given as the number 2.0. *)
Definition constant_vp_args : ModelArgs :=
  args [0; 0] [10; 10] [101; 101]%Z (Scalar 2) 10.

(** The sine taper of the damping profile at relative position [p]. *)
Definition taper (p : R) : R := p - sin (2 * PI * p) / (2 * PI).

(** A damping function on a 5 x 5 grid of unit spacing whose physical
    domain is the single centre point, two boundary points on each side. *)
Definition small_damp : Function :=
  MkFunction (MkGrid [4; 4] [5; 5]%Z [0; 0] 2) 1 (const_array [7; 7]%Z 0).

(** [idx] is a point of the physical domain of a grid of shape [sh] with
    [nb] boundary points on each side. *)
Definition interior (nb : Z) (sh idx : list Z) : Prop :=
  forall k n, nth_error sh k = Some n -> (nb <= ix idx k < n - nb)%Z.

(** An optional parameter that is absent or a number. *)
Definition not_array (p : option param) : Prop :=
  match p with
  | Some (Array _) => False
  | _ => True
  end.

(** Arguments with which the construction goes through: a velocity array
    of the interior shape on at most three axes of at least one point each,
    one spacing per axis, the other parameters absent or numbers. *)
Definition valid_args (a : ModelArgs) : Prop :=
  (exists arr, a_vp a = Array arr /\ Np.shape arr = a_shape a)
  /\ (exists r, a_rho a = Scalar r)
  /\ a_dm a = None
  /\ not_array (a_epsilon a) /\ not_array (a_delta a)
  /\ not_array (a_theta a) /\ not_array (a_phi a)
  /\ Forall (fun n => (0 < n)%Z) (a_shape a)
  /\ (List.length (a_shape a) <= 3)%nat
  /\ List.length (a_spacing a) = List.length (a_shape a)
  /\ (0 <= a_nbpml a)%Z /\ (0 <= a_space_order a)%Z.

End ModelProps.

(** * Vocabulary of the claim about the time step *)

Module TimeStepProps.

Local Open Scope Q_scope.

(** The bound of the CFL condition,
    [coeff * min(spacing) / (scale * max(velocity))], for a domain of
    [ndim] axes. *)
Definition cfl_bound (ndim : Z) (h scale v : Q) : Q :=
  (if (ndim =? 3)%Z then 38 # 100 else 42 # 100) * h / (scale * v).

(** [floor(1000 * dt) / 1000] *)
Definition truncated (dt : Q) : Q := inject_Z (Qfloor (1000 * dt)) / 1000.

(** A velocity array that holds one value. *)
Definition const_vp (sh : list Z) (v : Fp.float) : ndarray Fp.float :=
  NDArray sh (fun _ => v).

End TimeStepProps.

(* ################################################################## *)
(** * CloudExtras.py: array put and get, the mute window *)

Module CloudAux.

Import CloudExtras.

Local Open Scope Q_scope.

(** What a call can raise: a built-in exception, or the plain
    [Exception(msg)] that [array_get] raises itself. *)
Inductive exn : Type :=
| Builtin (e : pyerr)
| PlainException (msg : string).

(** A computation of the base layer, seen from a caller that can also get
    a plain [Exception]. *)
Definition lift {A : Type} (c : py A) : exn + A :=
  match c with
  | inl e => inl (Builtin e)
  | inr a => inr a
  end.

(** [try: c except: raise Exception(msg)] *)
Definition try_except {A : Type} (c : py A) (msg : string) : exn + A :=
  match c with
  | inl _ => inl (PlainException msg)
  | inr a => inr a
  end.

(** The one-dimensional array of a flat body ([np.fromstring]). *)
Definition from_flat (flat : list Q) : ndarray Q :=
  NDArray [len flat] (fun idx => nth (Z.to_nat (ix idx 0)) flat 0).

(** [array_put]: the bytes are those of the array, with its own element
    type; the tag says ['float32'] whatever that type is. *)
Definition array_put (st : s3) (bdy : tarray) (bucket key : string)
  : py s3 :=
  let st := put_object st (tostring bdy) bucket key in
  put_object_tagging st bucket key
    [ ("eltype", "float32"); ("creator", "S3-SLIM") ]%string.

(** The loop of [array_get] over the tags: [dtype] is bound by an
    ['eltype'] tag. *)
Definition array_get_tag (dtype : option string) (tag : string * string)
  : option string :=
  if String.eqb (fst tag) "eltype" then Some (snd tag) else dtype.

Section Numpy.

(** numpy's table of element types and its reading of foreign bytes. *)
Variable np_dtype : string -> option eltype.
Variable reinterpret : eltype -> eltype -> list Q -> list Q.

(** [array_get]; the two S3 requests are outside the [try]. *)
Definition array_get (st : s3) (bucket key : string) : exn + tarray :=
  match get_object st bucket key with
  | inl e => inl (Builtin e)
  | inr binary =>
      match get_object_tagging st bucket key with
      | inl e => inl (Builtin e)
      | inr tags =>
          try_except
            (let dtype := fold_left array_get_tag tags None in
             dtype <- lookup_var dtype ;;
             '(d, x) <- fromstring np_dtype reinterpret binary dtype ;;
             ret (TArray d (from_flat x)))
            "could not retrieve array"
      end
  end.

End Numpy.

(** An index of an axis of [n] points, negative indices counting from the
    end. *)
Definition norm_index (n i : Z) : py Z :=
  let k := if (i <? 0)%Z then (i + n)%Z else i in
  if (k <? 0)%Z || (n <=? k)%Z then raise IndexError else ret k.

(** [a[i, j]] on a two-dimensional array. *)
Definition getitem2 {A : Type} (a : ndarray A) (i j : Z) : py A :=
  match Np.shape a with
  | [n0; n1] =>
      i' <- norm_index n0 i ;;
      j' <- norm_index n1 j ;;
      ret (item a [i'; j'])
  | _ => raise IndexError
  end.

(** [a[0:stop, :] = 0] (no column) and [a[0:stop, j] = 0] (column [j], an
    index of the second axis) on a two-dimensional array. *)
Definition zero_rows (stop : Z) (col : option Z) (a : ndarray Q)
  : ndarray Q :=
  let '(lo, k) := slice_range (nth 0 (Np.shape a) 0%Z) 0 stop in
  NDArray (Np.shape a)
    (fun idx =>
       if (lo <=? ix idx 0)%Z && (ix idx 0 <? lo + k)%Z
          && match col with
             | Some j => (ix idx 1 =? j)%Z
             | None => true
             end
       then 0 else item a idx).

Definition mute_y0 (mute_start : Q) : Z :=
  py_int (mute_start + mute_start / 10).

(** The end of the mute window of receiver [j]. *)
Definition mute_idx (ymax y0 nrec j : Z) : Z :=
  let dx := nrec in
  let dy := (ymax - y0)%Z in
  let slope := inject_Z dy / inject_Z dx in
  py_int (inject_Z ymax - slope * inject_Z j).

(** [data_mute]; [tn] is not used.  The receiver coordinates are numpy
    scalars, so that the quotient by a zero [dt] is [nan] or an infinity
    that [int] refuses; the division by the number of receivers, of two
    Python integers, raises [ZeroDivisionError]. *)
Definition data_mute (dobs rec_coordinates : ndarray Q) (tn dt : Q)
  (mute_start : Q) (mute_all : option Z) : py (ndarray Q) :=
  match Np.shape dobs with
  | [nt; nrec] =>
      last <- getitem2 rec_coordinates (-1) 0 ;;
      first <- getitem2 rec_coordinates 0 0 ;;
      let max_offset := last - first in
      let water_speed := 15 # 10 in
      let travel_time_direct_wave := max_offset / water_speed in
      idx_direct_wave <- np_int_quot travel_time_direct_wave dt ;;
      let ymax :=
        py_int (inject_Z idx_direct_wave + inject_Z idx_direct_wave / 20) in
      (* Construct mute window *)
      let y0 := mute_y0 mute_start in
      if (nrec =? 0)%Z then raise ZeroDivisionError
      else
        mask <- full [nt; nrec] 1 ;;
        let mask := zero_rows y0 None mask in
        let mask :=
          match mute_all with
          | Some k => zero_rows k None mask
          | None => mask
          end in
        let mask :=
          fold_left
            (fun mask j => zero_rows (mute_idx ymax y0 nrec j) (Some j) mask)
            (range nrec) mask in
        ret (NDArray (Np.shape dobs)
               (fun idx => item dobs idx * item mask idx))
  | _ => raise ValueError
  end.

End CloudAux.

(** * Vocabulary of the further properties *)

Module MoreProps.

Import CloudExtras CloudAux.

Local Open Scope Q_scope.


(** The array of shape [sh] whose entries are their row-major offset. *)
Definition offsets_array (sh : list Z) : ndarray Q :=
  NDArray sh (fun idx => inject_Z (ravel_index sh idx)).

(** The index of the full array that index [idx] of a block placed at
    [lo] stands for. *)
Fixpoint add_offsets (lo idx : list Z) : list Z :=
  match lo, idx with
  | l :: ls, i :: r => (l + i)%Z :: add_offsets ls r
  | _, _ => []
  end.

End MoreProps.

(* ################################################################## *)
(** * PyModel.py: vocabulary of the further properties *)

Module ModelMore.

Import PyModel ModelProps.

Local Open Scope R_scope.

(** The point of an array of shape [sh] nearest to [idx - nb]: the point
    of the physical domain that a point of the extended grid copies. *)
Definition nearest (nb : Z) (sh idx : list Z) : list Z :=
  map (fun ni => clamp 0 (fst ni - 1) (snd ni - nb)) (combine sh idx).

(** The anisotropy parameters of a call. *)
Definition anisotropic (a : ModelArgs) : Prop :=
  a_epsilon a <> None \/ a_delta a <> None \/ a_theta a <> None
  \/ a_phi a <> None.

(** The physical size of each axis: [(n - 1) * s]. *)
Definition physical_size (sh : list Z) (sp : list R) : list R :=
  map (fun ns => IZR (fst ns - 1) * snd ns) (combine sh sp).

(** The example call with the velocity given as the number 0. *)
Definition zero_vp_args : ModelArgs :=
  args [0; 0] [10; 10] [101; 101]%Z (Scalar 0) 10.

End ModelMore.

(* ################################################################## *)
(** * Facts about the Python layer *)

Unset Implicit Arguments.

Module PyFacts.

Lemma getitem_0 (A : Type) (x : A) (r : list A) : getitem (x :: r) 0 = inr x.
Proof. reflexivity. Qed.

Lemma getitem_1 (A : Type) (x y : A) (r : list A) :
  getitem (x :: y :: r) 1 = inr y.
Proof. reflexivity. Qed.

Lemma getitem_2 (A : Type) (x y z : A) (r : list A) :
  getitem (x :: y :: z :: r) 2 = inr z.
Proof. reflexivity. Qed.

Lemma getitem_last2 (A : Type) (x y : A) : getitem [x; y] (-1) = inr y.
Proof. reflexivity. Qed.

Lemma getitem_last3 (A : Type) (x y z : A) : getitem [x; y; z] (-1) = inr z.
Proof. reflexivity. Qed.

Lemma bind_ret (A B : Type) (a : A) (k : A -> py B) : bind (inr a) k = k a.
Proof. reflexivity. Qed.

Lemma bind_inr (A B : Type) (c : py A) (k : A -> py B) (b : B) :
  bind c k = inr b -> exists a, c = inr a /\ k a = inr b.
Proof.
  destruct c as [e|a]; simpl; [discriminate|]. intros H. now exists a.
Qed.

End PyFacts.

Create Rewrite HintDb py.

#[export] Hint Rewrite PyFacts.getitem_0 PyFacts.getitem_1 PyFacts.getitem_2
  PyFacts.getitem_last2 PyFacts.getitem_last3 PyFacts.bind_ret : py.

(** Run a Python computation whose steps are known. *)
Ltac py_step := autorewrite with py; cbv beta iota zeta.

(* ################################################################## *)
(** * The tag encoding of the model geometry *)

Module TagEncoding.

Import CloudExtras Props PyFacts.

Lemma forall_chars_impl (p q : ascii -> bool) (s : string) :
  (forall c, p c = true -> q c = true) ->
  forall_chars p s = true -> forall_chars q s = true.
Proof.
  intros Hpq. induction s as [|c r IH]; simpl; auto.
  intros H. apply andb_true_iff in H. destruct H as [Hc Hr].
  rewrite (Hpq _ Hc). simpl. auto.
Qed.

Lemma forall_chars_app (p : ascii -> bool) (s t : string) :
  forall_chars p (s ++ t) = forall_chars p s && forall_chars p t.
Proof.
  induction s as [|c r IH]; simpl; auto.
  rewrite IH. now rewrite andb_assoc.
Qed.

(** ** Splitting at a separator *)

Lemma split_free (sep : ascii) (s : string) :
  free_of sep s = true -> split sep s = [s].
Proof.
  unfold free_of. induction s as [|c r IH]; simpl; auto.
  intros H. apply andb_true_iff in H. destruct H as [Hc Hr].
  apply negb_true_iff in Hc. rewrite Hc, (IH Hr). reflexivity.
Qed.

Lemma split_app (sep : ascii) (s t : string) :
  free_of sep s = true ->
  split sep (s ++ String sep t) = s :: split sep t.
Proof.
  unfold free_of. induction s as [|c r IH]; simpl.
  - intros _. now rewrite Ascii.eqb_refl.
  - intros H. apply andb_true_iff in H. destruct H as [Hc Hr].
    apply negb_true_iff in Hc. rewrite Hc, (IH Hr). reflexivity.
Qed.

(** ** Printing and parsing integers *)

Lemma digit_facts (c : ascii) :
  is_digit c = true ->
  is_space c = false /\ Ascii.eqb c "_" = false /\ Ascii.eqb c "-" = false
  /\ Ascii.eqb c "+" = false /\ Ascii.eqb c "S" = false.
Proof.
  destruct c as [[] [] [] [] [] [] [] []]; vm_compute; intros H;
    try discriminate H; repeat split; reflexivity.
Qed.

Lemma digits_of_uint (d : uint) :
  forall_chars is_digit (NilEmpty.string_of_uint d) = true.
Proof.
  induction d; simpl; auto.
Qed.

Lemma digits_of_uint_nz (d : uint) :
  forall_chars is_digit (NilZero.string_of_uint d) = true.
Proof.
  destruct d; try apply (digits_of_uint (_ _)). reflexivity.
Qed.

Lemma string_of_uint_nonempty (d : uint) :
  NilZero.string_of_uint d <> EmptyString.
Proof.
  destruct d; simpl; discriminate.
Qed.

Lemma lstrip_id (s : string) :
  forall_chars (fun c => negb (is_space c)) s = true -> lstrip s = s.
Proof.
  destruct s as [|c r]; simpl; auto.
  intros H. apply andb_true_iff in H. destruct H as [Hc _].
  apply negb_true_iff in Hc. now rewrite Hc.
Qed.

Lemma rstrip_id (s : string) :
  forall_chars (fun c => negb (is_space c)) s = true -> rstrip s = s.
Proof.
  induction s as [|c r IH]; simpl; auto.
  intros H. apply andb_true_iff in H. destruct H as [Hc Hr].
  apply negb_true_iff in Hc. rewrite (IH Hr), Hc. now destruct r.
Qed.

Lemma strip_id (s : string) :
  forall_chars (fun c => negb (is_space c)) s = true -> strip s = s.
Proof.
  intros H. unfold strip. rewrite (lstrip_id _ H). now apply rstrip_id.
Qed.

Lemma drop_underscores_digits (b : bool) (s : string) :
  forall_chars is_digit s = true -> drop_underscores b s = Some s.
Proof.
  revert b. induction s as [|c r IH]; simpl; auto.
  intros b H. apply andb_true_iff in H. destruct H as [Hc Hr].
  destruct (digit_facts _ Hc) as (_ & Hu & _). rewrite Hu.
  now rewrite (IH _ Hr).
Qed.

Lemma digits_no_space (s : string) :
  forall_chars is_digit s = true ->
  forall_chars (fun c => negb (is_space c)) s = true.
Proof.
  apply forall_chars_impl. intros c Hc.
  destruct (digit_facts _ Hc) as (Hs & _). now rewrite Hs.
Qed.

(** Parsing the digits of a numeral gives the numeral back. *)
Lemma parse_digits (d : uint) (sign : Z) :
  d <> Nil ->
  match drop_underscores false (NilZero.string_of_uint d) with
  | Some digits =>
      match NilZero.uint_of_string digits with
      | Some d' => ret (sign * Z.of_uint d')%Z
      | None => raise ValueError
      end
  | None => raise ValueError
  end = inr (sign * Z.of_uint d)%Z.
Proof.
  intros Hd.
  rewrite (drop_underscores_digits _ _ (digits_of_uint_nz d)).
  now rewrite (NilZero.usu d Hd).
Qed.

Lemma int_of_str_unsigned (d : uint) :
  d <> Nil ->
  int_of_str (NilZero.string_of_uint d) = inr (Z.of_uint d).
Proof.
  intros Hd. unfold int_of_str.
  rewrite (strip_id _ (digits_no_space _ (digits_of_uint_nz d))).
  pose proof (digits_of_uint_nz d) as Hdig.
  pose proof (parse_digits d 1%Z Hd) as Hp.
  destruct (NilZero.string_of_uint d) as [|c r] eqn:Es.
  - now destruct (string_of_uint_nonempty d).
  - simpl in Hdig. apply andb_true_iff in Hdig. destruct Hdig as [Hc _].
    destruct (digit_facts _ Hc) as (_ & _ & Hm & Hp' & _).
    rewrite Hm, Hp'. rewrite Hp. f_equal. now destruct (Z.of_uint d).
Qed.

Lemma pos_to_uint_nonnil (p : positive) : Pos.to_uint p <> Nil.
Proof.
  intros H. pose proof (DecimalPos.Unsigned.of_to p) as E.
  rewrite H in E. discriminate E.
Qed.

(** [int(str(n)) == n] *)
Lemma int_of_str_int (n : Z) : int_of_str (str_int n) = inr n.
Proof.
  unfold str_int. destruct n as [|p|p]; simpl Z.to_int.
  - reflexivity.
  - simpl NilZero.string_of_int.
    rewrite (int_of_str_unsigned _ (pos_to_uint_nonnil p)).
    f_equal. exact (DecimalZ.of_to (Z.pos p)).
  - simpl NilZero.string_of_int. unfold int_of_str.
    assert (Hsp : forall_chars (fun c => negb (is_space c))
                    (String "-" (NilZero.string_of_uint (Pos.to_uint p))) = true).
    { simpl. apply digits_no_space, digits_of_uint_nz. }
    rewrite (strip_id _ Hsp). cbv beta iota zeta.
    change (Ascii.eqb "-" "-") with true. cbv beta iota.
    rewrite (parse_digits _ (-1)%Z (pos_to_uint_nonnil p)).
    f_equal. exact (DecimalZ.of_to (Z.neg p)).
Qed.

Lemma str_int_free_of_S (n : Z) : free_of "S" (str_int n) = true.
Proof.
  assert (Hd : forall d, free_of "S" (NilZero.string_of_uint d) = true).
  { intros d. unfold free_of.
    apply (forall_chars_impl is_digit); [|apply digits_of_uint_nz].
    intros c Hc. destruct (digit_facts _ Hc) as (_ & _ & _ & _ & HS).
    now rewrite HS. }
  unfold str_int. destruct n as [|p|p]; simpl Z.to_int.
  - reflexivity.
  - apply Hd.
  - simpl NilZero.string_of_int. unfold free_of. simpl. apply Hd.
Qed.

(** ** The encoding of a tuple and its two decoders *)

Section Roundtrip.

Variable A : Type.
Variable str : A -> string.
Variable parse : string -> py A.

Lemma decode_encode (t : list A) :
  is_tuple23 t ->
  (forall x, In x t -> parse (str x) = inr x /\ free_of "S" (str x) = true) ->
  exists s, convert_to_string str t = inr s /\ decode parse s = inr t.
Proof.
  intros Ht Hx.
  destruct Ht as [Ht|Ht].
  - destruct t as [|x [|y [|z r]]]; try discriminate Ht.
    destruct (Hx x (or_introl eq_refl)) as [Px Fx].
    destruct (Hx y (or_intror (or_introl eq_refl))) as [Py Fy].
    eexists. split; [reflexivity|].
    unfold decode. cbn [append].
    rewrite (split_app _ _ _ Fx), (split_free _ _ Fy).
    py_step. rewrite Px. py_step. rewrite Py. reflexivity.
  - destruct t as [|x [|y [|z [|w r]]]]; try discriminate Ht.
    destruct (Hx x (or_introl eq_refl)) as [Px Fx].
    destruct (Hx y (or_intror (or_introl eq_refl))) as [Py Fy].
    destruct (Hx z (or_intror (or_intror (or_introl eq_refl)))) as [Pz Fz].
    eexists. split; [reflexivity|].
    unfold decode. cbn [append].
    rewrite (split_app _ _ _ Fx), (split_app _ _ _ Fy), (split_free _ _ Fz).
    py_step. rewrite Px. py_step. rewrite Py. py_step. rewrite Pz. reflexivity.
Qed.

End Roundtrip.

Lemma convert_int_roundtrip (t : list Z) :
  is_tuple23 t ->
  exists s, convert_to_string str_int t = inr s
            /\ convert_int_from_string s = inr t.
Proof.
  intros Ht.
  apply (decode_encode _ str_int int_of_str t Ht).
  intros x _. split; [apply int_of_str_int | apply str_int_free_of_S].
Qed.

Lemma convert_float_roundtrip (str_float : Q -> string)
  (float_of_str : string -> py Q) (t : list Q) :
  is_tuple23 t ->
  (forall x, In x t -> repr_roundtrips str_float float_of_str x) ->
  exists s, convert_to_string str_float t = inr s
            /\ convert_float_from_string float_of_str s = inr t.
Proof.
  intros Ht Hx.
  exact (decode_encode _ str_float float_of_str t Ht Hx).
Qed.

(** ** model_put followed by model_get *)

Lemma range_length (n : Z) : List.length (range n) = Z.to_nat n.
Proof.
  unfold range. now rewrite length_map, length_seq.
Qed.

Lemma flat_map_length_const (A B : Type) (f : A -> list B) (k : nat)
  (l : list A) :
  (forall x, List.length (f x) = k) ->
  List.length (flat_map f l) = (List.length l * k)%nat.
Proof.
  intros Hf. induction l as [|x r IH]; simpl; auto.
  now rewrite length_app, Hf, IH.
Qed.

Lemma indices_length (sh : list Z) :
  Forall (fun n => (0 <= n)%Z) sh ->
  len (indices sh) = fold_right Z.mul 1%Z sh.
Proof.
  unfold len. induction 1 as [|n sh Hn Hsh IH]; simpl; auto.
  rewrite (flat_map_length_const _ _ _ (List.length (indices sh))).
  - rewrite range_length, Nat2Z.inj_mul, IH, Z2Nat.id; auto.
  - intros i. now rewrite length_map.
Qed.

Lemma forallb_nonneg (sh : list Z) :
  Forall (fun n => (0 <= n)%Z) sh -> forallb (fun n => (0 <=? n)%Z) sh = true.
Proof.
  induction 1; simpl; auto. apply andb_true_iff. split; auto.
  now apply Z.leb_le.
Qed.

Lemma same_key_refl (b k : string) : same_key b k b k = true.
Proof.
  unfold same_key. now rewrite !String.eqb_refl.
Qed.

(** ** What the store holds after a put *)

Lemma tagging_after_put (st : s3) (bdy : bytes) (bucket key : string)
  (tags : list (string * string)) :
  exists st',
    put_object_tagging (put_object st bdy bucket key) bucket key tags = inr st'
    /\ st' bucket key = Some (S3Object bdy tags)
    /\ forall b k, same_key bucket key b k = false -> st' b k = st b k.
Proof.
  unfold put_object_tagging, put_object.
  rewrite same_key_refl. eexists. split; [reflexivity|].
  cbn beta. rewrite same_key_refl. split; [reflexivity|].
  intros b k H. now rewrite H.
Qed.

(** [model_get] on an object with the tags of [model_put]. *)
Lemma model_get_of_tags (float_of_str : string -> py Q)
  (np_dtype : string -> option eltype)
  (reinterpret : eltype -> eltype -> list Q -> list Q) (st : s3)
  (bucket key : string) (bdy : bytes) (s1 s2 s3 : string)
  (shape : list Z) (origin spacing : list Q) :
  st bucket key
  = Some (S3Object bdy
            [ ("eltype", "float32"); ("creator", "S3-SLIM"); ("shape", s1);
              ("origin", s2); ("spacing", s3) ]%string) ->
  convert_int_from_string s1 = inr shape ->
  convert_float_from_string float_of_str s2 = inr origin ->
  convert_float_from_string float_of_str s3 = inr spacing ->
  model_get float_of_str np_dtype reinterpret st bucket key
  = ('(d, m) <- fromstring np_dtype reinterpret bdy "float32" ;;
     m <- reshape 0 m shape ;; ret (TArray d m, origin, spacing)).
Proof.
  intros Hst D1 D2 D3.
  unfold model_get, get_object, get_object_tagging. rewrite Hst.
  py_step. cbn [fold_left body tagset].
  unfold model_get_tag at 5. py_step. cbn [String.eqb Ascii.eqb Bool.eqb].
  unfold model_get_tag at 4. py_step. cbn [String.eqb Ascii.eqb Bool.eqb].
  unfold model_get_tag at 3. py_step. cbn [String.eqb Ascii.eqb Bool.eqb].
  rewrite D1. py_step.
  unfold model_get_tag at 2. py_step. cbn [String.eqb Ascii.eqb Bool.eqb].
  rewrite D2. py_step.
  unfold model_get_tag at 1. py_step. cbn [String.eqb Ascii.eqb Bool.eqb].
  rewrite D3. py_step.
  cbn [v_dtype v_shape v_origin v_spacing lookup_var].
  py_step.
  destruct (fromstring np_dtype reinterpret bdy "float32") as [e|[d m]];
    [reflexivity|].
  py_step. destruct (reshape 0 m shape); reflexivity.
Qed.

(** The bytes of an array of 32-bit floats, read as ['float32'], are its
    elements. *)
Lemma fromstring_float32 (np_dtype : string -> option eltype)
  (reinterpret : eltype -> eltype -> list Q -> list Q) (a : tarray) :
  np_dtype "float32"%string = Some Float32 ->
  dtype a = Float32 ->
  fromstring np_dtype reinterpret (tostring a) "float32"
  = inr (Float32, ravel (elems a)).
Proof.
  intros Hn Hd. unfold fromstring, tostring. rewrite Hn. cbn [b_dtype b_items].
  rewrite Hd. reflexivity.
Qed.

Lemma model_get_put (str_float : Q -> string) (float_of_str : string -> py Q)
  (np_dtype : string -> option eltype)
  (reinterpret : eltype -> eltype -> list Q -> list Q)
  (st : s3) (model : tarray) (origin spacing : list Q)
  (bucket key : string) :
  np_dtype "float32"%string = Some Float32 ->
  dtype model = Float32 ->
  is_tuple23 (Np.shape (elems model)) ->
  Forall (fun n => (0 <= n)%Z) (Np.shape (elems model)) ->
  is_tuple23 origin -> is_tuple23 spacing ->
  (forall x, In x origin \/ In x spacing ->
             repr_roundtrips str_float float_of_str x) ->
  exists st' m',
    model_put str_float st model origin spacing bucket key = inr st'
    /\ model_get float_of_str np_dtype reinterpret st' bucket key
       = inr (m', origin, spacing)
    /\ dtype m' = Float32
    /\ Np.shape (elems m') = Np.shape (elems model).
Proof.
  intros Hn Hd Hsh Hnn Ho Hs Hx.
  destruct (convert_int_roundtrip _ Hsh) as (s1 & E1 & D1).
  destruct (convert_float_roundtrip str_float float_of_str origin Ho)
    as (s2 & E2 & D2); [intros x Hin; apply Hx; now left|].
  destruct (convert_float_roundtrip str_float float_of_str spacing Hs)
    as (s3 & E3 & D3); [intros x Hin; apply Hx; now right|].
  unfold model_put. rewrite E1, E2, E3. py_step.
  destruct (tagging_after_put st (tostring model) bucket key
              [ ("eltype", "float32"); ("creator", "S3-SLIM"); ("shape", s1);
                ("origin", s2); ("spacing", s3) ]%string)
    as (st' & Est & Hobj & _).
  exists st'.
  exists (TArray Float32
            (NDArray (Np.shape (elems model))
               (fun idx =>
                  nth (Z.to_nat (ravel_index (Np.shape (elems model)) idx))
                    (ravel (elems model)) 0%Q))).
  split; [exact Est|]. split; [|split; reflexivity].
  rewrite (model_get_of_tags float_of_str np_dtype reinterpret st' bucket key
             _ _ _ _ _ _ _ Hobj D1 D2 D3).
  rewrite (fromstring_float32 np_dtype reinterpret model Hn Hd). py_step.
  unfold reshape.
  rewrite (forallb_nonneg _ Hnn). unfold ravel at 1.
  replace (len (map (item (elems model)) (indices (Np.shape (elems model)))))
    with (len (indices (Np.shape (elems model))))
    by (unfold len; now rewrite length_map).
  rewrite (indices_length _ Hnn), Z.eqb_refl. reflexivity.
Qed.

(** A non-empty model whose elements do not take four bytes is stored by
    [model_put], and [model_get] then fails: either the bytes are no whole
    number of 32-bit floats, or they are not as many as the shape asks. *)
Lemma model_get_put_other_size (str_float : Q -> string)
  (float_of_str : string -> py Q) (np_dtype : string -> option eltype)
  (reinterpret : eltype -> eltype -> list Q -> list Q)
  (st : s3) (model : tarray) (origin spacing : list Q)
  (bucket key : string) :
  np_dtype "float32"%string = Some Float32 ->
  keeps_byte_count reinterpret ->
  itemsize (dtype model) <> 4%Z ->
  is_tuple23 (Np.shape (elems model)) ->
  Forall (fun n => (0 < n)%Z) (Np.shape (elems model)) ->
  is_tuple23 origin -> is_tuple23 spacing ->
  (forall x, In x origin \/ In x spacing ->
             repr_roundtrips str_float float_of_str x) ->
  exists st',
    model_put str_float st model origin spacing bucket key = inr st'
    /\ model_get float_of_str np_dtype reinterpret st' bucket key
       = inl ValueError.
Proof.
  intros Hn Hk Hd Hsh Hpos Ho Hs Hx.
  assert (Hnn : Forall (fun n => (0 <= n)%Z) (Np.shape (elems model))).
  { eapply Forall_impl; [|exact Hpos]. cbv beta. intros; lia. }
  assert (Hprod : (0 < fold_right Z.mul 1 (Np.shape (elems model)))%Z).
  { clear - Hpos. induction Hpos; simpl; [lia|]. nia. }
  destruct (convert_int_roundtrip _ Hsh) as (s1 & E1 & D1).
  destruct (convert_float_roundtrip str_float float_of_str origin Ho)
    as (s2 & E2 & D2); [intros x Hin; apply Hx; now left|].
  destruct (convert_float_roundtrip str_float float_of_str spacing Hs)
    as (s3 & E3 & D3); [intros x Hin; apply Hx; now right|].
  unfold model_put. rewrite E1, E2, E3. py_step.
  destruct (tagging_after_put st (tostring model) bucket key
              [ ("eltype", "float32"); ("creator", "S3-SLIM"); ("shape", s1);
                ("origin", s2); ("spacing", s3) ]%string)
    as (st' & Est & Hobj & _).
  exists st'. split; [exact Est|].
  rewrite (model_get_of_tags float_of_str np_dtype reinterpret st' bucket key
             _ _ _ _ _ _ _ Hobj D1 D2 D3).
  assert (Hlen : len (ravel (elems model))
                 = fold_right Z.mul 1%Z (Np.shape (elems model))).
  { unfold ravel. rewrite <- (indices_length _ Hnn). unfold len.
    now rewrite length_map. }
  unfold fromstring, tostring, nbytes. rewrite Hn. cbn [b_dtype b_items].
  assert (He : eltype_eqb Float32 (dtype model) = false).
  { destruct (dtype model); try reflexivity. now elim Hd. }
  rewrite He. change (itemsize Float32) with 4%Z.
  destruct (Z.eqb_spec ((len (ravel (elems model)) * itemsize (dtype model))
                          mod 4) 0) as [Hm|Hm]; [|reflexivity].
  py_step. unfold reshape.
  specialize (Hk (dtype model) Float32 (ravel (elems model)) Hm).
  change (itemsize Float32) with 4%Z in Hk.
  destruct (Z.eqb_spec (fold_right Z.mul 1%Z (Np.shape (elems model)))
              (len (reinterpret (dtype model) Float32 (ravel (elems model)))))
    as [Heq|Hne].
  - exfalso. rewrite <- Heq, Hlen in Hk. nia.
  - rewrite andb_false_r. reflexivity.
Qed.

End TagEncoding.

(* ################################################################## *)
(** * Restriction to the receiver grid and embedding of the gradient *)

Module Aperture.

Import CloudExtras Props PyFacts.

Local Open Scope Q_scope.

(** ** Truncation *)

Lemma py_int_nonneg (x : Q) : 0 <= x -> py_int x = Qfloor x.
Proof.
  destruct x as [n d]. unfold Qle, py_int, Qfloor. simpl. intros H.
  apply Z.quot_div_nonneg; lia.
Qed.

Lemma py_int_nonpos (x : Q) : x <= 0 -> py_int x = Qceiling x.
Proof.
  destruct x as [n d]. unfold Qle, py_int, Qceiling, Qfloor. simpl. intros H.
  rewrite <- (Z.opp_involutive n) at 1. rewrite Z.quot_opp_l by lia.
  f_equal. apply Z.quot_div_nonneg; lia.
Qed.

Lemma py_int_comp (x y : Q) : x == y -> py_int x = py_int y.
Proof.
  intros E. destruct (Qlt_le_dec x 0) as [H|H].
  - rewrite !py_int_nonpos.
    + unfold Qceiling. now rewrite E.
    + rewrite <- E. now apply Qlt_le_weak.
    + now apply Qlt_le_weak.
  - rewrite !py_int_nonneg; [now apply Qfloor_comp| now rewrite <- E | exact H].
Qed.


Lemma int_quot_ok (x y : Q) : ~ y == 0 -> int_quot x y = inr (py_int (x / y)).
Proof.
  intros H. unfold int_quot.
  destruct (Qeq_bool y 0) eqn:E; [|reflexivity].
  apply Qeq_bool_iff in E. contradiction.
Qed.

Lemma np_int_quot_ok (x y : Q) : ~ y == 0 -> np_int_quot x y = inr (py_int (x / y)).
Proof.
  intros H. unfold np_int_quot.
  destruct (Qeq_bool y 0) eqn:E; [|reflexivity].
  apply Qeq_bool_iff in E. contradiction.
Qed.


(** ** Arrays *)

Lemma list_eqb_refl (l : list Z) : list_eqb l l = true.
Proof.
  induction l as [|x r IH]; simpl; auto. now rewrite Z.eqb_refl.
Qed.

Lemma full_ok (A : Type) (sh : list Z) (v : A) :
  Forall (fun n => (0 <= n)%Z) sh -> full sh v = inr (NDArray sh (fun _ => v)).
Proof.
  intros H. unfold full. now rewrite (TagEncoding.forallb_nonneg _ H).
Qed.

Lemma concat2_axis0 (A : Type) (a b : ndarray A) (na nb : Z) (rest : list Z) :
  Np.shape a = na :: rest -> Np.shape b = nb :: rest ->
  concat2 0 a b =
  inr (NDArray ((na + nb)%Z :: rest)
         (fun idx => if (ix idx 0 <? na)%Z then item a idx
                     else item b (upd 0 (fun i => (i - na)%Z) idx))).
Proof.
  intros Ha Hb. unfold concat2. rewrite Ha, Hb. simpl.
  now rewrite ?Z.eqb_refl, list_eqb_refl.
Qed.


Lemma in_bounds_2 (n0 n1 : Z) (idx : list Z) :
  in_bounds [n0; n1] idx ->
  exists i j, idx = [i; j] /\ (0 <= i < n0)%Z /\ (0 <= j < n1)%Z.
Proof.
  unfold in_bounds. destruct idx as [|i [|j [|k r]]]; simpl;
    try discriminate; try (now rewrite !andb_false_r).
  intros H. exists i, j. split; auto. lia.
Qed.

Lemma in_bounds_3 (n0 n1 n2 : Z) (idx : list Z) :
  in_bounds [n0; n1; n2] idx ->
  exists i j k, idx = [i; j; k]
    /\ (0 <= i < n0)%Z /\ (0 <= j < n1)%Z /\ (0 <= k < n2)%Z.
Proof.
  unfold in_bounds. destruct idx as [|i [|j [|k [|l r]]]]; simpl;
    try discriminate; try (now rewrite !andb_false_r).
  intros H. exists i, j, k. split; auto. lia.
Qed.

(** ** extent_gradient *)

(** Two axes: zero rows before and after the sub-domain rows. *)
Lemma extent_gradient_2d (n0 nz k0 : Z) (ks : list Z) (of0 os0 d0 : Q)
  (ofr osr dr : list Q) (g : ndarray Q) :
  Np.shape g = [k0; nz] -> ~ d0 == 0 ->
  let l := py_int ((os0 - of0) / d0) in
  (0 <= l)%Z -> (0 <= n0 - k0 - l)%Z -> (0 <= nz)%Z ->
  exists r,
    extent_gradient [n0; nz] (of0 :: ofr) (k0 :: ks) (os0 :: osr) (d0 :: dr) g
    = inr r
    /\ embeds [l; 0%Z] [k0; nz] [n0; nz] g r.
Proof.
  intros Hg Hd l Hl Hr Hz.
  unfold extent_gradient. py_step.
  rewrite (int_quot_ok _ _ Hd). fold l. py_step.
  change (len [n0; nz] =? 3)%Z with false. change (len [n0; nz] =? 2)%Z with true.
  py_step.
  rewrite !full_ok by (repeat constructor; assumption). py_step.
  unfold concatenate. cbn [fold_left]. py_step.
  erewrite concat2_axis0; [|reflexivity|exact Hg]. py_step.
  erewrite concat2_axis0; [|reflexivity|reflexivity].
  eexists. split; [reflexivity|]. split.
  - cbn [Np.shape]. f_equal. lia.
  - intros idx Hidx. apply in_bounds_2 in Hidx.
    destruct Hidx as (i & j & -> & Hi & Hj).
    cbn [item ix nth insideb shift upd]. rewrite Z.sub_0_r.
    destruct (Z.ltb_spec i (l + k0)), (Z.ltb_spec i l), (Z.leb_spec l i),
      (Z.leb_spec 0 j), (Z.ltb_spec j (0 + nz)); try lia; reflexivity.
Qed.


Lemma length_2 (A : Type) (l : list A) :
  List.length l = 2%nat -> exists a b, l = [a; b].
Proof.
  destruct l as [|a [|b [|c r]]]; try discriminate. now exists a, b.
Qed.

Lemma length_3 (A : Type) (l : list A) :
  List.length l = 3%nat -> exists a b c, l = [a; b; c].
Proof.
  destruct l as [|a [|b [|c [|d r]]]]; try discriminate. now exists a, b, c.
Qed.



(** ** Smallest and largest coordinate *)

Lemma np_min_ok (l : list Q) :
  l <> [] -> np_min l = inr (fold_left Qmin (tl l) (hd 0 l)).
Proof.
  destruct l; [congruence | reflexivity].
Qed.

Lemma np_max_ok (l : list Q) :
  l <> [] -> np_max l = inr (fold_left Qmax (tl l) (hd 0 l)).
Proof.
  destruct l; [congruence | reflexivity].
Qed.


(** ** restrict_model_to_receiver_grid *)

(** Two axes: the rows [index_lo .. index_hi] of the model, as far as the
    slice reaches. *)
Lemma restrict_2d (sx gx : list Q) (m : ndarray Q) (n0 nz : Z)
  (d0 d1 o0 oz : Q) (sy gy : option (list Q)) (yb : option (Q * Q)) (buf : Q) :
  Np.shape m = [n0; nz] -> sx <> [] -> gx <> [] -> ~ d0 == 0 ->
  scan_y sy gy = inr yb ->
  let a := index_lo o0 d0 sx gx buf in
  let b := index_hi o0 n0 d0 sx gx buf in
  restrict_model_to_receiver_grid sx gx m [d0; d1] [o0; oz] sy gy buf
  = inr (NDArray [snd (slice_range n0 a (b + 1)); nz]
           (fun idx => item m (upd 0 (Z.add (fst (slice_range n0 a (b + 1)))) idx)),
         [snd (slice_range n0 a (b + 1)); nz],
         [inject_Z a * d0; oz]).
Proof.
  intros Hm Hsx Hgx Hd Hy a b.
  unfold restrict_model_to_receiver_grid. rewrite Hm.
  change (len [n0; nz] =? 2)%Z with true.
  change (len [n0; nz] =? 3)%Z with false.
  py_step.
  rewrite (np_min_ok _ Hsx), (np_min_ok _ Hgx). py_step.
  rewrite (np_max_ok _ Hsx), (np_max_ok _ Hgx). py_step.
  rewrite Hy. py_step.
  rewrite !(np_int_quot_ok _ _ Hd). py_step.
  unfold getslice. rewrite Hm. cbn [nth_error].
  fold (lowest sx gx). fold (highest sx gx).
  fold (aperture_lo o0 sx gx buf). fold (aperture_hi o0 n0 d0 sx gx buf).
  fold (index_lo o0 d0 sx gx buf). fold (index_hi o0 n0 d0 sx gx buf).
  fold a. fold b.
  destruct (slice_range n0 a (b + 1)) as [lo k]. reflexivity.
Qed.

(** Three axes: the same along x and along y. *)
Lemma restrict_3d (sx gx sy gy : list Q) (m : ndarray Q) (n0 n1 nz : Z)
  (d0 d1 d2 o0 o1 oz : Q) (buf : Q) :
  Np.shape m = [n0; n1; nz] ->
  sx <> [] -> gx <> [] -> sy <> [] -> gy <> [] ->
  ~ d0 == 0 -> ~ d1 == 0 ->
  let ax := index_lo o0 d0 sx gx buf in
  let bx := index_hi o0 n0 d0 sx gx buf in
  let ay := index_lo o1 d1 sy gy buf in
  let bY := index_hi o1 n1 d1 sy gy buf in
  let rx := slice_range n0 ax (bx + 1) in
  let ry := slice_range n1 ay (bY + 1) in
  restrict_model_to_receiver_grid sx gx m [d0; d1; d2] [o0; o1; oz]
    (Some sy) (Some gy) buf
  = inr (NDArray [snd rx; snd ry; nz]
           (fun idx => item m (upd 0 (Z.add (fst rx))
                                 (upd 1 (Z.add (fst ry)) idx))),
         [snd rx; snd ry; nz],
         [inject_Z ax * d0; inject_Z ay * d1; oz]).
Proof.
  intros Hm Hsx Hgx Hsy Hgy Hd0 Hd1 ax bx ay bY rx ry.
  unfold restrict_model_to_receiver_grid. rewrite Hm.
  change (len [n0; n1; nz] =? 2)%Z with false.
  change (len [n0; n1; nz] =? 3)%Z with true.
  py_step.
  rewrite (np_min_ok _ Hsx), (np_min_ok _ Hgx). py_step.
  rewrite (np_max_ok _ Hsx), (np_max_ok _ Hgx). py_step.
  unfold scan_y.
  rewrite (np_min_ok _ Hsy), (np_min_ok _ Hgy). py_step.
  rewrite (np_max_ok _ Hsy), (np_max_ok _ Hgy). py_step.
  cbn [lookup_var]. py_step.
  rewrite !(np_int_quot_ok _ _ Hd0). py_step.
  cbn [lookup_var]. py_step.
  rewrite !(np_int_quot_ok _ _ Hd1). py_step.
  cbn [lookup_var]. py_step.
  unfold getslice at 1. rewrite Hm. cbn [nth_error].
  fold (lowest sx gx). fold (highest sx gx).
  fold (lowest sy gy). fold (highest sy gy).
  fold (aperture_lo o0 sx gx buf). fold (aperture_hi o0 n0 d0 sx gx buf).
  fold (aperture_lo o1 sy gy buf). fold (aperture_hi o1 n1 d1 sy gy buf).
  fold (index_lo o0 d0 sx gx buf). fold (index_hi o0 n0 d0 sx gx buf).
  fold (index_lo o1 d1 sy gy buf). fold (index_hi o1 n1 d1 sy gy buf).
  fold ax. fold bx. fold ay. fold bY. fold rx.
  destruct rx as [lox kx]. py_step.
  unfold getslice. cbn [Np.shape upd nth_error]. fold ry.
  destruct ry as [loy ky]. reflexivity.
Qed.

(** ** The y coordinates *)


Lemma scan_y_ok (ndim : nat) (sx gx : list Q) (sy gy : option (list Q)) :
  coords_given ndim sx gx sy gy -> exists yb, scan_y sy gy = inr yb.
Proof.
  intros (_ & _ & H). unfold scan_y.
  destruct sy as [a|], gy as [b|]; try (eexists; reflexivity).
  destruct H as [Ha Hb].
  rewrite (np_min_ok _ Ha), (np_min_ok _ Hb), (np_max_ok _ Ha),
    (np_max_ok _ Hb).
  eexists. reflexivity.
Qed.


End Aperture.

(* ################################################################## *)
(** * Properties of CloudExtras.py *)

Module CloudClaims.

Import CloudExtras Props PyFacts Aperture.

Local Open Scope Q_scope.

(** C10 as stated fails for a model whose elements are not 32-bit floats:
    [model_put] writes the eight bytes of each element of a 2 x 2 array of
    64-bit floats and tags them ['float32'], so that [model_get] reads eight
    numbers where the shape asks for four, and raises. *)
Lemma tag_encoding_float64_counterexample :
  ~ exists st' m',
      model_put str_float_integral (fun _ _ => None)
        (TArray Float64 (ones2 2 2)) [0; 0] [10; 10] "bucket" "model"
      = inr st'
      /\ model_get float_of_str_integral dtype_of_name zero_fill st'
           "bucket" "model"
         = inr (m', [0; 0], [10; 10]).
Proof.
  intros (st' & m' & Eput & Eget).
  vm_compute in Eput. injection Eput as <-.
  vm_compute in Eget. discriminate Eget.
Qed.

(** C10 (amended).  The 'S'-separated tag encoding is invertible: for a
    tuple of 2 or 3 integers, [convert_int_from_string (convert_to_string t)]
    is [t]; for a tuple of 2 or 3 floats whose decimal representations
    round-trip, [convert_float_from_string (convert_to_string t)] is [t];
    and for a model of 32-bit floats, the element type that [model_put]
    tags, [model_get] after [model_put] returns an array of 32-bit floats of
    the shape that was stored, with the origin and the spacing that were
    stored. *)
Theorem tag_encoding_roundtrip :
  (forall t : list Z,
     is_tuple23 t ->
     exists s, convert_to_string str_int t = inr s
               /\ convert_int_from_string s = inr t)
  /\ (forall (str_float : Q -> string) (float_of_str : string -> py Q)
        (t : list Q),
        is_tuple23 t ->
        (forall x, In x t -> repr_roundtrips str_float float_of_str x) ->
        exists s, convert_to_string str_float t = inr s
                  /\ convert_float_from_string float_of_str s = inr t)
  /\ (forall (str_float : Q -> string) (float_of_str : string -> py Q)
        (np_dtype : string -> option eltype)
        (reinterpret : eltype -> eltype -> list Q -> list Q)
        (st : s3) (model : tarray) (origin spacing : list Q)
        (bucket key : string),
        np_dtype "float32"%string = Some Float32 ->
        dtype model = Float32 ->
        is_tuple23 (Np.shape (elems model)) ->
        Forall (fun n => (0 <= n)%Z) (Np.shape (elems model)) ->
        is_tuple23 origin -> is_tuple23 spacing ->
        (forall x, In x origin \/ In x spacing ->
                   repr_roundtrips str_float float_of_str x) ->
        exists st' m',
          model_put str_float st model origin spacing bucket key = inr st'
          /\ model_get float_of_str np_dtype reinterpret st' bucket key
             = inr (m', origin, spacing)
          /\ dtype m' = Float32
          /\ Np.shape (elems m') = Np.shape (elems model)).
Proof.
  split; [|split].
  - exact TagEncoding.convert_int_roundtrip.
  - exact TagEncoding.convert_float_roundtrip.
  - exact TagEncoding.model_get_put.
Qed.

(** The geometry of a 101 x 101 model of 32-bit floats with origin (0, 0)
    and spacing (10, 10) survives [model_put] and [model_get]. *)
Lemma tag_encoding_roundtrip_witness :
  exists st' m',
    model_put str_float_integral (fun _ _ => None)
      (TArray Float32 (ones2 101 101)) [0; 0] [10; 10] "bucket" "model"
    = inr st'
    /\ model_get float_of_str_integral dtype_of_name zero_fill st'
         "bucket" "model"
       = inr (m', [0; 0], [10; 10])
    /\ dtype m' = Float32
    /\ Np.shape (elems m') = [101; 101]%Z.
Proof.
  apply (proj2 (proj2 tag_encoding_roundtrip)
           str_float_integral float_of_str_integral dtype_of_name zero_fill
           (fun _ _ => None) (TArray Float32 (ones2 101 101)) [0; 0] [10; 10]
           "bucket"%string "model"%string).
  - reflexivity.
  - reflexivity.
  - left. reflexivity.
  - repeat constructor; discriminate.
  - left. reflexivity.
  - left. reflexivity.
  - intros x [[<-|[<-|[]]]|[<-|[<-|[]]]]; split; reflexivity.
Defined.

(** C1, at a domain whose origin is not zero.  The model has 101 rows of
    spacing 10 from x = 100; the source is at x = 300, the receivers reach
    x = 500 and the buffer is 50, so the aperture [250, 550] lies inside the
    domain.  The restriction takes rows 25..55 and reports the origin 250;
    the embedding puts them back 15 rows in, so that row 25 of the result
    holds row 35 of the model. *)
Theorem roundtrip_shifted_at_nonzero_origin :
  exists sub shape_sub origin_sub r,
    restrict_model_to_receiver_grid [300] [300; 500] (ramp2 101 2)
      [10; 10] [100; 0] None None 50 = inr (sub, shape_sub, origin_sub)
    /\ index_lo 100 10 [300] [300; 500] 50 = 25%Z
    /\ index_hi 100 101 10 [300] [300; 500] 50 = 55%Z
    /\ shape_sub = [31; 2]%Z
    /\ origin_sub = [250; 0]
    /\ extent_gradient [101; 2]%Z [100; 0] shape_sub origin_sub [10; 10] sub
       = inr r
    /\ Np.shape r = [101; 2]%Z
    /\ item r [25; 0]%Z = 35
    /\ item (ramp2 101 2) [25; 0]%Z = 25
    /\ item r [15; 0]%Z = 25.
Proof.
  do 4 eexists. repeat split; reflexivity.
Qed.

End CloudClaims.

(* ################################################################## *)
(** * CloudExtras.py: the indices that floating point gives *)

Module FloatClaims.

Import Fp CloudFloat Props.

Local Open Scope Z_scope.

(** C3, on a grid of spacing 0.1.  The model has 44 rows from x = 0, so
    that its last row is at 43 * 0.1 = 4.3; the source is at 0, a receiver
    at 4.3, and the buffer of 500 covers the whole domain.  The upper index
    is [int(4.3 / 0.1)], and the quotient of the two doubles is
    42.99999999999999: the restriction returns the rows 0..42, the last of
    them at 4.2, and the receiver is outside the sub-domain. *)
Theorem restrict_drops_receiver_row :
  exists sub shape_sub origin_sub,
    restrict_model_to_receiver_grid [of_Z 0] [of_Z 0; dec 43 10]
      (ramp2 44 2) [dec 1 10; dec 1 10] [of_Z 0; of_Z 0] None None (of_Z 500)
    = inr (sub, shape_sub, origin_sub)
    /\ imul (44 - 1) (dec 1 10) = dec 43 10
    /\ py_int (fdiv (dec 43 10) (dec 1 10)) = inr 42
    /\ shape_sub = [43; 2]
    /\ origin_sub = [of_Z 0; of_Z 0]
    /\ SFltb (imul (43 - 1) (dec 1 10)) (dec 43 10) = true
    /\ ~ covers [44; 2] [0; 0]%Q (map to_Q [dec 1 10; dec 1 10])
          [0%Q] [0%Q; to_Q (dec 43 10)] None None 500%Q
          shape_sub (map to_Q origin_sub) 0.
Proof.
  do 3 eexists. repeat split; try (vm_compute; reflexivity).
  intros [_ H]. vm_compute in H. apply H. reflexivity.
Qed.

(** C4, on a grid of spacing 0.1.  A sub-domain of three rows whose origin
    is 0.3 lies three cells into a domain whose origin is 0, and the
    rounded quotient is 3; the code takes [int((0.3 - 0.) / 0.1)], the
    quotient of the doubles is 2.9999999999999996, and the rows are placed
    at 2..4: row 2 of the result holds the sub-domain and row 5 does not. *)
Theorem extent_gradient_truncates_quotient :
  exists r,
    extent_gradient [10; 2] [of_Z 0; of_Z 0] [3; 2] [dec 3 10; of_Z 0]
      [dec 1 10; dec 1 10] (ones2 3 2) = inr r
    /\ index_offset (dec 3 10) (of_Z 0) (dec 1 10) = inr 2
    /\ round_half_even
         (to_Q (fdiv (fsub (dec 3 10) (of_Z 0)) (dec 1 10))) = 3
    /\ round_half_even (((3 # 10) - 0) / (1 # 10))%Q = 3
    /\ Np.shape r = [10; 2]
    /\ item r [2; 0] = 1%Q
    /\ item r [5; 0] = 0%Q
    /\ ~ embeds [3; 0] [3; 2] [10; 2] (ones2 3 2) r.
Proof.
  eexists. repeat split; try (vm_compute; reflexivity).
  intros (_ & Hi). specialize (Hi [2; 0] eq_refl). vm_compute in Hi.
  discriminate Hi.
Qed.

End FloatClaims.

(* ################################################################## *)
(** * The model: construction, time step *)

Module ModelFacts.

Import PyModel PyFacts ModelProps.

Local Open Scope R_scope.

(** Take the next step of a computation that is known to return. *)
Tactic Notation "next_step" hyp(H) ident(x) ident(Hx) :=
  apply bind_inr in H; destruct H as (x & Hx & H).

(** ** What a successful construction has done *)

Lemma new_Grid_inv (ext : list R) (sh : list Z) (orig : list R) (nb : Z)
  (g : Grid) :
  new_Grid ext sh orig nb = inr g -> g = MkGrid ext sh orig nb.
Proof.
  unfold new_Grid. destruct (3 <? len sh)%Z; [discriminate|].
  now intros [= <-].
Qed.

(** The velocity of a constructed model is an array: with a number the
    setter finds the float [1 / vp**2] in [m], which has no [data]
    attribute to assign. *)
Lemma vp_setter_float (fsd : Function -> R -> py Function) (x : R) (nb : Z)
  (vp : param) : exists e, vp_setter fsd (Float x) nb vp = inl e.
Proof.
  destruct vp as [v|a]; simpl.
  - destruct (inv_square v); simpl; eexists; reflexivity.
  - eexists; reflexivity.
Qed.

Lemma Model_init_inv (fsd : Function -> R -> py Function) (a : ModelArgs)
  (m : Model) :
  Model_init fsd a = inr m ->
  shape m = a_shape a /\ nbpml m = a_nbpml a /\ origin m = a_origin a
  /\ _vp m = a_vp a
  /\ grid_shape (grid m) = map (fun n => (n + 2 * a_nbpml a)%Z) (a_shape a)
  /\ grid_origin (grid m)
     = map (fun os => fst os - snd os * IZR (a_nbpml a))
         (combine (a_origin a) (a_spacing a))
  /\ mul_1d (a_spacing a)
       (map (fun n => IZR (n - 1))
            (map (fun n => (n + 2 * a_nbpml a)%Z) (a_shape a)))
     = inr (extent (grid m))
  /\ phy_nbpml (grid m) = a_nbpml a
  /\ (exists arr, a_vp a = Array arr)
  /\ match a_epsilon a with
     | None => scale m = 1
     | Some (Scalar e) => scale m = sqrt (1 + 2 * e)
     | Some (Array _) => 0 < scale m
     end.
Proof.
  unfold Model_init. intros H.
  next_step H ext Hext. next_step H g Hg.
  apply new_Grid_inv in Hg. subst g.
  next_step H m0 Hm0. next_step H rho0 Hrho.
  next_step H m1 Hm1. next_step H d0 Hd0. next_step H d1 Hd1.
  next_step H dm0 Hdm. next_step H es Hes. destruct es as [eps sc].
  next_step H de Hde. next_step H th Hth. next_step H ph Hph.
  injection H as <-. cbn.
  repeat match goal with |- _ /\ _ => split end; auto.
  - destruct (a_vp a) as [v|arr]; [|now exists arr].
    next_step Hm0 x Hx. injection Hm0 as <-.
    destruct (vp_setter_float fsd x (a_nbpml a) (Scalar v)) as [e He].
    rewrite He in Hm1. discriminate Hm1.
  - destruct (a_epsilon a) as [[e|e]|].
    + now injection Hes as _ <-.
    + next_step Hes f0 Hf0. next_step Hes f1 Hf1. next_step Hes mx Hmx.
      injection Hes as _ <-.
      destruct (Rlt_dec 0 mx); [now apply sqrt_lt_R0 | lra].
    + now injection Hes as _ <-.
Qed.

(** ** When the numpy and devito steps succeed *)

Lemma combine_repeat (A B C : Type) (f : A * B -> C) (l : list A) (p : B)
  (n : nat) :
  List.length l = n ->
  map f (combine l (repeat p n)) = map (fun x => f (x, p)) l.
Proof.
  revert n. induction l as [|x r IH]; intros n Hn; subst n; simpl; auto.
  f_equal. now apply IH.
Qed.

Lemma pad_widths_same (A : Type) (pads : list A) (n : nat) :
  List.length pads = n ->
  match pads with
  | [q] => repeat q n
  | _ => pads
  end = pads.
Proof.
  destruct pads as [|q [|q' r]]; intros <-; reflexivity.
Qed.

Lemma existsb_false (A : Type) (f : A -> bool) (l : list A) :
  Forall (fun x => f x = false) l -> existsb f l = false.
Proof.
  induction 1 as [|x r Hx Hr IH]; simpl; auto. now rewrite Hx, IH.
Qed.

Lemma pad_edge_ok (A : Type) (a : ndarray A) (l r : Z) :
  (0 <= l)%Z -> (0 <= r)%Z ->
  Forall (fun n => (0 < n)%Z) (Np.shape a) ->
  exists a',
    pad_edge a (repeat (l, r) (List.length (Np.shape a))) = inr a'
    /\ Np.shape a' = map (fun n => (n + l + r)%Z) (Np.shape a).
Proof.
  intros Hl Hr Hpos. unfold pad_edge.
  rewrite (pad_widths_same _ _ _ (repeat_length _ _)).
  unfold ndim, len. rewrite repeat_length, Z.eqb_refl. cbn [negb].
  rewrite existsb_false.
  2:{ apply Forall_forall. intros p Hp. apply repeat_spec in Hp. subst p.
      cbn [fst snd].
      destruct (Z.ltb_spec l 0), (Z.ltb_spec r 0); first [lia | reflexivity]. }
  rewrite existsb_false.
  2:{ apply Forall_forall. intros [n p] Hp. apply in_combine_l in Hp.
      rewrite Forall_forall in Hpos. specialize (Hpos n Hp). cbn [fst snd].
      destruct (Z.eqb_spec n 0); [lia | reflexivity]. }
  eexists. split; [reflexivity|]. cbn [Np.shape].
  now rewrite (combine_repeat _ _ _ _ _ _ _ eq_refl).
Qed.

Lemma broadcast_ok_refl (sh : list Z) : broadcast_ok sh sh = true.
Proof.
  unfold broadcast_ok. rewrite Z.leb_refl. cbn [andb].
  induction (List.rev sh) as [|x r IH]; simpl; auto.
  now rewrite Z.eqb_refl, IH.
Qed.

Lemma assign_all_ok (A : Type) (target source : ndarray A) :
  Np.shape source = Np.shape target ->
  exists a', assign_all target source = inr a'
             /\ Np.shape a' = Np.shape target.
Proof.
  intros H. unfold assign_all. rewrite H, broadcast_ok_refl.
  eexists. split; reflexivity.
Qed.

Lemma new_Function_ok (g : Grid) (so : Z) :
  Forall (fun n => (0 <= n + 2 * so)%Z) (grid_shape g) ->
  exists f, new_Function g so = inr f
            /\ fgrid f = g /\ space_order f = so
            /\ Np.shape (data_with_halo f)
               = map (fun n => (n + 2 * so)%Z) (grid_shape g).
Proof.
  intros H. unfold new_Function.
  rewrite Aperture.full_ok by (now apply Forall_map).
  eexists. split; [reflexivity|]. repeat split.
Qed.

(** [initialize_function] pads an array of the interior shape up to the
    shape of the function with its halo. *)
Lemma initialize_function_ok (f : Function) (data : ndarray R) (nb : Z) :
  (0 <= nb)%Z -> (0 <= space_order f)%Z ->
  Forall (fun n => (0 < n)%Z) (Np.shape data) ->
  List.length (Np.shape data) = List.length (grid_shape (fgrid f)) ->
  Np.shape (data_with_halo f)
  = map (fun n => (n + (nb + space_order f) + (nb + space_order f))%Z)
      (Np.shape data) ->
  exists f', initialize_function f data nb = inr f'
             /\ fgrid f' = fgrid f /\ space_order f' = space_order f
             /\ Np.shape (data_with_halo f') = Np.shape (data_with_halo f).
Proof.
  intros Hnb Hso Hpos Hlen Hsh. unfold initialize_function, size_halo.
  rewrite map_repeat. cbn [fst snd]. rewrite <- Hlen.
  destruct (pad_edge_ok _ data (nb + space_order f) (nb + space_order f))
    as (d & Hd & Hds); try lia; auto.
  rewrite Hd. py_step.
  destruct (assign_all_ok _ (data_with_halo f) d) as (d' & Hd' & Hds');
    [now rewrite Hds, Hsh|].
  rewrite Hd'. py_step. eexists. split; [reflexivity|]. repeat split.
  exact Hds'.
Qed.

Lemma getitem_nat (A : Type) (l : list A) (k : nat) :
  (k < List.length l)%nat ->
  exists x, getitem l (Z.of_nat k) = inr x /\ nth_error l k = Some x.
Proof.
  intros Hk. unfold getitem.
  assert (E0 : (Z.of_nat k <? 0)%Z = false) by (apply Z.ltb_ge; lia).
  rewrite E0. cbv zeta. rewrite E0, Nat2Z.id.
  destruct (nth_error l k) as [x|] eqn:E.
  - exists x. split; reflexivity.
  - apply nth_error_None in E. lia.
Qed.

Lemma iadd_slice_ok (axis : nat) (start stop : Z) (c : R) (a : ndarray R) :
  (axis < List.length (Np.shape a))%nat ->
  exists a', iadd_slice axis start stop c a = inr a'
             /\ Np.shape a' = Np.shape a.
Proof.
  intros Hk. unfold iadd_slice.
  destruct (nth_error (Np.shape a) axis) as [n|] eqn:E.
  - destruct (slice_range n start stop) as [lo k].
    eexists. split; reflexivity.
  - apply nth_error_None in E. lia.
Qed.

Lemma damp_step_ok (nb : Z) (spacing : list R) (mask : bool) (k : nat)
  (j : Z) (data : ndarray R) :
  (k < List.length spacing)%nat -> (k < List.length (Np.shape data))%nat ->
  exists d', damp_step nb spacing mask (Z.of_nat k) j data = inr d'
             /\ Np.shape d' = Np.shape data.
Proof.
  intros Hs Hd. unfold damp_step.
  destruct (getitem_nat _ spacing k Hs) as (s & Es & _). rewrite Es. py_step.
  rewrite Nat2Z.id.
  destruct (iadd_slice_ok k j (j + 1) (damp_val nb j mask / s) data Hd)
    as (d1 & E1 & S1).
  rewrite E1. py_step.
  assert (Hd1 : (k < List.length (Np.shape d1))%nat) by now rewrite S1.
  destruct (getitem_nat _ (Np.shape d1) k Hd1) as (n & En & _).
  rewrite En. py_step.
  destruct (iadd_slice_ok k (n - j) (n - j + 1) (damp_val nb j mask / s) d1
              Hd1) as (d2 & E2 & S2).
  rewrite E2. exists d2. split; [reflexivity | congruence].
Qed.

(** A loop whose body succeeds and keeps an invariant. *)
Lemma fold_left_py (A B : Type) (P : A -> Prop) (Q : B -> Prop)
  (g : py A -> B -> py A) (l : list B) :
  (forall a b, P a -> Q b -> exists a', g (inr a) b = inr a' /\ P a') ->
  Forall Q l ->
  forall a, P a -> exists a', fold_left g l (inr a) = inr a' /\ P a'.
Proof.
  intros Hg. induction 1 as [|b r Hb Hr IH]; intros a Ha; simpl.
  - now exists a.
  - destruct (Hg a b Ha Hb) as (a1 & E1 & P1). rewrite E1. now apply IH.
Qed.

Lemma range_spec (n : Z) (i : Z) :
  In i (range n) -> exists k, i = Z.of_nat k /\ (k < Z.to_nat n)%nat.
Proof.
  unfold range. intros H. apply in_map_iff in H.
  destruct H as (k & <- & Hk). apply in_seq in Hk. exists k. split; [auto|lia].
Qed.

Lemma damp_loops_ok (nd nb : Z) (spacing : list R) (mask : bool)
  (data : ndarray R) :
  (Z.to_nat nd <= List.length spacing)%nat ->
  (Z.to_nat nd <= List.length (Np.shape data))%nat ->
  exists d', damp_loops nd nb spacing mask data = inr d'
             /\ Np.shape d' = Np.shape data.
Proof.
  intros Hs Hd. unfold damp_loops.
  apply (fold_left_py _ _ (fun d => Np.shape d = Np.shape data)
           (fun i => exists k, i = Z.of_nat k /\ (k < Z.to_nat nd)%nat));
    [| apply Forall_forall; intros i; apply range_spec | reflexivity].
  intros a i Ha (k & -> & Hk).
  apply (fold_left_py _ _ (fun d => Np.shape d = Np.shape data)
           (fun _ => True)); [| apply Forall_forall; auto | exact Ha].
  intros a0 j Ha0 _. py_step.
  destruct (damp_step_ok nb spacing mask k j a0) as (d' & E & S);
    [lia | rewrite Ha0; lia |].
  exists d'. split; [exact E | congruence].
Qed.

Lemma map_const_range (A : Type) (x : A) (n : nat) :
  map (fun _ => x) (range (Z.of_nat n)) = repeat x n.
Proof.
  unfold range. rewrite Nat2Z.id, map_map.
  generalize 0%nat. induction n as [|n IH]; intros s; simpl; auto.
  now rewrite IH.
Qed.

Lemma offsets_agree (p : Z * Z) (n : nat) :
  forallb (fun i => match repeat p n with
                    | [] => true
                    | o :: _ => (fst o =? fst i)%Z && (snd o =? snd i)%Z
                    end) (repeat p n) = true.
Proof.
  apply forallb_forall. intros i Hi. apply repeat_spec in Hi. subst i.
  destruct n; simpl; auto. now rewrite !Z.eqb_refl.
Qed.

Lemma damp_data_ok (damp : Function) (nb : Z) (spacing : list R)
  (mask : bool) :
  (0 <= nb)%Z ->
  Forall (fun n => (0 < n - 2 * phy_nbpml (fgrid damp))%Z)
    (grid_shape (fgrid damp)) ->
  List.length spacing = List.length (grid_shape (fgrid damp)) ->
  exists d,
    damp_data damp nb spacing mask = inr d
    /\ Np.shape d
       = map (fun n => (n - 2 * phy_nbpml (fgrid damp) + nb + nb)%Z)
           (grid_shape (fgrid damp)).
Proof.
  intros Hnb Hpos Hsp. unfold damp_data, phydomain_shape, fndim, len.
  rewrite Aperture.full_ok.
  2:{ apply Forall_map. revert Hpos. apply Forall_impl. intros; lia. }
  py_step. rewrite map_const_range.
  set (d0 := NDArray _ _).
  destruct (pad_edge_ok _ d0 nb nb Hnb Hnb) as (d1 & E1 & S1).
  { unfold d0. cbn [Np.shape]. now apply Forall_map. }
  unfold d0 in E1 at 2. cbn [Np.shape] in E1. rewrite length_map in E1.
  rewrite E1. py_step.
  unfold offset_domain, size_halo. rewrite offsets_agree. cbn [negb].
  unfold d0 in S1. cbn [Np.shape] in S1. rewrite map_map in S1.
  destruct (damp_loops_ok (Z.of_nat (List.length (grid_shape (fgrid damp))))
              nb spacing mask d1) as (d2 & E2 & S2).
  - rewrite Nat2Z.id. lia.
  - rewrite Nat2Z.id, S1, length_map. lia.
  - exists d2. split; [exact E2 | congruence].
Qed.

Lemma initialize_damp_ok (damp : Function) (nb : Z) (spacing : list R)
  (mask : bool) :
  (0 <= nb)%Z -> (0 <= space_order damp)%Z ->
  phy_nbpml (fgrid damp) = nb ->
  Forall (fun n => (0 < n - 2 * nb)%Z) (grid_shape (fgrid damp)) ->
  List.length spacing = List.length (grid_shape (fgrid damp)) ->
  Np.shape (data_with_halo damp)
  = map (fun n => (n + 2 * space_order damp)%Z) (grid_shape (fgrid damp)) ->
  exists f', initialize_damp damp nb spacing mask = inr f'.
Proof.
  intros Hnb Hso Hphy Hpos Hsp Hsh. unfold initialize_damp.
  destruct (damp_data_ok damp nb spacing mask Hnb) as (d & E & S);
    [now rewrite Hphy | exact Hsp |].
  rewrite E. py_step. rewrite Hphy in S.
  destruct (initialize_function_ok damp d 0) as (f' & E' & _);
    try lia.
  - rewrite S. apply Forall_map. revert Hpos. apply Forall_impl. intros; lia.
  - now rewrite S, length_map.
  - rewrite Hsh, S, map_map. apply map_ext. intros; lia.
  - now exists f'.
Qed.

Lemma mul_1d_ok (a b : list R) :
  List.length a = List.length b ->
  exists ext, mul_1d a b = inr ext /\ List.length ext = List.length b.
Proof.
  intros H. unfold mul_1d.
  destruct a as [|x [|x' a']].
  - destruct b; [|discriminate]. simpl. now exists [].
  - eexists. split; [reflexivity|]. now rewrite length_map.
  - destruct b as [|y [|y' b']]; try discriminate.
    unfold len. rewrite H, Z.eqb_refl. eexists. split; [reflexivity|].
    rewrite length_map, length_combine, H. apply Nat.min_id.
Qed.

Lemma init_param_not_array (g : Grid) (so nb : Z) (f : R -> R) (dflt : R)
  (p : option param) :
  not_array p ->
  exists x,
    match p with
    | Some q => init_param g so nb f q
    | None => ret (Float dflt)
    end = inr x.
Proof.
  destruct p as [[x|a]|]; simpl; intros H; try contradiction;
    eexists; reflexivity.
Qed.

(** Construction succeeds on valid arguments. *)
Lemma Model_init_ok (fsd : Function -> R -> py Function) (a : ModelArgs) :
  valid_args a -> exists m, Model_init fsd a = inr m.
Proof.
  intros ((arr & Hvp & Harr) & (r & Hrho) & Hdm & Heps & Hdel & Hth & Hph
          & Hpos & Hlen3 & Hsp & Hnb & Hso).
  unfold Model_init.
  destruct (mul_1d_ok (a_spacing a)
              (map (fun n => IZR (n - 1))
                 (map (fun n => (n + 2 * a_nbpml a)%Z) (a_shape a))))
    as (ext & Eext & Lext); [now rewrite !length_map|].
  rewrite !length_map in Lext.
  rewrite Eext. py_step.
  unfold new_Grid, len. rewrite length_map.
  destruct (Z.ltb_spec 3 (Z.of_nat (List.length (a_shape a)))); [lia|].
  py_step. set (g := MkGrid _ _ _ _).
  assert (Hgs : grid_shape g
                = map (fun n => (n + 2 * a_nbpml a)%Z) (a_shape a))
    by reflexivity.
  rewrite Hvp.
  destruct (new_Function_ok g (a_space_order a)) as (f & Ef & Fg & Fso & Fsh).
  { rewrite Hgs. apply Forall_map. revert Hpos. apply Forall_impl.
    intros; lia. }
  rewrite Ef. py_step. rewrite Hrho. cbn [init_param]. py_step.
  cbn [vp_setter].
  destruct (initialize_function_ok f (map_nd (fun v => 1 / (v * v)) arr)
              (a_nbpml a)) as (f1 & Ef1 & _).
  { exact Hnb. } { now rewrite Fso. }
  { cbn [map_nd Np.shape]. now rewrite Harr. }
  { cbn [map_nd Np.shape]. now rewrite Harr, Fg, Hgs, length_map. }
  { cbn [map_nd Np.shape]. rewrite Fsh, Fso, Harr, Hgs, map_map.
    apply map_ext. intros; lia. }
  rewrite Ef1. py_step.
  destruct (new_Function_ok g 1) as (d & Ed & Dg & Dso & Dsh).
  { rewrite Hgs. apply Forall_map. revert Hpos. apply Forall_impl.
    intros; lia. }
  rewrite Ed. py_step.
  destruct (initialize_damp_ok d (a_nbpml a) (grid_spacing g) true)
    as (d1 & Ed1).
  { exact Hnb. } { rewrite Dso. lia. } { now rewrite Dg. }
  { rewrite Dg, Hgs. apply Forall_map. revert Hpos. apply Forall_impl.
    intros; lia. }
  { rewrite Dg. unfold grid_spacing. rewrite length_map, length_combine.
    cbn [extent grid_shape g]. rewrite Lext, length_map. apply Nat.min_id. }
  { now rewrite Dsh, Dso, Dg. }
  rewrite Ed1. py_step. rewrite Hdm. py_step.
  destruct (init_param_not_array g (a_space_order a) (a_nbpml a)
              (fun x => sqrt (1 + 2 * x)) 1 _ Hdel) as (de & Ede).
  destruct (init_param_not_array g (a_space_order a) (a_nbpml a)
              (fun x => x) 0 _ Hth) as (th & Eth).
  destruct (init_param_not_array g (a_space_order a) (a_nbpml a)
              (fun x => x) 0 _ Hph) as (ph & Eph).
  destruct (a_epsilon a) as [[e|e]|]; try contradiction; py_step;
    rewrite Ede; py_step; rewrite Eth; py_step; rewrite Eph; py_step;
    eexists; reflexivity.
Qed.

Lemma mul_1d_length (a b ext : list R) :
  mul_1d a b = inr ext -> (2 <= List.length b)%nat ->
  List.length ext = List.length b.
Proof.
  unfold mul_1d. intros H Hb.
  destruct a as [|x [|x' a']].
  - destruct b as [|y [|y' b']]; simpl in Hb; try lia.
    unfold len in H. simpl in H. discriminate H.
  - injection H as <-. now rewrite length_map.
  - destruct b as [|y [|y' b']]; simpl in Hb; try lia.
    destruct (len (x :: x' :: a') =? len (y :: y' :: b'))%Z eqn:E;
      [|discriminate H].
    injection H as <-. apply Z.eqb_eq in E. unfold len in E.
    apply Nat2Z.inj in E. simpl in *.
    rewrite length_map, length_combine. lia.
Qed.

Lemma spacing_length (fsd : Function -> R -> py Function) (a : ModelArgs)
  (m : Model) :
  Model_init fsd a = inr m -> (2 <= List.length (shape m))%nat ->
  List.length (spacing m) = List.length (shape m).
Proof.
  intros H H2.
  destruct (Model_init_inv fsd a m H)
    as (Hs & _ & _ & _ & Hgs & _ & Hext & _).
  unfold spacing, grid_spacing.
  rewrite length_map, length_combine, Hgs, length_map.
  rewrite (mul_1d_length _ _ _ Hext) by (rewrite !length_map; congruence).
  rewrite !length_map, Hs. apply Nat.min_id.
Qed.

(** ** The slowness of a constructed model and the velocity setter *)

Lemma initialize_function_inv (f f' : Function) (data : ndarray R) (nb : Z) :
  initialize_function f data nb = inr f' ->
  fgrid f' = fgrid f /\ space_order f' = space_order f
  /\ Np.shape (data_with_halo f') = Np.shape (data_with_halo f).
Proof.
  unfold initialize_function. intros H.
  next_step H d Hd. next_step H d' Hd'. injection H as <-.
  unfold assign_all in Hd'.
  destruct (broadcast_ok _ _); [|discriminate Hd'].
  injection Hd' as <-. repeat split.
Qed.

(** The slowness of a constructed model is a [Function] on the extended
    grid. *)
Lemma Model_init_m (fsd : Function -> R -> py Function) (a : ModelArgs)
  (m : Model) :
  Model_init fsd a = inr m ->
  exists f,
    PyModel.m m = Fun f
    /\ space_order f = a_space_order a
    /\ grid_shape (fgrid f)
       = map (fun n => (n + 2 * a_nbpml a)%Z) (a_shape a)
    /\ Np.shape (data_with_halo f)
       = map (fun n => (n + 2 * a_space_order a)%Z)
           (map (fun n => (n + 2 * a_nbpml a)%Z) (a_shape a)).
Proof.
  intros H.
  destruct (Model_init_inv fsd a m H)
    as (_ & _ & _ & _ & _ & _ & _ & _ & (arr & Harr) & _).
  unfold Model_init in H. rewrite Harr in H.
  next_step H ext Hext. next_step H g Hg.
  apply new_Grid_inv in Hg. subst g.
  next_step H m0 Hm0. next_step H rho0 Hrho.
  next_step H m1 Hm1. next_step H d0 Hd0. next_step H d1 Hd1.
  next_step H dm0 Hdm. next_step H es Hes. destruct es as [eps sc].
  next_step H de Hde. next_step H th Hth. next_step H ph Hph.
  injection H as <-. cbn [PyModel.m].
  next_step Hm0 f0 Hf0. injection Hm0 as <-.
  cbn [vp_setter] in Hm1. next_step Hm1 f1 Hf1. injection Hm1 as <-.
  destruct (initialize_function_inv _ _ _ _ Hf1) as (Hg1 & Hs1 & Hsh1).
  unfold new_Function in Hf0. next_step Hf0 d Hd. injection Hf0 as <-.
  unfold full in Hd. destruct (forallb _ _); [|discriminate Hd].
  injection Hd as <-. cbn in Hg1, Hs1, Hsh1.
  exists f1. repeat split; auto. now rewrite Hg1.
Qed.

(** Assigning a velocity array of the interior shape to a constructed
    model goes through and leaves the slowness a [Function]. *)
Lemma set_vp_array_ok (fsd : Function -> R -> py Function) (a : ModelArgs)
  (m : Model) (arr : ndarray R) :
  Model_init fsd a = inr m ->
  Np.shape arr = a_shape a ->
  Forall (fun n => (0 < n)%Z) (a_shape a) ->
  (0 <= a_nbpml a)%Z -> (0 <= a_space_order a)%Z ->
  exists m' f',
    set_vp fsd m (Array arr) = inr m'
    /\ vp m' = Array arr /\ PyModel.m m' = Fun f'
    /\ grid m' = grid m.
Proof.
  intros H Harr Hpos Hnb Hso.
  destruct (Model_init_inv fsd a m H) as (_ & Hn & _).
  destruct (Model_init_m fsd a m H) as (f & Hf & Fso & Fg & Fsh).
  unfold set_vp. rewrite Hf, Hn. cbn [vp_setter].
  destruct (initialize_function_ok f (map_nd (fun v => 1 / (v * v)) arr)
              (a_nbpml a)) as (f1 & Ef1 & _).
  { exact Hnb. } { now rewrite Fso. }
  { cbn [map_nd Np.shape]. now rewrite Harr. }
  { cbn [map_nd Np.shape]. now rewrite Harr, Fg, length_map. }
  { cbn [map_nd Np.shape]. rewrite Fsh, Fso, Harr, map_map.
    apply map_ext. intros; lia. }
  rewrite Ef1. py_step. do 2 eexists. repeat split.
Qed.

(** The scale of a constructed model is positive unless a scalar epsilon
    is -1/2 or less. *)
Lemma scale_positive (fsd : Function -> R -> py Function) (a : ModelArgs)
  (m : Model) :
  Model_init fsd a = inr m ->
  (forall e, a_epsilon a = Some (Scalar e) -> 0 < 1 + 2 * e) ->
  0 < scale m.
Proof.
  intros H He.
  destruct (Model_init_inv fsd a m H)
    as (_ & _ & _ & _ & _ & _ & _ & _ & _ & Hsc).
  destruct (a_epsilon a) as [[e|e]|].
  - rewrite Hsc. apply sqrt_lt_R0. now apply He.
  - exact Hsc.
  - rewrite Hsc. lra.
Qed.

End ModelFacts.

(* ################################################################## *)
(** * Properties of PyModel.py: the model *)

Module ModelClaims.

Import PyModel PyFacts ModelProps ModelFacts.
Import Props.

Local Open Scope R_scope.

Lemma nth_error_combine (A B : Type) (l1 : list A) (l2 : list B) (i : nat)
  (x : A) (y : B) :
  nth_error l1 i = Some x -> nth_error l2 i = Some y ->
  nth_error (combine l1 l2) i = Some (x, y).
Proof.
  revert l2 i. induction l1 as [|a r IH]; intros [|b r2] [|i]; simpl;
    try discriminate.
  - now intros [= ->] [= ->].
  - apply IH.
Qed.

Lemma example_args_valid : valid_args example_args.
Proof.
  unfold valid_args, example_args, args. cbn.
  repeat split; try lia; try (repeat constructor; lia).
  - eexists. split; reflexivity.
  - now exists 1.
Qed.

(** C5.  For every construction that succeeds, the extended grid has, on
    each axis, the interior number of points plus [2 * nbpml], and its
    origin is the given origin minus [nbpml * spacing]; the interior shape
    (101, 101) with 10 boundary points gives the extended shape
    (121, 121). *)
Theorem extended_grid_geometry
  (fsd : Function -> R -> py Function) (a : ModelArgs) (m : Model) :
  Model_init fsd a = inr m ->
  shape_domain m = map (fun n => (n + 2 * a_nbpml a)%Z) (a_shape a)
  /\ (forall i n, nth_error (a_shape a) i = Some n ->
        nth_error (shape_domain m) i = Some (n + 2 * a_nbpml a)%Z)
  /\ (forall i o s, nth_error (a_origin a) i = Some o ->
        nth_error (a_spacing a) i = Some s ->
        nth_error (grid_origin (grid m)) i = Some (o - s * IZR (a_nbpml a)))
  /\ (a_shape a = [101; 101]%Z -> a_nbpml a = 10%Z ->
      shape_domain m = [121; 121]%Z).
Proof.
  intros H.
  destruct (Model_init_inv fsd a m H) as (_ & _ & _ & _ & Hgs & Hgo & _).
  unfold shape_domain. repeat split.
  - exact Hgs.
  - intros i n Hn. rewrite Hgs, nth_error_map, Hn. reflexivity.
  - intros i o s Ho Hs.
    rewrite Hgo, nth_error_map, (nth_error_combine _ _ _ _ _ _ _ Ho Hs).
    reflexivity.
  - intros Hsh Hnb. rewrite Hgs, Hsh, Hnb. reflexivity.
Qed.

(** The 101 x 101 example is constructed and its grid is 121 x 121. *)
Lemma extended_grid_geometry_witness :
  exists m, Model_init read_only_data example_args = inr m
            /\ shape_domain m = [121; 121]%Z.
Proof.
  destruct (Model_init_ok read_only_data example_args example_args_valid)
    as [m Hm].
  exists m. split; [exact Hm|].
  apply (extended_grid_geometry read_only_data example_args m Hm);
    reflexivity.
Defined.

Lemma fold_Rmax_const (v : R) (l : list R) :
  Forall (fun x => x = v) l -> fold_left Rmax l v = v.
Proof.
  induction 1 as [|x r Hx Hr IH]; simpl; auto.
  subst x. unfold Rmax. destruct (Rle_dec v v); exact IH.
Qed.

(** The largest entry of a constant array. *)
Lemma amax_const (sh : list Z) (v : R) :
  Forall (fun n => (0 < n)%Z) sh -> amax (const_array sh v) = inr v.
Proof.
  intros Hpos. unfold amax, ravel, const_array. cbn [Np.shape item].
  assert (Hlen : (0 < len (indices sh))%Z).
  { rewrite TagEncoding.indices_length.
    - induction Hpos; simpl; [lia | nia].
    - revert Hpos. apply Forall_impl. intros; lia. }
  destruct (indices sh) as [|i r]; [unfold len in Hlen; simpl in Hlen; lia|].
  simpl. unfold ret. f_equal. apply fold_Rmax_const.
  apply Forall_forall. intros x Hx. apply in_map_iff in Hx.
  now destruct Hx as (_ & <- & _).
Qed.

Lemma inv_square_ok (v : R) : v <> 0 -> inv_square v = inr (1 / v ^ 2).
Proof.
  intros H. unfold inv_square.
  destruct (Req_dec_T v 0); [contradiction | reflexivity].
Qed.

(** No construction with a number for the velocity succeeds: [__init__]
    stores the float [1 / vp**2] in [m] and the setter then assigns to its
    [data] attribute. *)
Lemma constant_vp_never_constructs (fsd : Function -> R -> py Function)
  (a : ModelArgs) (v : R) :
  a_vp a = Scalar v -> exists e, Model_init fsd a = inl e.
Proof.
  intros Hv. unfold Model_init. rewrite Hv.
  destruct (mul_1d _ _) as [e|ext]; [eexists; reflexivity|]. py_step.
  destruct (new_Grid _ _ _ _) as [e|g]; [eexists; reflexivity|]. py_step.
  destruct (inv_square v) as [e|x] eqn:E; [eexists; reflexivity|]. py_step.
  destruct (init_param _ _ _ _ _) as [e|rh]; [eexists; reflexivity|]. py_step.
  cbn [vp_setter]. rewrite E. py_step. eexists. reflexivity.
Qed.

(** C6, at a constant velocity.  [Model(origin=(0., 0.), spacing=(10., 10.),
    shape=(101, 101), vp=2.0, nbpml=10)] raises [AttributeError]: the
    constructor does not return a model whose slowness is the number
    [1 / vp**2]. *)
Theorem constant_velocity_construction_raises
  (fsd : Function -> R -> py Function) :
  Model_init fsd constant_vp_args = inl AttributeError.
Proof.
  unfold Model_init, constant_vp_args, args.
  cbn [a_vp a_spacing a_shape a_nbpml a_origin a_rho a_space_order map
       mul_1d].
  change (len [10; 10] =? len [IZR (101 + 2 * 10 - 1); IZR (101 + 2 * 10 - 1)])%Z
    with true.
  py_step. unfold new_Grid.
  change (3 <? len [(101 + 2 * 10)%Z; (101 + 2 * 10)%Z])%Z with false.
  py_step. rewrite (inv_square_ok 2) by lra. py_step.
  cbn [init_param vp_setter]. py_step.
  rewrite (inv_square_ok 2) by lra. py_step. reflexivity.
Qed.

End ModelClaims.

(* ################################################################## *)
(** * The time step of PyModel.py *)

Module TimeStepClaims.

Import Fp ModelFloat TimeStepProps.

Local Open Scope Z_scope.

(** C2, on the model of the example: 101 x 101 points of spacing 10, the
    default [dtype] of 32-bit floats, [scale] 1.

    With the velocity 2 everywhere the bound is 0.42 * 10 / 2 = 2.1 and
    [floor(1000 * 2.1) / 1000] is 2.1.  The code first casts the quotient to
    a 32-bit float, which is 2.0999999046; a thousand times that truncates
    to 2099, and the time step is 2.099, not the 32-bit float of 2.1.

    With the 32-bit float of 1.6 (1.60000002384) as the largest velocity
    the bound is 2.62499996; the cast rounds it up to 2.625, the truncation
    keeps it, and the time step 2.625 is above the bound. *)
Theorem critical_dt_casts_before_truncating :
  (critical_dt Single [101; 101] [of_Z 10; of_Z 10] (of_Z 1)
     (const_vp [101; 101] (of_Z 2))
   = inr (to_f32 (dec 2099 1000))
   /\ (truncated (cfl_bound 2 10 1 2) == 21 # 10)%Q
   /\ to_f32 (dec 2099 1000) <> to_f32 (dec 21 10)
   /\ (to_Q (to_f32 (dec 2099 1000)) < 2099 # 1000)%Q)
  /\ (critical_dt Single [101; 101] [of_Z 10; of_Z 10] (of_Z 1)
        (const_vp [101; 101] (to_f32 (dec 16 10)))
      = inr (dec 2625 1000)
      /\ (to_Q (dec 2625 1000) == 2625 # 1000)%Q
      /\ (cfl_bound 2 10 1 (to_Q (to_f32 (dec 16 10)))
          < to_Q (dec 2625 1000))%Q).
Proof.
  repeat split; try (vm_compute; reflexivity).
  vm_compute. discriminate.
Qed.

End TimeStepClaims.

(* ################################################################## *)
(** * Properties of PyModel.py: the damping profile *)

Module Damping.

Import PyModel PyFacts ModelProps ModelFacts.

Local Open Scope R_scope.

(** ** The coefficient *)

Lemma ln_1000_pos : 0 < ln 1000.
Proof.
  rewrite <- ln_1. apply ln_increasing; lra.
Qed.

Lemma dampcoeff_value : dampcoeff = 1.5 * ln 1000 / 40.
Proof.
  unfold dampcoeff. replace (1.0 / 0.001) with 1000 by lra. reflexivity.
Qed.

Lemma dampcoeff_pos : 0 < dampcoeff.
Proof.
  rewrite dampcoeff_value. pose proof ln_1000_pos. lra.
Qed.

(** ** The taper [p - sin(2 pi p) / (2 pi)] *)

Lemma sin_diff_lt (x y : R) : y < x -> sin x - sin y < x - y.
Proof.
  intros Hxy. rewrite form4.
  set (h := (x - y) / 2). assert (Hh : 0 < h) by (unfold h; lra).
  replace (x - y) with (2 * h) by (unfold h; lra).
  pose proof (COS_bound ((x + y) / 2)) as [Hc1 Hc2].
  pose proof (SIN_bound h) as [Hs1 Hs2].
  pose proof (sin_lt_x h Hh) as Hlt.
  destruct (Rle_dec 0 (sin h)) as [Hs|Hs].
  - assert (cos ((x + y) / 2) * sin h <= 1 * sin h)
      by (apply Rmult_le_compat_r; assumption).
    lra.
  - assert (Hneg : sin h < 0) by lra.
    assert (H1 : 1 < h).
    { apply Rnot_le_lt. intros Hle.
      pose proof (sin_ge_0 h (Rlt_le _ _ Hh)) as Hge.
      pose proof PI2_1. assert (Hpi : h <= PI) by lra.
      specialize (Hge Hpi). lra. }
    assert (cos ((x + y) / 2) * sin h <= (-1) * sin h).
    { nra. }
    lra.
Qed.

Lemma taper_increasing (p q : R) : p < q -> taper p < taper q.
Proof.
  intros Hpq. unfold taper. pose proof PI_RGT_0 as Hpi.
  assert (H : sin (2 * PI * q) - sin (2 * PI * p) < 2 * PI * q - 2 * PI * p).
  { apply sin_diff_lt. apply Rmult_lt_compat_l; lra. }
  assert (Hd : (sin (2 * PI * q) - sin (2 * PI * p)) / (2 * PI) < q - p).
  { apply (Rmult_lt_reg_r (2 * PI)); [lra|].
    unfold Rdiv. rewrite Rmult_assoc, Rinv_l by lra. lra. }
  unfold Rdiv in *. lra.
Qed.

Lemma taper_0 : taper 0 = 0.
Proof.
  unfold taper. rewrite Rmult_0_r, sin_0. unfold Rdiv. lra.
Qed.

Lemma taper_pos (p : R) : 0 < p -> 0 < taper p.
Proof.
  intros H. rewrite <- taper_0. now apply taper_increasing.
Qed.

Lemma damp_val_taper (nbpml j : Z) (mask : bool) :
  damp_val nbpml j mask
  = if mask then - (dampcoeff * taper (damp_pos nbpml j))
    else dampcoeff * taper (damp_pos nbpml j).
Proof. reflexivity. Qed.

Lemma damp_val_abs (nbpml j : Z) (mask : bool) :
  0 < damp_pos nbpml j ->
  Rabs (damp_val nbpml j mask) = dampcoeff * taper (damp_pos nbpml j).
Proof.
  intros Hp. rewrite damp_val_taper.
  assert (H : 0 < dampcoeff * taper (damp_pos nbpml j))
    by (apply Rmult_lt_0_compat; [apply dampcoeff_pos | now apply taper_pos]).
  destruct mask.
  - rewrite Rabs_Ropp. apply Rabs_pos_eq. lra.
  - apply Rabs_pos_eq. lra.
Qed.

(** The positions of the outermost and of the innermost layer. *)
Lemma damp_pos_outer (nbpml : Z) :
  (0 < nbpml)%Z -> damp_pos nbpml 0 = 1 + 1 / IZR nbpml.
Proof.
  intros H. unfold damp_pos. apply IZR_lt in H.
  rewrite Z.sub_0_r, plus_IZR. rewrite Rabs_pos_eq.
  - field. lra.
  - apply Rlt_le, Rdiv_lt_0_compat; lra.
Qed.

Lemma damp_pos_inner (nbpml : Z) :
  (0 < nbpml)%Z -> damp_pos nbpml (nbpml - 1) = 2 / IZR nbpml.
Proof.
  intros H. unfold damp_pos. apply IZR_lt in H.
  replace (nbpml - (nbpml - 1) + 1)%Z with 2%Z by lia.
  apply Rabs_pos_eq. apply Rlt_le, Rdiv_lt_0_compat; lra.
Qed.

(** The profile grows from the innermost layer to the outermost one. *)
Lemma profile_outer_larger (nbpml : Z) (mask : bool) :
  (2 <= nbpml)%Z ->
  Rabs (damp_val nbpml (nbpml - 1) mask) < Rabs (damp_val nbpml 0 mask).
Proof.
  intros H. assert (H0 : (0 < nbpml)%Z) by lia.
  assert (Hn : 2 <= IZR nbpml) by (now apply IZR_le).
  assert (Hi : 0 < / IZR nbpml) by (apply Rinv_0_lt_compat; lra).
  rewrite !damp_val_abs.
  - apply Rmult_lt_compat_l; [apply dampcoeff_pos|].
    apply taper_increasing.
    rewrite (damp_pos_outer _ H0), (damp_pos_inner _ H0).
    apply (Rmult_lt_reg_r (IZR nbpml)); [lra|].
    unfold Rdiv. rewrite Rmult_plus_distr_r, !Rmult_assoc, Rinv_l by lra. lra.
  - rewrite (damp_pos_outer _ H0). unfold Rdiv. lra.
  - rewrite (damp_pos_inner _ H0). unfold Rdiv. lra.
Qed.

(** ** The values at two boundary points *)

Lemma taper_3_2 : taper (3 / 2) = 3 / 2.
Proof.
  unfold taper. replace (2 * PI * (3 / 2)) with (PI + 2 * INR 1 * PI)
    by (simpl; lra).
  rewrite sin_period, sin_PI. unfold Rdiv. lra.
Qed.

Lemma taper_1 : taper 1 = 1.
Proof.
  unfold taper. rewrite Rmult_1_r, sin_2PI. unfold Rdiv. lra.
Qed.

Lemma damp_val_2_0 : damp_val 2 0 false = 3 / 2 * dampcoeff.
Proof.
  rewrite damp_val_taper, damp_pos_outer by lia.
  replace (1 + 1 / 2) with (3 / 2) by lra. rewrite taper_3_2. lra.
Qed.

Lemma damp_val_2_1 : damp_val 2 1 false = dampcoeff.
Proof.
  rewrite damp_val_taper. change 1%Z with (2 - 1)%Z at 1.
  rewrite damp_pos_inner by lia.
  replace (2 / 2) with 1 by lra. rewrite taper_1. lra.
Qed.

(** ** The slices of one layer *)

(** The far-side slice of the outermost layer, [slice(n, n + 1)] on an
    axis of [n] points, selects nothing. *)
Lemma far_slice_of_layer_0 (axis : nat) (n : Z) (c : R) (a : ndarray R) :
  nth_error (Np.shape a) axis = Some n -> (0 <= n)%Z ->
  exists a',
    iadd_slice axis (n - 0) (n - 0 + 1) c a = inr a'
    /\ forall idx, (ix idx axis < n)%Z -> item a' idx = item a idx.
Proof.
  intros Hn Hn0. unfold iadd_slice. rewrite Hn.
  unfold slice_range, slice_bound.
  destruct (Z.ltb_spec (n - 0) 0), (Z.ltb_spec (n - 0 + 1) 0); try lia.
  eexists. split; [reflexivity|]. intros idx Hidx. cbn [item].
  destruct (Z.leb_spec (Z.min (n - 0) n) (ix idx axis)); [lia|reflexivity].
Qed.

(** The far-side slice of layer [j >= 1] is the row [n - j], the mirror
    image of the near-side row [j - 1]. *)
Lemma far_slice_of_layer (axis : nat) (n j : Z) (c : R) (a : ndarray R) :
  nth_error (Np.shape a) axis = Some n -> (1 <= j <= n)%Z ->
  exists a',
    iadd_slice axis (n - j) (n - j + 1) c a = inr a'
    /\ forall idx,
         item a' idx
         = if (ix idx axis =? n - 1 - (j - 1))%Z then item a idx + c
           else item a idx.
Proof.
  intros Hn Hj. unfold iadd_slice. rewrite Hn.
  unfold slice_range, slice_bound.
  destruct (Z.ltb_spec (n - j) 0), (Z.ltb_spec (n - j + 1) 0); try lia.
  eexists. split; [reflexivity|]. intros idx. cbn [item].
  destruct (Z.leb_spec (Z.min (n - j) n) (ix idx axis)),
    (Z.ltb_spec (ix idx axis)
       (Z.min (n - j) n + Z.max 0 (Z.min (n - j + 1) n - Z.min (n - j) n))),
    (Z.eqb_spec (ix idx axis) (n - 1 - (j - 1))); try lia; reflexivity.
Qed.

(** ** The interior *)

Lemma iadd_slice_item (axis : nat) (start stop : Z) (c : R) (a : ndarray R)
  (n : Z) :
  nth_error (Np.shape a) axis = Some n ->
  exists a',
    iadd_slice axis start stop c a = inr a'
    /\ Np.shape a' = Np.shape a
    /\ forall idx,
         item a' idx
         = if (fst (slice_range n start stop) <=? ix idx axis)%Z
              && (ix idx axis <? fst (slice_range n start stop)
                                 + snd (slice_range n start stop))%Z
           then item a idx + c else item a idx.
Proof.
  intros Hn. unfold iadd_slice. rewrite Hn.
  destruct (slice_range n start stop) as [lo k].
  eexists. repeat split.
Qed.

(** One layer of one axis leaves the physical domain alone. *)
Lemma damp_step_interior (nb : Z) (spacing : list R) (mask : bool)
  (k : nat) (j : Z) (data : ndarray R) :
  (k < List.length spacing)%nat -> (k < List.length (Np.shape data))%nat ->
  (0 <= j < nb)%Z ->
  exists d',
    damp_step nb spacing mask (Z.of_nat k) j data = inr d'
    /\ Np.shape d' = Np.shape data
    /\ forall idx, interior nb (Np.shape data) idx ->
         item d' idx = item data idx.
Proof.
  intros Hs Hd Hj. unfold damp_step.
  destruct (getitem_nat _ spacing k Hs) as (s & Es & _). rewrite Es. py_step.
  rewrite Nat2Z.id.
  destruct (nth_error (Np.shape data) k) as [n|] eqn:En;
    [|apply nth_error_None in En; lia].
  destruct (iadd_slice_item k j (j + 1) (damp_val nb j mask / s) data n En)
    as (d1 & E1 & S1 & I1).
  rewrite E1. py_step.
  assert (Hd1 : (k < List.length (Np.shape d1))%nat) by now rewrite S1.
  destruct (getitem_nat _ (Np.shape d1) k Hd1) as (n' & En' & En'').
  rewrite S1, En in En''. injection En'' as <-.
  rewrite En'. py_step.
  assert (En1 : nth_error (Np.shape d1) k = Some n) by now rewrite S1.
  destruct (iadd_slice_item k (n - j) (n - j + 1) (damp_val nb j mask / s)
              d1 n En1) as (d2 & E2 & S2 & I2).
  rewrite E2. exists d2. split; [reflexivity|]. split; [congruence|].
  intros idx Hin. specialize (Hin k n En).
  rewrite I2, I1. unfold slice_range, slice_bound. cbn [fst snd].
  destruct (Z.ltb_spec j 0), (Z.ltb_spec (j + 1) 0), (Z.ltb_spec (n - j) 0),
    (Z.ltb_spec (n - j + 1) 0); try lia.
  destruct (Z.leb_spec (Z.min (n - j) n) (ix idx k)); [lia|].
  cbn [andb].
  destruct (Z.leb_spec (Z.min j n) (ix idx k)); [|reflexivity].
  destruct (Z.ltb_spec (ix idx k)
              (Z.min j n + Z.max 0 (Z.min (j + 1) n - Z.min j n)));
    [lia | reflexivity].
Qed.

Lemma range_bounds (n i : Z) : In i (range n) -> (0 <= i < n)%Z.
Proof.
  intros H. destruct (range_spec n i H) as (k & -> & Hk). lia.
Qed.

Lemma damp_loops_interior (nd nb : Z) (spacing : list R) (mask : bool)
  (data : ndarray R) :
  (Z.to_nat nd <= List.length spacing)%nat ->
  (Z.to_nat nd <= List.length (Np.shape data))%nat ->
  exists d',
    damp_loops nd nb spacing mask data = inr d'
    /\ Np.shape d' = Np.shape data
    /\ forall idx, interior nb (Np.shape data) idx ->
         item d' idx = item data idx.
Proof.
  intros Hs Hd. unfold damp_loops.
  set (P := fun d : ndarray R =>
              Np.shape d = Np.shape data
              /\ forall idx, interior nb (Np.shape data) idx ->
                   item d idx = item data idx).
  apply (fold_left_py _ _ P
           (fun i => exists k, i = Z.of_nat k /\ (k < Z.to_nat nd)%nat));
    [| apply Forall_forall; intros i; apply range_spec
     | split; [reflexivity | auto]].
  intros a i Ha (k & -> & Hk).
  apply (fold_left_py _ _ P (fun j => (0 <= j < nb)%Z));
    [| apply Forall_forall; intros j; apply range_bounds | exact Ha].
  intros a0 j [Sa0 Ia0] Hj. py_step.
  destruct (damp_step_interior nb spacing mask k j a0) as (d' & E & S & I);
    [lia | rewrite Sa0; lia | exact Hj |].
  exists d'. split; [exact E|]. split; [congruence|].
  intros idx Hin. rewrite I by (now rewrite Sa0). now apply Ia0.
Qed.

Lemma pad_edge_const (A : Type) (sh : list Z) (v : A) (pads : list (Z * Z))
  (a' : ndarray A) :
  pad_edge (NDArray sh (fun _ => v)) pads = inr a' ->
  forall idx, item a' idx = v.
Proof.
  unfold pad_edge. cbn [Np.shape item].
  destruct (negb _); [discriminate|].
  destruct (existsb _ _); [discriminate|].
  destruct (existsb _ _); [discriminate|].
  intros [= <-] idx. reflexivity.
Qed.

(** The part of C8 that holds: the damping data keep the initial value,
    1 for a mask and 0 for a layer, at every point of the physical
    domain. *)
Lemma damp_data_interior (damp : Function) (nb : Z) (spacing : list R)
  (mask : bool) :
  (0 <= nb)%Z -> phy_nbpml (fgrid damp) = nb ->
  Forall (fun n => (0 < n - 2 * nb)%Z) (grid_shape (fgrid damp)) ->
  List.length spacing = List.length (grid_shape (fgrid damp)) ->
  exists d,
    damp_data damp nb spacing mask = inr d
    /\ Np.shape d = grid_shape (fgrid damp)
    /\ forall idx, interior nb (grid_shape (fgrid damp)) idx ->
         item d idx = if mask then 1 else 0.
Proof.
  intros Hnb Hphy Hpos Hsp. unfold damp_data, phydomain_shape, fndim, len.
  rewrite Hphy. rewrite Aperture.full_ok.
  2:{ apply Forall_map. revert Hpos. apply Forall_impl. intros; lia. }
  py_step. rewrite map_const_range.
  set (d0 := NDArray _ _).
  destruct (pad_edge_ok _ d0 nb nb Hnb Hnb) as (d1 & E1 & S1).
  { unfold d0. cbn [Np.shape]. now apply Forall_map. }
  unfold d0 in E1 at 2. cbn [Np.shape] in E1. rewrite length_map in E1.
  rewrite E1. py_step.
  pose proof (pad_edge_const _ _ _ _ _ E1) as I1.
  unfold offset_domain, size_halo. rewrite offsets_agree. cbn [negb].
  unfold d0 in S1. cbn [Np.shape] in S1. rewrite map_map in S1.
  assert (S1' : Np.shape d1 = grid_shape (fgrid damp)).
  { rewrite S1. rewrite <- (map_id (grid_shape (fgrid damp))) at 2.
    apply map_ext. intros; lia. }
  destruct (damp_loops_interior
              (Z.of_nat (List.length (grid_shape (fgrid damp))))
              nb spacing mask d1) as (d2 & E2 & S2 & I2).
  - rewrite Nat2Z.id. lia.
  - rewrite Nat2Z.id, S1'. lia.
  - exists d2. split; [exact E2|]. split; [congruence|].
    intros idx Hin. rewrite I2 by (now rewrite S1'). apply I1.
Qed.

End Damping.

Module DampingClaims.

Import PyModel PyFacts ModelProps Damping.

Local Open Scope R_scope.

(** C7, at 20 boundary points.  The coefficient of the layer values is
    [1.5 * ln(1000) / 40] whatever the boundary width: with [nbpml = 20] it
    is not [1.5 * ln(1000) / 20]. *)
Theorem dampcoeff_ignores_boundary_width :
  dampcoeff = 1.5 * ln 1000 / 40
  /\ (forall j : Z,
        damp_val 20 j false
        = 1.5 * ln 1000 / 40 * taper (damp_pos 20 j))
  /\ 1.5 * ln 1000 / 40 <> 1.5 * ln 1000 / 20.
Proof.
  split; [exact dampcoeff_value|]. split.
  - intros j. rewrite damp_val_taper, dampcoeff_value. reflexivity.
  - pose proof ln_1000_pos. lra.
Qed.

(** C8, on a 5 x 5 grid with two boundary points.  Along the middle
    column the near side receives the layer values [3/2 c] and [c] at rows
    0 and 1, while the far side receives [c] at row 4 and nothing at row 3:
    the two sides are not mirror images.  The interior point keeps its
    initial value. *)
Theorem damping_not_mirrored :
  exists d,
    damp_data small_damp 2 [1; 1] false = inr d
    /\ Np.shape d = [5; 5]%Z
    /\ item d [0; 2]%Z = 3 / 2 * dampcoeff
    /\ item d [1; 2]%Z = dampcoeff
    /\ item d [2; 2]%Z = 0
    /\ item d [3; 2]%Z = 0
    /\ item d [4; 2]%Z = dampcoeff
    /\ item d [0; 2]%Z <> item d [4; 2]%Z
    /\ item d [1; 2]%Z <> item d [3; 2]%Z.
Proof.
  remember (damp_data small_damp 2 [1; 1] false) as c eqn:E.
  lazy -[damp_val Rplus Rminus Rmult Rdiv Rinv IZR Ropp] in E. subst c.
  eexists. split; [reflexivity|]. split; [reflexivity|].
  lazy -[damp_val dampcoeff Rplus Rminus Rmult Rdiv Rinv IZR Ropp not].
  rewrite damp_val_2_0, damp_val_2_1. pose proof dampcoeff_pos.
  repeat split; lra.
Qed.

(** C9 as stated fails: with two boundary points the value next to the
    interior is smaller in magnitude than the value at the edge. *)
Lemma profile_inner_larger_counterexample :
  ~ (forall nbpml : Z, (0 < nbpml)%Z ->
       Rabs (damp_val nbpml 0 true) < Rabs (damp_val nbpml (nbpml - 1) true)).
Proof.
  intros H. specialize (H 2%Z eq_refl).
  pose proof (profile_outer_larger 2 true (Z.le_refl 2)). lra.
Qed.

(** C9 (amended).  For every boundary width of at least two points, the
    damping-profile value at the outermost boundary index (the layer at the
    domain edge) is strictly larger in magnitude than the value at the
    innermost boundary index (the layer next to the interior), for a mask
    and for a layer alike. *)
Theorem profile_grows_toward_edge (nbpml : Z) (mask : bool) :
  (2 <= nbpml)%Z ->
  Rabs (damp_val nbpml (nbpml - 1) mask) < Rabs (damp_val nbpml 0 mask).
Proof.
  exact (profile_outer_larger nbpml mask).
Qed.

(** The default boundary width, 40 points, for the mask of the model. *)
Lemma profile_grows_toward_edge_witness :
  Rabs (damp_val 40 (40 - 1) true) < Rabs (damp_val 40 0 true).
Proof.
  apply (profile_grows_toward_edge 40 true). discriminate.
Defined.

End DampingClaims.

(* ################################################################## *)
(** * Further properties of CloudExtras.py *)

Module StoreFacts.

Import CloudExtras Props PyFacts CloudAux MoreProps.

Local Open Scope Z_scope.

(** ** Row-major order *)

Lemma in_bounds_cons (n : Z) (sh : list Z) (idx : list Z) :
  in_bounds (n :: sh) idx ->
  exists i idx', idx = i :: idx' /\ 0 <= i < n /\ in_bounds sh idx'.
Proof.
  unfold in_bounds. destruct idx as [|i idx']; simpl; [discriminate|].
  intros H. apply andb_true_iff in H. destruct H as [H1 H2].
  apply andb_true_iff in H1. destruct H1 as [Ha Hb].
  exists i, idx'. repeat split; auto; lia.
Qed.

Lemma prod_nonneg (sh : list Z) :
  Forall (fun n => 0 <= n) sh -> 0 <= fold_right Z.mul 1 sh.
Proof.
  induction 1; simpl; [lia | nia].
Qed.

Lemma ravel_index_bounds (sh idx : list Z) :
  Forall (fun n => 0 <= n) sh -> in_bounds sh idx ->
  0 <= ravel_index sh idx < fold_right Z.mul 1 sh.
Proof.
  intros Hsh. revert idx. induction Hsh as [|n sh Hn Hsh IH]; intros idx Hb.
  - destruct idx; [simpl; lia | discriminate Hb].
  - destruct (in_bounds_cons _ _ _ Hb) as (i & idx' & -> & Hi & Hb').
    specialize (IH idx' Hb'). simpl. nia.
Qed.

(** Entry [k * L + r] of a concatenation of blocks of length [L]. *)
Lemma nth_flat_map_block (A B : Type) (g : A -> list B) (L : nat)
  (l : list A) (k r : nat) (d : B) (a : A) :
  (forall x, List.length (g x) = L) ->
  nth_error l k = Some a -> (r < L)%nat ->
  nth (k * L + r) (flat_map g l) d = nth r (g a) d.
Proof.
  intros HL. revert k. induction l as [|x l IH]; intros k Hk Hr.
  - destruct k; discriminate Hk.
  - destruct k as [|k]; simpl in *.
    + injection Hk as ->. rewrite app_nth1 by (rewrite HL; lia). reflexivity.
    + rewrite app_nth2 by (rewrite HL; lia). rewrite HL.
      replace (L + k * L + r - L)%nat with (k * L + r)%nat by lia.
      now apply IH.
Qed.

Lemma nth_error_range (n : Z) (k : nat) :
  (k < Z.to_nat n)%nat -> nth_error (range n) k = Some (Z.of_nat k).
Proof.
  intros Hk. unfold range. rewrite nth_error_map.
  rewrite nth_error_nth' with (d := 0%nat) by (rewrite length_seq; lia).
  rewrite seq_nth by lia. reflexivity.
Qed.

(** Reading an array back from its elements in row-major order. *)
Lemma nth_ravel (A : Type) (sh : list Z) (f : list Z -> A) (d : A)
  (idx : list Z) :
  Forall (fun n => 0 <= n) sh -> in_bounds sh idx ->
  nth (Z.to_nat (ravel_index sh idx)) (map f (indices sh)) d = f idx.
Proof.
  intros Hsh. revert f idx.
  induction Hsh as [|n sh Hn Hsh IH]; intros f idx Hb.
  - destruct idx; [reflexivity | discriminate Hb].
  - destruct (in_bounds_cons _ _ _ Hb) as (i & idx' & -> & Hi & Hb').
    pose proof (ravel_index_bounds sh idx' Hsh Hb') as Hr.
    pose proof (TagEncoding.indices_length sh Hsh) as HL. unfold len in HL.
    cbn [indices ravel_index]. rewrite flat_map_concat_map, concat_map, map_map.
    rewrite <- flat_map_concat_map.
    replace (Z.to_nat (i * fold_right Z.mul 1 sh + ravel_index sh idx'))
      with (Z.to_nat i * List.length (indices sh)
            + Z.to_nat (ravel_index sh idx'))%nat by nia.
    rewrite nth_flat_map_block with (a := i) (L := List.length (indices sh)).
    + rewrite map_map. apply (IH (fun t => f (i :: t)) idx' Hb').
    + intros x. now rewrite !length_map.
    + replace i with (Z.of_nat (Z.to_nat i)) at 2 by lia.
      apply nth_error_range. lia.
    + lia.
Qed.

Local Open Scope Q_scope.

Lemma reshape_ravel (model : ndarray Q) :
  Forall (fun n => (0 <= n)%Z) (Np.shape model) ->
  exists m',
    reshape 0 (ravel model) (Np.shape model) = inr m'
    /\ Np.shape m' = Np.shape model
    /\ forall idx, in_bounds (Np.shape model) idx ->
         item m' idx = item model idx.
Proof.
  intros Hnn. unfold reshape.
  rewrite (TagEncoding.forallb_nonneg _ Hnn). unfold ravel at 1.
  replace (len (map (item model) (indices (Np.shape model))))
    with (len (indices (Np.shape model)))
    by (unfold len; now rewrite length_map).
  rewrite (TagEncoding.indices_length _ Hnn), Z.eqb_refl.
  eexists. split; [reflexivity|]. split; [reflexivity|].
  intros idx Hidx. cbn [item]. unfold ravel. now apply nth_ravel.
Qed.

End StoreFacts.

Module StoreProps.

Import CloudExtras Props PyFacts CloudAux MoreProps StoreFacts.

Local Open Scope Q_scope.

(** [model_get] after [model_put] of a model of 32-bit floats returns the
    array that was stored, entry by entry, together with its origin and
    spacing, and [model_put] leaves every other object of the store as it
    was. *)
Theorem model_get_returns_stored_array
  (str_float : Q -> string) (float_of_str : string -> py Q)
  (np_dtype : string -> option eltype)
  (reinterpret : eltype -> eltype -> list Q -> list Q)
  (st : s3) (model : tarray) (origin spacing : list Q)
  (bucket key : string) :
  np_dtype "float32"%string = Some Float32 ->
  dtype model = Float32 ->
  is_tuple23 (Np.shape (elems model)) ->
  Forall (fun n => (0 <= n)%Z) (Np.shape (elems model)) ->
  is_tuple23 origin -> is_tuple23 spacing ->
  (forall x, In x origin \/ In x spacing ->
             repr_roundtrips str_float float_of_str x) ->
  exists st' m',
    model_put str_float st model origin spacing bucket key = inr st'
    /\ model_get float_of_str np_dtype reinterpret st' bucket key
       = inr (m', origin, spacing)
    /\ dtype m' = Float32
    /\ Np.shape (elems m') = Np.shape (elems model)
    /\ (forall idx, in_bounds (Np.shape (elems model)) idx ->
          item (elems m') idx = item (elems model) idx)
    /\ (forall b k, same_key bucket key b k = false -> st' b k = st b k).
Proof.
  intros Hn Hd Hsh Hnn Ho Hs Hx.
  destruct (TagEncoding.convert_int_roundtrip _ Hsh) as (s1 & E1 & D1).
  destruct (TagEncoding.convert_float_roundtrip str_float float_of_str
              origin Ho) as (s2 & E2 & D2);
    [intros x Hin; apply Hx; now left|].
  destruct (TagEncoding.convert_float_roundtrip str_float float_of_str
              spacing Hs) as (s3 & E3 & D3);
    [intros x Hin; apply Hx; now right|].
  unfold model_put. rewrite E1, E2, E3. py_step.
  destruct (TagEncoding.tagging_after_put st (tostring model) bucket key
              [ ("eltype", "float32"); ("creator", "S3-SLIM"); ("shape", s1);
                ("origin", s2); ("spacing", s3) ]%string)
    as (st' & Est & Hobj & Hframe).
  destruct (reshape_ravel (elems model) Hnn) as (m' & Em & Sm & Im).
  exists st', (TArray Float32 m'). split; [exact Est|].
  split; [|split; [reflexivity
                  |split; [exact Sm | split; [exact Im | exact Hframe]]]].
  rewrite (TagEncoding.model_get_of_tags float_of_str np_dtype reinterpret
             st' bucket key _ _ _ _ _ _ _ Hobj D1 D2 D3).
  rewrite (TagEncoding.fromstring_float32 np_dtype reinterpret model Hn Hd).
  py_step. rewrite Em. reflexivity.
Qed.

Lemma fold_array_get_tag_none (tags : list (string * string))
  (d : option string) :
  Forall (fun tag => String.eqb (fst tag) "eltype" = false) tags ->
  fold_left array_get_tag tags d = d.
Proof.
  revert d. induction tags as [|t r IH]; intros d H; simpl; auto.
  inversion H as [|? ? Ht Hr]; subst.
  unfold array_get_tag at 2. rewrite Ht. now apply IH.
Qed.

(** [array_get] after [array_put] of an array of 32-bit floats returns its
    elements in row-major order, as a one-dimensional array of 32-bit
    floats. *)
Theorem array_get_returns_stored_array
  (np_dtype : string -> option eltype)
  (reinterpret : eltype -> eltype -> list Q -> list Q)
  (st : s3) (a : tarray) (bucket key : string) :
  np_dtype "float32"%string = Some Float32 ->
  dtype a = Float32 ->
  Forall (fun n => (0 <= n)%Z) (Np.shape (elems a)) ->
  exists st' x,
    array_put st a bucket key = inr st'
    /\ array_get np_dtype reinterpret st' bucket key = inr x
    /\ dtype x = Float32
    /\ Np.shape (elems x) = [fold_right Z.mul 1%Z (Np.shape (elems a))]
    /\ (forall idx, in_bounds (Np.shape (elems a)) idx ->
          item (elems x) [ravel_index (Np.shape (elems a)) idx]
          = item (elems a) idx)
    /\ (forall b k, same_key bucket key b k = false -> st' b k = st b k).
Proof.
  intros Hn Hd Hnn. unfold array_put.
  destruct (TagEncoding.tagging_after_put st (tostring a) bucket key
              [ ("eltype", "float32"); ("creator", "S3-SLIM") ]%string)
    as (st' & Est & Hobj & Hframe).
  exists st', (TArray Float32 (from_flat (ravel (elems a)))).
  split; [exact Est|].
  split; [|split; [reflexivity|split; [|split; [|exact Hframe]]]].
  - unfold array_get, get_object, get_object_tagging. rewrite Hobj.
    cbv beta iota zeta delta [ret body tagset].
    cbn [fold_left array_get_tag fst snd String.eqb Ascii.eqb Bool.eqb
         lookup_var].
    cbv beta iota zeta delta [ret]. py_step.
    rewrite (TagEncoding.fromstring_float32 np_dtype reinterpret a Hn Hd).
    reflexivity.
  - unfold from_flat, ravel. cbn [Np.shape elems]. f_equal.
    rewrite <- (TagEncoding.indices_length _ Hnn). unfold len.
    now rewrite length_map.
  - intros idx Hidx. unfold from_flat, ravel. cbn [item elems ix nth].
    now apply nth_ravel.
Qed.

(** The two ways [array_get] fails: a missing object lets the error of the
    S3 request through, and an object without an ['eltype'] tag gives the
    plain [Exception('could not retrieve array')]. *)
Theorem array_get_failures
  (np_dtype : string -> option eltype)
  (reinterpret : eltype -> eltype -> list Q -> list Q)
  (st : s3) (bucket key : string) :
  (st bucket key = None ->
   exists e, array_get np_dtype reinterpret st bucket key = inl (Builtin e))
  /\ (forall bdy tags,
        st bucket key = Some (S3Object bdy tags) ->
        Forall (fun tag => String.eqb (fst tag) "eltype" = false) tags ->
        array_get np_dtype reinterpret st bucket key
        = inl (PlainException "could not retrieve array")).
Proof.
  split.
  - intros H. unfold array_get, get_object. rewrite H. eexists. reflexivity.
  - intros bdy tags H Ht.
    unfold array_get, get_object, get_object_tagging. rewrite H.
    cbv beta iota zeta delta [body tagset ret].
    rewrite (fold_array_get_tag_none _ _ Ht). reflexivity.
Qed.

(** An object written by [array_put] carries no geometry: [model_get]
    raises [NameError] on it.  An object written by [model_put] is read by
    [array_get] as its flat body.  Both for an array of 32-bit floats. *)
Theorem array_and_model_objects
  (str_float : Q -> string) (float_of_str : string -> py Q)
  (np_dtype : string -> option eltype)
  (reinterpret : eltype -> eltype -> list Q -> list Q)
  (st : s3) (a : tarray) (origin spacing : list Q) (bucket key : string) :
  np_dtype "float32"%string = Some Float32 ->
  dtype a = Float32 ->
  (exists st', array_put st a bucket key = inr st'
               /\ model_get float_of_str np_dtype reinterpret st' bucket key
                  = inl NameError)
  /\ (forall st',
        model_put str_float st a origin spacing bucket key = inr st' ->
        array_get np_dtype reinterpret st' bucket key
        = inr (TArray Float32 (from_flat (ravel (elems a))))).
Proof.
  intros Hn Hd. split.
  - unfold array_put.
    destruct (TagEncoding.tagging_after_put st (tostring a) bucket key
                [ ("eltype", "float32"); ("creator", "S3-SLIM") ]%string)
      as (st' & Est & Hobj & _).
    exists st'. split; [exact Est|].
    unfold model_get, get_object, get_object_tagging. rewrite Hobj.
    py_step. cbn [fold_left body tagset].
    unfold model_get_tag at 2. py_step. cbn [String.eqb Ascii.eqb Bool.eqb].
    unfold model_get_tag at 1. py_step. cbn [String.eqb Ascii.eqb Bool.eqb].
    cbv beta iota zeta delta [v_dtype v_shape v_origin v_spacing lookup_var
                              ret].
    py_step.
    rewrite (TagEncoding.fromstring_float32 np_dtype reinterpret a Hn Hd).
    reflexivity.
  - intros st' H. unfold model_put in H.
    apply bind_inr in H. destruct H as (s1 & _ & H).
    apply bind_inr in H. destruct H as (s2 & _ & H).
    apply bind_inr in H. destruct H as (s3 & _ & H).
    destruct (TagEncoding.tagging_after_put st (tostring a) bucket key
                [ ("eltype", "float32"); ("creator", "S3-SLIM"); ("shape", s1);
                  ("origin", s2); ("spacing", s3) ]%string)
      as (st'' & Est & Hobj & _).
    rewrite Est in H. injection H as <-.
    unfold array_get, get_object, get_object_tagging. rewrite Hobj.
    cbv beta iota zeta delta [ret body tagset].
    cbn [fold_left array_get_tag fst snd String.eqb Ascii.eqb Bool.eqb
         lookup_var].
    cbv beta iota zeta delta [ret]. py_step.
    rewrite (TagEncoding.fromstring_float32 np_dtype reinterpret a Hn Hd).
    reflexivity.
Qed.

(** A 3 x 2 model with origin (5, 0) and spacing (10, 10) comes back from
    the store. *)
Lemma model_get_returns_stored_array_witness :
  exists st' m',
    model_put str_float_integral (fun _ _ => None)
      (TArray Float32 (ramp2 3 2)) [5; 0] [10; 10] "bucket" "model" = inr st'
    /\ model_get float_of_str_integral dtype_of_name zero_fill st'
         "bucket" "model"
       = inr (m', [5; 0], [10; 10])
    /\ item (elems m') [2; 1]%Z = 2.
Proof.
  destruct (model_get_returns_stored_array
              str_float_integral float_of_str_integral dtype_of_name
              zero_fill (fun _ _ => None)
              (TArray Float32 (ramp2 3 2)) [5; 0] [10; 10]
              "bucket"%string "model"%string)
    as (st' & m' & Eput & Eget & _ & _ & Hitem & _).
  - reflexivity.
  - reflexivity.
  - left. reflexivity.
  - repeat constructor; discriminate.
  - left. reflexivity.
  - left. reflexivity.
  - intros x [[<-|[<-|[]]]|[<-|[<-|[]]]]; split; reflexivity.
  - exists st', m'. split; [exact Eput|]. split; [exact Eget|].
    rewrite (Hitem [2; 1]%Z eq_refl). reflexivity.
Defined.

(** A 3 x 2 array comes back flat. *)
Lemma array_get_returns_stored_array_witness :
  exists st' x,
    array_put (fun _ _ => None) (TArray Float32 (ramp2 3 2))
      "bucket" "array" = inr st'
    /\ array_get dtype_of_name zero_fill st' "bucket" "array" = inr x
    /\ item (elems x) [5]%Z = 2.
Proof.
  destruct (array_get_returns_stored_array dtype_of_name zero_fill
              (fun _ _ => None) (TArray Float32 (ramp2 3 2))
              "bucket"%string "array"%string)
    as (st' & x & Eput & Eget & _ & _ & Hitem & _).
  - reflexivity.
  - reflexivity.
  - repeat constructor; discriminate.
  - exists st', x. split; [exact Eput|]. split; [exact Eget|].
    exact (Hitem [2; 1]%Z eq_refl).
Defined.

(** Nothing is stored in the empty store. *)
Lemma array_get_failures_witness :
  exists e,
    array_get dtype_of_name zero_fill (fun _ _ => None) "bucket" "array"
    = inl (Builtin e).
Proof.
  apply (proj1 (array_get_failures dtype_of_name zero_fill (fun _ _ => None)
                  "bucket"%string "array"%string)).
  reflexivity.
Defined.

(** A 2 x 2 model read as an array. *)
Lemma array_and_model_objects_witness :
  exists st',
    model_put str_float_integral (fun _ _ => None)
      (TArray Float32 (ones2 2 2)) [0; 0] [10; 10] "bucket" "model"
    = inr st'
    /\ array_get dtype_of_name zero_fill st' "bucket" "model"
       = inr (TArray Float32 (from_flat (ravel (ones2 2 2)))).
Proof.
  eexists. split; [reflexivity|].
  apply (proj2 (array_and_model_objects str_float_integral
                  float_of_str_integral dtype_of_name zero_fill
                  (fun _ _ => None) (TArray Float32 (ones2 2 2))
                  [0; 0] [10; 10] "bucket"%string "model"%string
                  eq_refl eq_refl)).
  reflexivity.
Defined.

End StoreProps.

Module TagEdges.

Import CloudExtras Props PyFacts CloudAux MoreProps.

Lemma append_assoc3 (a b c : string) :
  ((a ++ b) ++ c)%string = (a ++ (b ++ c))%string.
Proof.
  induction a as [|x a IH]; simpl; [reflexivity | now rewrite IH].
Qed.

Lemma len_ge_3_not_2 (A : Type) (x y z : A) (r : list A) :
  (len (x :: y :: z :: r) =? 2)%Z = false.
Proof.
  apply Z.eqb_neq. unfold len. simpl List.length. lia.
Qed.

(** The encoding outside tuples of two or three entries.  A tuple with
    fewer than two entries cannot be encoded ([IndexError]); of a longer
    tuple only the first three entries are encoded, so decoding gives those
    three back; a single number is not decoded ([IndexError]); and parts
    after the third are ignored by the decoder. *)
Theorem tag_encoding_outside_its_domain :
  (forall (A : Type) (str : A -> string) (t : list A),
     (List.length t < 2)%nat -> convert_to_string str t = inl IndexError)
  /\ (forall t : list Z,
        (3 <= List.length t)%nat ->
        exists s, convert_to_string str_int t = inr s
                  /\ convert_int_from_string s = inr (firstn 3 t))
  /\ (forall n : Z, convert_int_from_string (str_int n) = inl IndexError)
  /\ (forall (x y z : Z) (s junk : string),
        convert_to_string str_int [x; y; z] = inr s ->
        convert_int_from_string (s ++ "S" ++ junk) = inr [x; y; z]).
Proof.
  split; [|split; [|split]].
  - intros A str t Ht.
    destruct t as [|x [|y r]]; try (simpl in Ht; lia); reflexivity.
  - intros t Ht.
    destruct t as [|x [|y [|z r]]]; try (simpl in Ht; lia).
    destruct (TagEncoding.convert_int_roundtrip [x; y; z])
      as (s & Es & Ds); [right; reflexivity|].
    exists s. split; [|exact Ds].
    unfold convert_to_string in *. rewrite len_ge_3_not_2.
    exact Es.
  - intros n. unfold convert_int_from_string.
    rewrite (TagEncoding.split_free _ _ (TagEncoding.str_int_free_of_S n)).
    py_step. rewrite TagEncoding.int_of_str_int. reflexivity.
  - intros x y z s junk Es. injection Es as <-.
    unfold convert_int_from_string. cbn [append].
    repeat (rewrite append_assoc3; cbn [append]).
    rewrite (TagEncoding.split_app _ _ _ (TagEncoding.str_int_free_of_S x)).
    rewrite (TagEncoding.split_app _ _ _ (TagEncoding.str_int_free_of_S y)).
    rewrite (TagEncoding.split_app _ _ _ (TagEncoding.str_int_free_of_S z)).
    py_step. rewrite TagEncoding.int_of_str_int. py_step.
    rewrite TagEncoding.int_of_str_int. py_step.
    rewrite len_ge_3_not_2. py_step.
    rewrite TagEncoding.int_of_str_int. reflexivity.
Qed.

(** A tuple of one entry. *)
Lemma tag_encoding_outside_its_domain_witness :
  convert_to_string str_int [5%Z] = inl IndexError.
Proof.
  apply (proj1 tag_encoding_outside_its_domain). simpl. lia.
Defined.

End TagEdges.

Module RestrictProps.

Import CloudExtras Props PyFacts CloudAux MoreProps Aperture.

Local Open Scope Q_scope.

Lemma slice_range_bounds (n a b : Z) :
  (0 <= n)%Z ->
  (0 <= fst (slice_range n a b))%Z /\ (0 <= snd (slice_range n a b))%Z
  /\ (fst (slice_range n a b) + snd (slice_range n a b) <= n)%Z.
Proof.
  intros Hn. unfold slice_range, slice_bound. cbn [fst snd].
  destruct (Z.ltb_spec a 0), (Z.ltb_spec b 0); lia.
Qed.

Lemma in_boundsb_2 (n0 n1 i j : Z) :
  (0 <= i < n0)%Z -> (0 <= j < n1)%Z -> in_bounds [n0; n1] [i; j].
Proof.
  intros Hi Hj. unfold in_bounds. cbn [in_boundsb].
  destruct (Z.leb_spec 0 i), (Z.ltb_spec i n0), (Z.leb_spec 0 j),
    (Z.ltb_spec j n1); try lia; reflexivity.
Qed.

Lemma in_boundsb_3 (n0 n1 n2 i j k : Z) :
  (0 <= i < n0)%Z -> (0 <= j < n1)%Z -> (0 <= k < n2)%Z ->
  in_bounds [n0; n1; n2] [i; j; k].
Proof.
  intros Hi Hj Hk. unfold in_bounds. cbn [in_boundsb].
  destruct (Z.leb_spec 0 i), (Z.ltb_spec i n0), (Z.leb_spec 0 j),
    (Z.ltb_spec j n1), (Z.leb_spec 0 k), (Z.ltb_spec k n2); try lia;
    reflexivity.
Qed.

(** Whatever the coordinates, the buffer and the origin, the array that
    [restrict_model_to_receiver_grid] returns is a block of the model that
    lies inside it: the reported shape is its shape, the depth axis is
    whole and keeps its origin, and every entry is the entry of the model
    at the same index counted from the corner [lo] of the block. *)
Theorem restrict_returns_block (sx gx : list Q) (m : ndarray Q)
  (spacing origin : list Q) (sy gy : option (list Q)) (buf : Q) :
  is_tuple23 (Np.shape m) ->
  Forall (fun n => (0 <= n)%Z) (Np.shape m) ->
  List.length spacing = List.length (Np.shape m) ->
  List.length origin = List.length (Np.shape m) ->
  coords_given (List.length (Np.shape m)) sx gx sy gy ->
  (forall k, (k < List.length (Np.shape m) - 1)%nat ->
             ~ nth k spacing 0 == 0) ->
  exists sub shape_sub origin_sub lo,
    restrict_model_to_receiver_grid sx gx m spacing origin sy gy buf
    = inr (sub, shape_sub, origin_sub)
    /\ Np.shape sub = shape_sub
    /\ List.length shape_sub = List.length (Np.shape m)
    /\ last shape_sub 0%Z = last (Np.shape m) 0%Z
    /\ last origin_sub 0 = last origin 0
    /\ last lo 1%Z = 0%Z
    /\ forall idx, in_bounds shape_sub idx ->
         in_bounds (Np.shape m) (add_offsets lo idx)
         /\ item sub idx = item m (add_offsets lo idx).
Proof.
  intros [H2|H3] Hnn Hsp Ho Hc Hd.
  - rewrite H2 in *.
    destruct (length_2 _ _ H2) as (n0 & nz & Hm).
    destruct (length_2 _ _ Hsp) as (d0 & d1 & ->).
    destruct (length_2 _ _ Ho) as (o0 & oz & ->).
    destruct (scan_y_ok _ _ _ _ _ Hc) as [yb Hy].
    destruct Hc as (Hsx & Hgx & _).
    pose proof (Hd 0%nat (Nat.lt_0_succ 0)) as Hd0. cbn in Hd0.
    rewrite Hm in Hnn. inversion Hnn as [|? ? Hn0 _]; subst.
    pose proof (restrict_2d sx gx m n0 nz d0 d1 o0 oz sy gy yb buf Hm Hsx Hgx
                  Hd0 Hy) as Hr. cbv zeta in Hr.
    set (a := index_lo o0 d0 sx gx buf) in *.
    set (b := index_hi o0 n0 d0 sx gx buf) in *.
    destruct (slice_range_bounds n0 a (b + 1) Hn0) as (Hlo & Hk & Hle).
    exists (NDArray [snd (slice_range n0 a (b + 1)); nz]
              (fun idx => item m (upd 0 (Z.add (fst (slice_range n0 a (b + 1))))
                                    idx))),
           [snd (slice_range n0 a (b + 1)); nz], [inject_Z a * d0; oz],
           [fst (slice_range n0 a (b + 1)); 0%Z].
    split; [exact Hr|]. rewrite Hm. repeat split.
    + destruct (in_bounds_2 _ _ _ H) as (i & j & -> & Hi & Hj).
      cbn [add_offsets]. apply in_boundsb_2; lia.
    + destruct (in_bounds_2 _ _ _ H) as (i & j & -> & Hi & Hj).
      reflexivity.
  - rewrite H3 in *.
    destruct (length_3 _ _ H3) as (n0 & n1 & nz & Hm).
    destruct (length_3 _ _ Hsp) as (d0 & d1 & d2 & ->).
    destruct (length_3 _ _ Ho) as (o0 & o1 & oz & ->).
    destruct Hc as (Hsx & Hgx & Hy).
    destruct sy as [sy|], gy as [gy|]; try discriminate Hy.
    destruct Hy as [Hsy Hgy].
    pose proof (Hd 0%nat (Nat.lt_0_succ 1)) as Hd0.
    pose proof (Hd 1%nat (Nat.lt_succ_diag_r 1)) as Hd1. cbn in Hd0, Hd1.
    rewrite Hm in Hnn. inversion Hnn as [|? ? Hn0 Hnn']; subst.
    inversion Hnn' as [|? ? Hn1 _]; subst.
    pose proof (restrict_3d sx gx sy gy m n0 n1 nz d0 d1 d2 o0 o1 oz buf Hm
                  Hsx Hgx Hsy Hgy Hd0 Hd1) as Hr. cbv zeta in Hr.
    set (rx := slice_range n0 (index_lo o0 d0 sx gx buf)
                 (index_hi o0 n0 d0 sx gx buf + 1)) in *.
    set (ry := slice_range n1 (index_lo o1 d1 sy gy buf)
                 (index_hi o1 n1 d1 sy gy buf + 1)) in *.
    destruct (slice_range_bounds n0 (index_lo o0 d0 sx gx buf)
                (index_hi o0 n0 d0 sx gx buf + 1) Hn0) as (Hlo0 & Hk0 & Hle0).
    destruct (slice_range_bounds n1 (index_lo o1 d1 sy gy buf)
                (index_hi o1 n1 d1 sy gy buf + 1) Hn1) as (Hlo1 & Hk1 & Hle1).
    fold rx in Hlo0, Hk0, Hle0. fold ry in Hlo1, Hk1, Hle1.
    exists (NDArray [snd rx; snd ry; nz]
              (fun idx => item m (upd 0 (Z.add (fst rx))
                                    (upd 1 (Z.add (fst ry)) idx)))),
           [snd rx; snd ry; nz],
           [inject_Z (index_lo o0 d0 sx gx buf) * d0;
            inject_Z (index_lo o1 d1 sy gy buf) * d1; oz],
           [fst rx; fst ry; 0%Z].
    split; [exact Hr|]. rewrite Hm. repeat split.
    + destruct (in_bounds_3 _ _ _ _ H) as (i & j & k & -> & Hi & Hj & Hk).
      cbn [add_offsets]. apply in_boundsb_3; lia.
    + destruct (in_bounds_3 _ _ _ _ H) as (i & j & k & -> & Hi & Hj & Hk).
      reflexivity.
Qed.

(** A source at 0 and receivers up to 500 on a 101 x 2 model of spacing
    10. *)
Lemma restrict_returns_block_witness :
  exists sub shape_sub origin_sub lo,
    restrict_model_to_receiver_grid [0] [0; 100; 500] (ramp2 101 2)
      [10; 10] [0; 0] None None 50 = inr (sub, shape_sub, origin_sub)
    /\ Np.shape sub = shape_sub
    /\ forall idx, in_bounds shape_sub idx ->
         item sub idx = item (ramp2 101 2) (add_offsets lo idx).
Proof.
  destruct (restrict_returns_block [0] [0; 100; 500] (ramp2 101 2)
              [10; 10] [0; 0] None None 50)
    as (sub & shape_sub & origin_sub & lo & E & S & _ & _ & _ & _ & I).
  - left. reflexivity.
  - repeat constructor; discriminate.
  - reflexivity.
  - reflexivity.
  - repeat split; discriminate.
  - intros k Hk. assert (k = 0%nat) as -> by (simpl in Hk; lia).
    discriminate.
  - exists sub, shape_sub, origin_sub, lo. split; [exact E|].
    split; [exact S|]. intros idx Hidx. exact (proj2 (I idx Hidx)).
Defined.

End RestrictProps.

Module EmbedProps.

Import CloudExtras Props PyFacts CloudAux MoreProps Aperture.

Local Open Scope Q_scope.


Lemma py_int_same_origin (x d : Q) : py_int ((x - x) / d) = 0%Z.
Proof.
  change 0%Z with (py_int 0). apply py_int_comp.
  unfold Qdiv. setoid_replace (x - x) with 0 by ring. ring.
Qed.

(** A sub-domain that is the whole domain (same shape, same origin) is
    embedded unchanged, on two axes. *)
Theorem extent_gradient_whole_domain (n0 nz : Z) (origin spacing : list Q)
  (g : ndarray Q) :
  Np.shape g = [n0; nz] -> (0 <= n0)%Z -> (0 <= nz)%Z ->
  List.length origin = 2%nat -> List.length spacing = 2%nat ->
  ~ nth 0 spacing 0 == 0 ->
  exists r,
    extent_gradient [n0; nz] origin [n0; nz] origin spacing g = inr r
    /\ Np.shape r = Np.shape g
    /\ forall idx, in_bounds (Np.shape g) idx -> item r idx = item g idx.
Proof.
  intros Hg Hn0 Hnz Ho Hsp Hd.
  destruct (length_2 _ _ Ho) as (o0 & o1 & ->).
  destruct (length_2 _ _ Hsp) as (d0 & d1 & ->). cbn in Hd.
  destruct (extent_gradient_2d n0 nz n0 [nz] o0 o0 d0 [o1] [o1] [d1] g Hg Hd)
    as (r & Er & Sr & Ir); try (rewrite py_int_same_origin; lia); try lia.
  rewrite py_int_same_origin in Ir.
  exists r. split; [exact Er|]. rewrite Hg. split; [exact Sr|].
  intros idx Hidx. rewrite (Ir idx Hidx).
  destruct (in_bounds_2 _ _ _ Hidx) as (i & j & -> & Hi & Hj).
  cbn [insideb shift]. rewrite !Z.sub_0_r.
  destruct (Z.leb_spec 0 i), (Z.ltb_spec i (0 + n0)), (Z.leb_spec 0 j),
    (Z.ltb_spec j (0 + nz)); try lia; reflexivity.
Qed.


(** A 3 x 2 gradient on its own domain. *)
Lemma extent_gradient_whole_domain_witness :
  exists r,
    extent_gradient [3; 2]%Z [5; 0] [3; 2]%Z [5; 0] [10; 10] (ramp2 3 2)
    = inr r
    /\ Np.shape r = [3; 2]%Z
    /\ forall idx, in_bounds [3; 2]%Z idx -> item r idx = item (ramp2 3 2) idx.
Proof.
  apply (extent_gradient_whole_domain 3 2 [5; 0] [10; 10] (ramp2 3 2)).
  - reflexivity.
  - lia.
  - lia.
  - reflexivity.
  - reflexivity.
  - discriminate.
Defined.

End EmbedProps.

(* ################################################################## *)
(** * The mute window of the data *)

Module MuteProps.

Import CloudExtras Props PyFacts CloudAux MoreProps Aperture.

Local Open Scope Q_scope.

Lemma norm_index_ok (n i : Z) : (0 <= i < n)%Z -> norm_index n i = inr i.
Proof.
  intros Hi. unfold norm_index.
  destruct (Z.ltb_spec i 0); [lia|].
  destruct (Z.ltb_spec i 0); [lia|].
  destruct (Z.leb_spec n i); [lia|]. reflexivity.
Qed.

(** [data_mute] fails on data that are not two-dimensional ([ValueError]
    of the unpacking), on receiver coordinates without a row or a column
    ([IndexError]), and on data without receivers ([ZeroDivisionError] of
    the slope). *)
Theorem data_mute_failures (dobs rec_coordinates : ndarray Q) (tn dt : Q)
  (mute_start : Q) (mute_all : option Z) :
  (List.length (Np.shape dobs) <> 2%nat ->
   data_mute dobs rec_coordinates tn dt mute_start mute_all = inl ValueError)
  /\ (forall nt nrec nr d,
        Np.shape dobs = [nt; nrec] -> Np.shape rec_coordinates = [nr; d] ->
        (nr <= 0)%Z \/ (d <= 0)%Z ->
        data_mute dobs rec_coordinates tn dt mute_start mute_all
        = inl IndexError)
  /\ (forall nt nr d,
        Np.shape dobs = [nt; 0%Z] -> Np.shape rec_coordinates = [nr; d] ->
        (0 < nr)%Z -> (0 < d)%Z -> ~ dt == 0 ->
        data_mute dobs rec_coordinates tn dt mute_start mute_all
        = inl ZeroDivisionError).
Proof.
  split; [|split].
  - intros H. unfold data_mute.
    destruct (Np.shape dobs) as [|a [|b [|c r]]]; try reflexivity.
    now elim H.
  - intros nt nrec nr d Hs Hrc Hbad. unfold data_mute, getitem2.
    rewrite Hs, Hrc. unfold norm_index. cbn [Z.ltb Z.compare].
    destruct (Z.ltb_spec (-1 + nr) 0); [reflexivity|]. cbn [orb].
    destruct (Z.leb_spec nr (-1 + nr)); [reflexivity|].
    destruct Hbad as [Hbad|Hbad]; [lia|].
    unfold bind at 1. unfold bind at 1.
    destruct (Z.leb_spec d 0); [reflexivity|lia].
  - intros nt nr d Hs Hrc Hnr Hd Hdt. unfold data_mute, getitem2.
    rewrite Hs, Hrc.
    assert (E1 : norm_index nr (-1) = inr (nr - 1)%Z).
    { unfold norm_index. cbn [Z.ltb Z.compare].
      replace (-1 + nr)%Z with (nr - 1)%Z by lia.
      destruct (Z.ltb_spec (nr - 1) 0), (Z.leb_spec nr (nr - 1)); try lia.
      reflexivity. }
    rewrite E1, !(norm_index_ok d 0), (norm_index_ok nr 0) by lia.
    py_step. rewrite (np_int_quot_ok _ _ Hdt). reflexivity.
Qed.

(** Data on a single axis. *)
Lemma data_mute_failures_witness :
  data_mute (NDArray [3%Z] (fun _ => 1)) (ramp2 2 2) 1 (1 # 10) 1 None
  = inl ValueError.
Proof.
  apply (proj1 (data_mute_failures (NDArray [3%Z] (fun _ => 1)) (ramp2 2 2)
                  1 (1 # 10) 1 None)).
  discriminate.
Defined.

End MuteProps.

(* ################################################################## *)
(** * Further properties of the model *)

Module ModelExtra.

Import PyModel PyFacts ModelProps ModelMore ModelFacts.

Local Open Scope R_scope.

Lemma mul_1d_same_length (a b : list R) :
  List.length a = List.length b ->
  mul_1d a b = inr (map (fun xy => fst xy * snd xy) (combine a b)).
Proof.
  intros H. unfold mul_1d.
  destruct a as [|x [|x' a']].
  - destruct b; [reflexivity|discriminate].
  - destruct b as [|y [|y' b']]; try discriminate. reflexivity.
  - destruct b as [|y [|y' b']]; try discriminate.
    unfold len. rewrite H, Z.eqb_refl. reflexivity.
Qed.

Lemma spacing_recovered (sp : list R) (sh : list Z) :
  List.length sp = List.length sh ->
  Forall (fun n => (1 < n)%Z) sh ->
  map (fun en => fst en / IZR (snd en - 1))
    (combine (map (fun xy => fst xy * snd xy)
                (combine sp (map (fun n => IZR (n - 1)) sh))) sh)
  = sp.
Proof.
  revert sh. induction sp as [|s sp IH]; intros [|n sh] Hlen Hpos;
    try discriminate; [reflexivity|].
  inversion Hpos as [|? ? Hn Hsh]; subst. cbn [map combine fst snd].
  f_equal.
  - field. apply not_0_IZR. lia.
  - apply IH; [now injection Hlen|exact Hsh].
Qed.

(** A constructed model reports the spacing it was given, the physical size
    [(n - 1) * s] of each axis and the number of axes, when the extended
    grid has more than one point on every axis. *)
Theorem model_reports_spacing (fsd : Function -> R -> py Function)
  (a : ModelArgs) (m : Model) :
  Model_init fsd a = inr m ->
  List.length (a_spacing a) = List.length (a_shape a) ->
  Forall (fun n => (1 < n + 2 * a_nbpml a)%Z) (a_shape a) ->
  spacing m = a_spacing a
  /\ domain_size m = physical_size (a_shape a) (a_spacing a)
  /\ dim m = len (a_shape a).
Proof.
  intros H Hlen Hpos.
  destruct (Model_init_inv fsd a m H)
    as (Hs & _ & _ & _ & Hgs & _ & Hext & _).
  rewrite mul_1d_same_length in Hext by (now rewrite !length_map).
  injection Hext as Hext.
  assert (Hsp : spacing m = a_spacing a).
  { unfold spacing, grid_spacing. rewrite <- Hext, Hgs.
    apply spacing_recovered; [now rewrite length_map|].
    now apply Forall_map. }
  split; [exact Hsp|]. split.
  - unfold domain_size, physical_size. now rewrite Hsp, Hs.
  - unfold dim, len. now rewrite Hgs, length_map.
Qed.

(** A constructed model is TTI exactly when one of [epsilon], [delta],
    [theta], [phi] was supplied, whatever its value. *)
Theorem is_tti_iff_anisotropic (fsd : Function -> R -> py Function)
  (a : ModelArgs) (m : Model) :
  Model_init fsd a = inr m ->
  (is_tti m = true <-> anisotropic a).
Proof.
  unfold Model_init. intros H.
  next_step H ext Hext. next_step H g Hg.
  next_step H m0 Hm0. next_step H rho0 Hrho.
  next_step H m1 Hm1. next_step H d0 Hd0. next_step H d1 Hd1.
  next_step H dm0 Hdm. next_step H es Hes. destruct es as [eps sc].
  next_step H de Hde. next_step H th Hth. next_step H ph Hph.
  injection H as <-. unfold is_tti, anisotropic. cbn [_is_tti].
  destruct (a_epsilon a), (a_delta a), (a_theta a), (a_phi a);
    split; intros H; try reflexivity; try discriminate;
    try (left; discriminate); try (right; left; discriminate);
    try (right; right; left; discriminate);
    try (right; right; right; discriminate).
  destruct H as [H|[H|[H|H]]]; congruence.
Qed.

(** How construction fails: a spacing with another number of entries than
    the shape (neither being a single entry) is a [ValueError] of the
    product; more than three axes an [AssertionError] of the grid; a
    velocity number 0 a [ZeroDivisionError]; any other velocity number, with
    a density number, an [AttributeError] of the velocity setter. *)
Theorem construction_failures (fsd : Function -> R -> py Function)
  (a : ModelArgs) :
  (List.length (a_spacing a) <> List.length (a_shape a) ->
   List.length (a_spacing a) <> 1%nat -> List.length (a_shape a) <> 1%nat ->
   Model_init fsd a = inl ValueError)
  /\ (List.length (a_spacing a) = List.length (a_shape a) ->
      (3 < List.length (a_shape a))%nat ->
      Model_init fsd a = inl AssertionError)
  /\ (List.length (a_spacing a) = List.length (a_shape a) ->
      (List.length (a_shape a) <= 3)%nat ->
      forall v, a_vp a = Scalar v ->
        (v = 0 -> Model_init fsd a = inl ZeroDivisionError)
        /\ (v <> 0 -> (exists r, a_rho a = Scalar r) ->
            Model_init fsd a = inl AttributeError)).
Proof.
  split; [|split].
  - intros Hne Hsp Hsh. unfold Model_init.
    assert (E : mul_1d (a_spacing a)
                  (map (fun n => IZR (n - 1))
                     (map (fun n => (n + 2 * a_nbpml a)%Z) (a_shape a)))
                = inl ValueError).
    { unfold mul_1d.
      destruct (a_spacing a) as [|x [|x' sp]], (a_shape a) as [|n [|n' sh]];
        cbn [List.length map] in *; try congruence.
      - reflexivity.
      - destruct (Z.eqb_spec (len (x :: x' :: sp)) (len (@nil R)));
          [discriminate|reflexivity].
      - match goal with |- (if ?c then _ else _) = _ => destruct c eqn:E end;
          [|reflexivity].
        apply Z.eqb_eq in E. unfold len in E. apply Nat2Z.inj in E.
        cbn [List.length] in E. rewrite !length_map in E. congruence. }
    rewrite E. reflexivity.
  - intros Hlen H3. unfold Model_init.
    rewrite mul_1d_same_length by (now rewrite !length_map). py_step.
    unfold new_Grid, len. rewrite length_map.
    destruct (Z.ltb_spec 3 (Z.of_nat (List.length (a_shape a)))); [|lia].
    reflexivity.
  - intros Hlen H3 v Hv. unfold Model_init.
    rewrite mul_1d_same_length by (now rewrite !length_map). py_step.
    unfold new_Grid, len. rewrite length_map.
    destruct (Z.ltb_spec 3 (Z.of_nat (List.length (a_shape a)))); [lia|].
    py_step. rewrite Hv. split.
    + intros ->. unfold inv_square.
      destruct (Req_dec_T 0 0); [reflexivity|contradiction].
    + intros Hv0 (r & Hr). rewrite ModelClaims.inv_square_ok by exact Hv0. py_step.
      rewrite Hr. cbn [init_param]. py_step. cbn [vp_setter].
      rewrite ModelClaims.inv_square_ok by exact Hv0. reflexivity.
Qed.

(** The example model reports the spacing (10, 10). *)
Lemma model_reports_spacing_witness :
  exists m,
    Model_init read_only_data example_args = inr m
    /\ spacing m = [10; 10]
    /\ domain_size m = physical_size [101; 101]%Z [10; 10]
    /\ dim m = 2%Z.
Proof.
  destruct (Model_init_ok read_only_data example_args
              ModelClaims.example_args_valid) as [m Hm].
  exists m. split; [exact Hm|].
  apply (model_reports_spacing read_only_data example_args m Hm).
  - reflexivity.
  - repeat constructor.
Defined.

(** The example model is not TTI. *)
Lemma is_tti_iff_anisotropic_witness :
  exists m,
    Model_init read_only_data example_args = inr m
    /\ (is_tti m = true <-> anisotropic example_args).
Proof.
  destruct (Model_init_ok read_only_data example_args
              ModelClaims.example_args_valid) as [m Hm].
  exists m. split; [exact Hm|].
  exact (is_tti_iff_anisotropic read_only_data example_args m Hm).
Defined.

(** The example call with velocity 0. *)
Lemma construction_failures_witness :
  Model_init read_only_data zero_vp_args = inl ZeroDivisionError.
Proof.
  apply (proj1 (proj2 (proj2 (construction_failures read_only_data
                                zero_vp_args))
                  eq_refl ltac:(simpl; lia) 0 eq_refl)).
  reflexivity.
Defined.

End ModelExtra.

Module SlownessProps.

Import PyModel PyFacts ModelProps ModelMore ModelFacts.

Local Open Scope R_scope.

Lemma combine_app_same (A B : Type) (a c : list A) (b d : list B) :
  List.length a = List.length b ->
  combine (a ++ c) (b ++ d) = combine a b ++ combine c d.
Proof.
  revert b. induction a as [|x a IH]; intros [|y b] H; try discriminate;
    [reflexivity|].
  simpl. f_equal. apply IH. now injection H.
Qed.

Lemma combine_rev_same (A B : Type) (a : list A) (b : list B) :
  List.length a = List.length b ->
  combine (List.rev a) (List.rev b) = List.rev (combine a b).
Proof.
  revert b. induction a as [|x a IH]; intros [|y b] H; try discriminate;
    [reflexivity|].
  cbn [List.rev combine]. injection H as H.
  rewrite combine_app_same by (now rewrite !length_rev).
  now rewrite IH.
Qed.

Lemma in_bounds_length (sh idx : list Z) :
  in_bounds sh idx -> List.length idx = List.length sh.
Proof.
  revert idx. induction sh as [|n sh IH]; intros [|i idx] H;
    try discriminate H; [reflexivity|].
  unfold in_bounds in H. cbn [in_boundsb] in H.
  apply andb_true_iff in H. destruct H as [_ H].
  cbn [List.length]. f_equal. now apply IH.
Qed.

(** A point inside an array of the target's shape is its own broadcast
    source. *)
Lemma broadcast_index_halo (nb so : Z) (sh idx : list Z) :
  (0 <= nb)%Z -> (0 <= so)%Z -> Forall (fun n => (0 < n)%Z) sh ->
  in_bounds (map (fun n => (n + 2 * nb)%Z) sh) idx ->
  broadcast_index
    (map (fun n => (n + (nb + so) + (nb + so))%Z) sh) (map (Z.add so) idx)
  = map (Z.add so) idx.
Proof.
  intros Hnb Hso Hpos Hin. unfold broadcast_index.
  pose proof (in_bounds_length _ _ Hin) as Hlen. rewrite length_map in Hlen.
  rewrite combine_rev_same by (now rewrite !length_map).
  rewrite <- map_rev, rev_involutive. clear Hlen.
  revert idx Hin. induction Hpos as [|n sh Hn Hsh IH]; intros idx Hin.
  - destruct idx; [reflexivity|discriminate Hin].
  - cbn [map] in Hin.
    destruct (StoreFacts.in_bounds_cons _ _ _ Hin) as (i & r & -> & Hi & Hr).
    cbn [map combine fst snd]. f_equal; [|now apply IH].
    destruct (Z.eqb_spec (n + (nb + so) + (nb + so)) 1); lia.
Qed.

Lemma nearest_halo (nb so : Z) (sh idx : list Z) :
  nearest (nb + so) sh (map (Z.add so) idx) = nearest nb sh idx.
Proof.
  unfold nearest. revert idx. induction sh as [|n sh IH]; intros [|i idx];
    try reflexivity.
  cbn [map combine fst snd]. f_equal; [f_equal; lia|apply IH].
Qed.

Lemma pad_index (l r : Z) (sh idx : list Z) :
  map (fun inp => clamp 0 (fst (snd inp) - 1) (fst inp - fst (snd (snd inp))))
    (combine idx (combine sh (repeat (l, r) (List.length sh))))
  = nearest l sh idx.
Proof.
  unfold nearest. revert idx. induction sh as [|n sh IH]; intros [|i idx];
    try reflexivity.
  cbn [List.length repeat map combine fst snd]. f_equal. apply IH.
Qed.

(** [np.pad(a, .., 'edge')]: every point of the result copies the nearest
    point of [a]. *)
Lemma pad_edge_item (A : Type) (a : ndarray A) (l r : Z) :
  (0 <= l)%Z -> (0 <= r)%Z ->
  Forall (fun n => (0 < n)%Z) (Np.shape a) ->
  exists a',
    pad_edge a (repeat (l, r) (List.length (Np.shape a))) = inr a'
    /\ Np.shape a' = map (fun n => (n + l + r)%Z) (Np.shape a)
    /\ forall idx, item a' idx = item a (nearest l (Np.shape a) idx).
Proof.
  intros Hl Hr Hpos.
  destruct (pad_edge_ok A a l r Hl Hr Hpos) as (a' & E & S).
  exists a'. split; [exact E|]. split; [exact S|].
  unfold pad_edge in E.
  rewrite (pad_widths_same _ _ _ (repeat_length _ _)) in E.
  destruct (negb _); [discriminate E|].
  destruct (existsb _ _); [discriminate E|].
  destruct (existsb _ _); [discriminate E|].
  injection E as <-. intros idx. cbn [item]. now rewrite pad_index.
Qed.

(** [initialize_function] fills a function with [data]: on the physical
    domain with [data] itself, in the boundary layers with the nearest
    point of [data]. *)
Theorem initialize_function_content (f : Function) (data : ndarray R)
  (nb : Z) :
  (0 <= nb)%Z -> (0 <= space_order f)%Z ->
  Forall (fun n => (0 < n)%Z) (Np.shape data) ->
  grid_shape (fgrid f) = map (fun n => (n + 2 * nb)%Z) (Np.shape data) ->
  Np.shape (data_with_halo f)
  = map (fun n => (n + 2 * space_order f)%Z) (grid_shape (fgrid f)) ->
  exists f',
    initialize_function f data nb = inr f'
    /\ fgrid f' = fgrid f /\ space_order f' = space_order f
    /\ forall idx, in_bounds (grid_shape (fgrid f)) idx ->
         item (fdata f') idx = item data (nearest nb (Np.shape data) idx).
Proof.
  intros Hnb Hso Hpos Hg Hsh. unfold initialize_function, size_halo.
  rewrite map_repeat. cbn [fst snd].
  replace (List.length (grid_shape (fgrid f)))
    with (List.length (Np.shape data)) by (now rewrite Hg, length_map).
  destruct (pad_edge_item _ data (nb + space_order f) (nb + space_order f))
    as (d & Hd & Hds & Hdi); try lia; auto.
  rewrite Hd. py_step. unfold assign_all.
  assert (Es : Np.shape d = Np.shape (data_with_halo f)).
  { rewrite Hds, Hsh, Hg, map_map. apply map_ext. intros; lia. }
  rewrite Es, broadcast_ok_refl. py_step.
  eexists. split; [reflexivity|]. repeat split.
  intros idx Hidx. cbn [fdata item fgrid space_order data_with_halo].
  rewrite <- Es, Hds.
  rewrite Hg in Hidx.
  rewrite (broadcast_index_halo nb (space_order f) _ _ Hnb Hso Hpos Hidx).
  now rewrite Hdi, nearest_halo.
Qed.

(** The slowness of a constructed model is [1 / vp**2] at every point of
    the physical domain, and in the boundary layers the slowness of the
    nearest point of the physical domain. *)
Theorem slowness_of_model (fsd : Function -> R -> py Function)
  (a : ModelArgs) (arr : ndarray R) :
  valid_args a -> a_vp a = Array arr ->
  exists m f,
    Model_init fsd a = inr m
    /\ PyModel.m m = Fun f /\ fgrid f = grid m
    /\ forall idx, in_bounds (shape_domain m) idx ->
         let v := item arr (nearest (a_nbpml a) (a_shape a) idx) in
         item (fdata f) idx = 1 / (v * v).
Proof.
  intros Hv Harr.
  destruct (Model_init_ok fsd a Hv) as (m & H). exists m.
  destruct Hv as ((arr' & Hvp & Hsh) & _ & _ & _ & _ & _ & _
                  & Hpos & _ & _ & Hnb & Hso).
  rewrite Harr in Hvp. injection Hvp as <-.
  pose proof H as H0.
  unfold Model_init in H. rewrite Harr in H.
  next_step H ext Hext. next_step H g Hg.
  apply new_Grid_inv in Hg. subst g.
  next_step H m0 Hm0. next_step H rho0 Hrho.
  next_step H m1 Hm1. next_step H d0 Hd0. next_step H d1 Hd1.
  next_step H dm0 Hdm. next_step H es Hes. destruct es as [eps sc].
  next_step H de Hde. next_step H th Hth. next_step H ph Hph.
  injection H as <-. cbn [PyModel.m grid shape_domain grid_shape].
  next_step Hm0 f0 Hf0. injection Hm0 as <-.
  cbn [vp_setter] in Hm1. next_step Hm1 f1 Hf1. injection Hm1 as <-.
  unfold new_Function in Hf0. next_step Hf0 d Hd. injection Hf0 as <-.
  unfold full in Hd. destruct (forallb _ _); [|discriminate Hd].
  injection Hd as <-.
  match type of Hf1 with
  | initialize_function ?f0 ?d ?nb = _ =>
      destruct (initialize_function_content f0 d nb)
        as (f' & E & Eg & _ & Ec)
  end.
  { exact Hnb. } { exact Hso. }
  { cbn [map_nd Np.shape]. now rewrite Hsh. }
  { cbn [map_nd Np.shape fgrid grid_shape]. now rewrite Hsh. }
  { reflexivity. }
  rewrite Hf1 in E. injection E as <-.
  exists f1. split; [exact H0|]. split; [reflexivity|]. split; [exact Eg|].
  intros idx Hidx. cbn [fgrid grid_shape map_nd Np.shape item] in Ec.
  rewrite (Ec idx Hidx), Hsh. reflexivity.
Qed.

(** Assigning a velocity array of the interior shape to a constructed model
    replaces the velocity and rewrites the slowness from it; the grid, the
    damping field, the shape and the scale stay.  Assigning the number 0
    raises [ZeroDivisionError]. *)
Theorem set_vp_rewrites_slowness (fsd : Function -> R -> py Function)
  (a : ModelArgs) (m : Model) (arr : ndarray R) :
  Model_init fsd a = inr m ->
  Np.shape arr = a_shape a ->
  Forall (fun n => (0 < n)%Z) (a_shape a) ->
  (0 <= a_nbpml a)%Z -> (0 <= a_space_order a)%Z ->
  (exists m' f',
     set_vp fsd m (Array arr) = inr m'
     /\ vp m' = Array arr /\ PyModel.m m' = Fun f'
     /\ (forall idx, in_bounds (shape_domain m) idx ->
          let v := item arr (nearest (a_nbpml a) (a_shape a) idx) in
          item (fdata f') idx = 1 / (v * v))
     /\ grid m' = grid m /\ damp m' = damp m /\ shape m' = shape m
     /\ scale m' = scale m /\ max_vp m' = amax arr)
  /\ set_vp fsd m (Scalar 0) = inl ZeroDivisionError.
Proof.
  intros H Harr Hpos Hnb Hso.
  destruct (Model_init_inv fsd a m H) as (_ & Hn & _ & _ & Hgs & _).
  destruct (Model_init_m fsd a m H) as (f & Hm & Fso & Fg & Fsh).
  split.
  - destruct (initialize_function_content f
                (map_nd (fun v => 1 / (v * v)) arr) (a_nbpml a))
      as (f' & E & _ & _ & Ec).
    { exact Hnb. } { now rewrite Fso. }
    { cbn [map_nd Np.shape]. now rewrite Harr. }
    { cbn [map_nd Np.shape]. now rewrite Harr, Fg. }
    { now rewrite Fsh, Fso, Fg. }
    unfold set_vp. rewrite Hm, Hn. cbn [vp_setter]. rewrite E. py_step.
    eexists. exists f'. split; [reflexivity|].
    cbn [vp _vp PyModel.m grid damp shape scale max_vp].
    repeat split.
    intros idx Hidx. unfold shape_domain in Hidx. rewrite Hgs, <- Fg in Hidx.
    cbn [map_nd Np.shape item] in Ec. rewrite (Ec idx Hidx), Harr.
    reflexivity.
  - unfold set_vp. cbn [vp_setter]. unfold inv_square.
    destruct (Req_dec_T 0 0); [reflexivity|contradiction].
Qed.

(** A single value spread over a 5 x 5 grid with two boundary points. *)
Lemma initialize_function_content_witness :
  exists f',
    initialize_function small_damp (const_array [1; 1]%Z 3) 2 = inr f'
    /\ forall idx, in_bounds [5; 5]%Z idx -> item (fdata f') idx = 3.
Proof.
  destruct (initialize_function_content small_damp (const_array [1; 1]%Z 3)
              2) as (f' & E & _ & _ & C).
  - lia.
  - simpl. lia.
  - repeat constructor.
  - reflexivity.
  - reflexivity.
  - exists f'. split; [exact E|]. intros idx Hidx. exact (C idx Hidx).
Defined.

(** The slowness of the example model is 1/4 everywhere. *)
Lemma slowness_of_model_witness :
  exists m f,
    Model_init read_only_data example_args = inr m
    /\ PyModel.m m = Fun f
    /\ forall idx, in_bounds (shape_domain m) idx ->
         item (fdata f) idx = 1 / (2 * 2).
Proof.
  destruct (slowness_of_model read_only_data example_args
              (const_array [101; 101]%Z 2) ModelClaims.example_args_valid
              eq_refl) as (m & f & Hm & Hf & _ & C).
  exists m, f. split; [exact Hm|]. split; [exact Hf|].
  intros idx Hidx. exact (C idx Hidx).
Defined.

(** The example model with its velocity replaced by 3 everywhere. *)
Lemma set_vp_rewrites_slowness_witness :
  exists m m',
    Model_init read_only_data example_args = inr m
    /\ set_vp read_only_data m (Array (const_array [101; 101]%Z 3)) = inr m'
    /\ vp m' = Array (const_array [101; 101]%Z 3)
    /\ grid m' = grid m.
Proof.
  destruct (Model_init_ok read_only_data example_args
              ModelClaims.example_args_valid) as [m Hm].
  destruct (proj1 (set_vp_rewrites_slowness read_only_data example_args m
                     (const_array [101; 101]%Z 3) Hm eq_refl
                     ltac:(repeat constructor) ltac:(simpl; lia)
                     ltac:(simpl; lia)))
    as (m' & f' & E & Hv & _ & _ & Hg & _).
  exists m, m'. repeat split; assumption.
Defined.

End SlownessProps.

(* ################################################################## *)
(** * Further properties of the damping field *)

Module DampingField.

Import PyModel PyFacts ModelProps ModelMore ModelFacts Damping SlownessProps.

Local Open Scope R_scope.

(** The position of layer [j] of [nbpml] layers. *)
Lemma damp_pos_layer (nbpml j : Z) :
  (0 < nbpml)%Z -> (j <= nbpml)%Z ->
  damp_pos nbpml j = IZR (nbpml - j + 1) / IZR nbpml
  /\ 0 < IZR (nbpml - j + 1) / IZR nbpml.
Proof.
  intros Hn Hj. apply IZR_lt in Hn.
  assert (Hp : 0 < IZR (nbpml - j + 1)) by (apply IZR_lt; lia).
  assert (H : 0 < IZR (nbpml - j + 1) / IZR nbpml)
    by (apply Rdiv_lt_0_compat; lra).
  split; [|exact H]. unfold damp_pos. apply Rabs_pos_eq. lra.
Qed.

Lemma taper_nonneg (p : R) : 0 <= p -> 0 <= taper p.
Proof.
  intros [H| <-]; [left; now apply taper_pos | rewrite taper_0; lra].
Qed.

(** The magnitude of a layer value, whatever the arguments. *)
Lemma damp_magnitude_nonneg (nbpml j : Z) :
  0 <= dampcoeff * taper (damp_pos nbpml j).
Proof.
  apply Rmult_le_pos; [left; apply dampcoeff_pos|].
  apply taper_nonneg. unfold damp_pos. apply Rabs_pos.
Qed.

(** The value of a layer decreases strictly in magnitude from each layer
    to the next one inward, over all [nbpml] layers (and the value that
    [j = nbpml] would get); it is positive for a layer and negative for a
    mask. *)
Theorem profile_decreases_inward (nbpml j j' : Z) (mask : bool) :
  (0 <= j < j')%Z -> (j' <= nbpml)%Z ->
  Rabs (damp_val nbpml j' mask) < Rabs (damp_val nbpml j mask)
  /\ 0 < damp_val nbpml j false /\ damp_val nbpml j true < 0.
Proof.
  intros Hj Hj'.
  assert (Hn : (0 < nbpml)%Z) by lia.
  destruct (damp_pos_layer nbpml j Hn) as [Ej Pj]; [lia|].
  destruct (damp_pos_layer nbpml j' Hn Hj') as [Ej' Pj'].
  assert (Hlt : damp_pos nbpml j' < damp_pos nbpml j).
  { rewrite Ej, Ej'. unfold Rdiv. apply Rmult_lt_compat_r.
    - apply Rinv_0_lt_compat, IZR_lt, Hn.
    - apply IZR_lt. lia. }
  assert (Hpos : 0 < dampcoeff * taper (damp_pos nbpml j)).
  { apply Rmult_lt_0_compat; [apply dampcoeff_pos|].
    apply taper_pos. now rewrite Ej. }
  split; [|split].
  - rewrite !damp_val_abs by (rewrite ?Ej, ?Ej'; assumption).
    apply Rmult_lt_compat_l; [apply dampcoeff_pos|].
    now apply taper_increasing.
  - rewrite damp_val_taper. exact Hpos.
  - rewrite damp_val_taper. lra.
Qed.

(** ** The sign of the field *)

Lemma damp_quotient_sign (nb j : Z) (mask : bool) (s : R) :
  0 < s ->
  if mask then damp_val nb j mask / s <= 0 else 0 <= damp_val nb j mask / s.
Proof.
  intros Hs. pose proof (damp_magnitude_nonneg nb j) as H.
  assert (Hi : 0 < / s) by now apply Rinv_0_lt_compat.
  rewrite damp_val_taper. unfold Rdiv. destruct mask; nra.
Qed.

Lemma damp_step_sign (nb : Z) (spacing : list R) (mask : bool)
  (k : nat) (j : Z) (data : ndarray R) :
  (k < List.length spacing)%nat -> (k < List.length (Np.shape data))%nat ->
  Forall (fun s => 0 < s) spacing ->
  exists d',
    damp_step nb spacing mask (Z.of_nat k) j data = inr d'
    /\ Np.shape d' = Np.shape data
    /\ forall idx,
         if mask then item d' idx <= item data idx
         else item data idx <= item d' idx.
Proof.
  intros Hs Hd Hpos. unfold damp_step.
  destruct (getitem_nat _ spacing k Hs) as (s & Es & Ns). rewrite Es. py_step.
  assert (Hs0 : 0 < s).
  { rewrite Forall_forall in Hpos. apply Hpos.
    now apply nth_error_In with (n := k). }
  rewrite Nat2Z.id.
  destruct (nth_error (Np.shape data) k) as [n|] eqn:En;
    [|apply nth_error_None in En; lia].
  destruct (iadd_slice_item k j (j + 1) (damp_val nb j mask / s) data n En)
    as (d1 & E1 & S1 & I1).
  rewrite E1. py_step.
  assert (Hd1 : (k < List.length (Np.shape d1))%nat) by now rewrite S1.
  destruct (getitem_nat _ (Np.shape d1) k Hd1) as (n' & En' & En'').
  rewrite S1, En in En''. injection En'' as <-.
  rewrite En'. py_step.
  assert (En1 : nth_error (Np.shape d1) k = Some n) by now rewrite S1.
  destruct (iadd_slice_item k (n - j) (n - j + 1) (damp_val nb j mask / s)
              d1 n En1) as (d2 & E2 & S2 & I2).
  rewrite E2. exists d2. split; [reflexivity|]. split; [congruence|].
  intros idx. rewrite I2, I1.
  pose proof (damp_quotient_sign nb j mask s Hs0) as Hc.
  destruct mask;
    repeat match goal with
      | |- context [if ?c then _ else _] => destruct c
      end; lra.
Qed.

Lemma damp_loops_sign (nd nb : Z) (spacing : list R) (mask : bool)
  (data : ndarray R) :
  (Z.to_nat nd <= List.length spacing)%nat ->
  (Z.to_nat nd <= List.length (Np.shape data))%nat ->
  Forall (fun s => 0 < s) spacing ->
  exists d',
    damp_loops nd nb spacing mask data = inr d'
    /\ forall idx,
         if mask then item d' idx <= item data idx
         else item data idx <= item d' idx.
Proof.
  intros Hs Hd Hpos. unfold damp_loops.
  set (P := fun d : ndarray R =>
              Np.shape d = Np.shape data
              /\ forall idx,
                   if mask then item d idx <= item data idx
                   else item data idx <= item d idx).
  destruct (fold_left_py _ _ P
              (fun i => exists k, i = Z.of_nat k /\ (k < Z.to_nat nd)%nat)
              (fun acc i =>
                 fold_left
                   (fun acc j =>
                      (d <- acc ;; damp_step nb spacing mask i j d)%py)
                   (range nb) acc)
              (range nd))
    with (a := data) as (d' & E & _ & I).
  - intros a i Ha (k & -> & Hk).
    apply (fold_left_py _ _ P (fun _ => True));
      [| apply Forall_forall; intros; exact Logic.I | exact Ha].
    intros a0 j [Sa0 Ia0] _. py_step.
    destruct (damp_step_sign nb spacing mask k j a0) as (d' & E & S & I);
      [lia | rewrite Sa0; lia | exact Hpos |].
    exists d'. split; [exact E|]. split; [congruence|].
    intros idx. specialize (I idx). specialize (Ia0 idx).
    destruct mask; lra.
  - apply Forall_forall. intros i. apply range_spec.
  - split; [reflexivity|]. intros idx. destruct mask; lra.
  - exists d'. split; [exact E | exact I].
Qed.

Lemma nearest_in_bounds (sh idx : list Z) :
  in_bounds sh idx -> nearest 0 sh idx = idx.
Proof.
  unfold nearest. revert idx. induction sh as [|n sh IH]; intros idx H.
  - destruct idx; [reflexivity|discriminate H].
  - destruct (StoreFacts.in_bounds_cons _ _ _ H) as (i & r & -> & Hi & Hr).
    cbn [combine map fst snd]. f_equal; [unfold clamp; lia|now apply IH].
Qed.

(** The damping field that [initialize_damp] writes: 1 for a mask and 0 for
    a layer at every point of the physical domain, and nowhere above 1 for
    a mask, nowhere below 0 for a layer. *)
Lemma initialize_damp_field (damp : Function) (nb : Z) (spacing : list R)
  (mask : bool) :
  (0 <= nb)%Z -> (0 <= space_order damp)%Z ->
  phy_nbpml (fgrid damp) = nb ->
  Forall (fun n => (0 < n - 2 * nb)%Z) (grid_shape (fgrid damp)) ->
  List.length spacing = List.length (grid_shape (fgrid damp)) ->
  Forall (fun s => 0 < s) spacing ->
  Np.shape (data_with_halo damp)
  = map (fun n => (n + 2 * space_order damp)%Z) (grid_shape (fgrid damp)) ->
  exists f',
    initialize_damp damp nb spacing mask = inr f'
    /\ fgrid f' = fgrid damp
    /\ forall idx, in_bounds (grid_shape (fgrid damp)) idx ->
         (if mask then item (fdata f') idx <= 1
          else 0 <= item (fdata f') idx)
         /\ (interior nb (grid_shape (fgrid damp)) idx ->
             item (fdata f') idx = if mask then 1 else 0).
Proof.
  intros Hnb Hso Hphy Hpos Hsp Hs0 Hsh. unfold initialize_damp.
  destruct (damp_data_interior damp nb spacing mask Hnb Hphy Hpos Hsp)
    as (d & E & S & I).
  assert (Hsign : forall idx,
            if mask then item d idx <= 1 else 0 <= item d idx).
  { clear I. unfold damp_data, phydomain_shape, fndim, len in E.
    rewrite Hphy in E. rewrite Aperture.full_ok in E.
    2:{ apply Forall_map. revert Hpos. apply Forall_impl. intros; lia. }
    revert E. py_step. rewrite map_const_range.
    set (d0 := NDArray _ _).
    destruct (pad_edge_ok _ d0 nb nb Hnb Hnb) as (d1 & E1 & S1).
    { unfold d0. cbn [Np.shape]. now apply Forall_map. }
    unfold d0 in E1 at 2. cbn [Np.shape] in E1. rewrite length_map in E1.
    rewrite E1. py_step.
    pose proof (pad_edge_const _ _ _ _ _ E1) as I1.
    unfold offset_domain, size_halo. rewrite offsets_agree. cbn [negb].
    unfold d0 in S1. cbn [Np.shape] in S1. rewrite map_map in S1.
    destruct (damp_loops_sign
                (Z.of_nat (List.length (grid_shape (fgrid damp))))
                nb spacing mask d1) as (d2 & E2 & I2).
    - rewrite Nat2Z.id. lia.
    - rewrite Nat2Z.id, S1, length_map. lia.
    - exact Hs0.
    - rewrite E2. intros [= <-] idx. specialize (I2 idx).
      rewrite I1 in I2. destruct mask; exact I2. }
  rewrite E. py_step.
  destruct (initialize_function_content damp d 0) as (f' & E' & Eg & _ & C);
    try lia.
  - rewrite S. revert Hpos. apply Forall_impl. intros; lia.
  - rewrite S. rewrite <- (map_id (grid_shape (fgrid damp))) at 1.
    apply map_ext. intros; lia.
  - exact Hsh.
  - exists f'. split; [exact E'|]. split; [exact Eg|].
    intros idx Hidx. rewrite (C idx Hidx), S, (nearest_in_bounds _ _ Hidx).
    split; [apply Hsign | apply I].
Qed.

(** [initialize_damp] on a function whose grid has a physical domain of at
    least one point on every axis, with positive spacings: the field is 1
    (mask) or 0 (layer) on the physical domain, and at most 1 (mask) or at
    least 0 (layer) everywhere. *)
Theorem damping_field_bounds (damp : Function) (nb : Z) (spacing : list R)
  (mask : bool) :
  (0 <= nb)%Z -> (0 <= space_order damp)%Z ->
  phy_nbpml (fgrid damp) = nb ->
  Forall (fun n => (0 < n - 2 * nb)%Z) (grid_shape (fgrid damp)) ->
  List.length spacing = List.length (grid_shape (fgrid damp)) ->
  Forall (fun s => 0 < s) spacing ->
  Np.shape (data_with_halo damp)
  = map (fun n => (n + 2 * space_order damp)%Z) (grid_shape (fgrid damp)) ->
  exists f',
    initialize_damp damp nb spacing mask = inr f'
    /\ forall idx, in_bounds (grid_shape (fgrid damp)) idx ->
         (if mask then item (fdata f') idx <= 1
          else 0 <= item (fdata f') idx)
         /\ (interior nb (grid_shape (fgrid damp)) idx ->
             item (fdata f') idx = if mask then 1 else 0).
Proof.
  intros Hnb Hso Hphy Hpos Hsp Hs0 Hsh.
  destruct (initialize_damp_field damp nb spacing mask Hnb Hso Hphy Hpos Hsp
              Hs0 Hsh) as (f' & E & _ & C).
  exists f'. split; [exact E | exact C].
Qed.

(** The damping field of a constructed model is a mask: 1 throughout the
    physical domain and at most 1 in the boundary layers. *)
Theorem damping_mask_of_model (fsd : Function -> R -> py Function)
  (a : ModelArgs) :
  valid_args a ->
  Forall (fun s => 0 < s) (a_spacing a) ->
  Forall (fun n => (1 < n + 2 * a_nbpml a)%Z) (a_shape a) ->
  exists m,
    Model_init fsd a = inr m
    /\ fgrid (damp m) = grid m
    /\ forall idx, in_bounds (shape_domain m) idx ->
         item (fdata (damp m)) idx <= 1
         /\ (interior (nbpml m) (shape_domain m) idx ->
             item (fdata (damp m)) idx = 1).
Proof.
  intros Hv Hs0 H1.
  destruct (Model_init_ok fsd a Hv) as (m & H). exists m.
  destruct Hv as ((arr & Hvp & Hsh) & _ & _ & _ & _ & _ & _
                  & Hpos & _ & Hlen & Hnb & Hso).
  pose proof H as H0.
  unfold Model_init in H.
  rewrite ModelExtra.mul_1d_same_length in H by (now rewrite !length_map).
  revert H. py_step. intros H.
  next_step H g Hg. apply new_Grid_inv in Hg. subst g.
  next_step H m0 Hm0. next_step H rho0 Hrho.
  next_step H m1 Hm1. next_step H d0 Hd0. next_step H d1 Hd1.
  next_step H dm0 Hdm. next_step H es Hes. destruct es as [eps sc].
  next_step H de Hde. next_step H th Hth. next_step H ph Hph.
  injection H as <-. split; [exact H0|].
  cbn [damp grid shape_domain grid_shape nbpml].
  match type of Hd0 with
  | new_Function ?g 1 = _ =>
      destruct (new_Function_ok g 1) as (d & Ed & Dg & Dso & Dsh)
  end.
  { cbn [grid_shape]. apply Forall_map. revert Hpos. apply Forall_impl.
    intros; lia. }
  rewrite Hd0 in Ed. injection Ed as <-.
  destruct (initialize_damp_field d0 (a_nbpml a) (grid_spacing (fgrid d0))
              true) as (f' & E & Eg & C).
  - exact Hnb.
  - rewrite Dso. lia.
  - now rewrite Dg.
  - rewrite Dg. cbn [grid_shape]. apply Forall_map. revert Hpos.
    apply Forall_impl. intros; lia.
  - rewrite Dg. unfold grid_spacing. cbn [extent grid_shape].
    rewrite length_map, length_combine, !length_map, length_combine,
      !length_map, Hlen. lia.
  - rewrite Dg. unfold grid_spacing. cbn [extent grid_shape].
    rewrite ModelExtra.spacing_recovered;
      [exact Hs0 | now rewrite length_map | now apply Forall_map].
  - now rewrite Dsh, Dso, Dg.
  - rewrite Dg in E at 1. rewrite Hd1 in E. injection E as <-.
    rewrite Dg in Eg, C. split; [exact Eg|]. exact C.
Qed.

(** The outermost and the innermost of 40 layers. *)
Lemma profile_decreases_inward_witness :
  Rabs (damp_val 40 39 true) < Rabs (damp_val 40 0 true)
  /\ 0 < damp_val 40 0 false /\ damp_val 40 0 true < 0.
Proof.
  apply (profile_decreases_inward 40 0 39 true); lia.
Defined.

(** A layer on a 5 x 5 grid whose physical domain is the centre point. *)
Lemma damping_field_bounds_witness :
  exists f',
    initialize_damp small_damp 2 [1; 1] false = inr f'
    /\ forall idx, in_bounds [5; 5]%Z idx -> 0 <= item (fdata f') idx.
Proof.
  destruct (damping_field_bounds small_damp 2 [1; 1] false)
    as (f' & E & C).
  - lia.
  - simpl. lia.
  - reflexivity.
  - repeat constructor.
  - reflexivity.
  - repeat constructor; lra.
  - reflexivity.
  - exists f'. split; [exact E|]. intros idx Hidx.
    exact (proj1 (C idx Hidx)).
Defined.

(** The damping mask of the example model. *)
Lemma damping_mask_of_model_witness :
  exists m,
    Model_init read_only_data example_args = inr m
    /\ forall idx, in_bounds (shape_domain m) idx ->
         item (fdata (damp m)) idx <= 1.
Proof.
  destruct (damping_mask_of_model read_only_data example_args
              ModelClaims.example_args_valid)
    as (m & Hm & _ & C).
  - repeat constructor; lra.
  - repeat constructor.
  - exists m. split; [exact Hm|]. intros idx Hidx.
    exact (proj1 (C idx Hidx)).
Defined.

End DampingField.
